(** * QR attendance backend: the attendance controller

    A shallow embedding of the attendance controller (submission,
    offline sync, summaries, class query, status update, manual entry
    and the full report) together with the properties its specification
    states about it.

    Conventions.
    - A Mongo collection is a list of documents in insertion order.
    - ObjectIds and the other identifiers are strings.
    - A field that a document or a request body may lack is an [option].
    - A handler is a function from the attendance collection to the new
      collection and the HTTP response; an exception raised inside the
      [try] block is a value [inl message] handled by the [catch] clause.
    - Requests that overlap in time are the requests in flight of a
      [Config]: each operation of a handler on the attendance collection
      is one [step], and a handler as a function is the run of a request
      that no other interrupts.
    - JavaScript numbers that are counts are integers ([Z]); the two
      percentages are binary64 values, see [Float64]. *)

From Stdlib Require Import ZArith QArith Qround Qabs Qpower.
From Stdlib Require Import List String Ascii Bool Lia Lqa.
From Stdlib Require Import Permutation Sorted.
From Stdlib Require Import SpecFloat.
Import ListNotations.

Open Scope string_scope.
Open Scope list_scope.
Open Scope Z_scope.

(** ** JavaScript values the controller inspects *)

Definition ObjectId := string.

(** A [Date] object: a time value in milliseconds since the epoch, or
    the Invalid Date. *)
Inductive JsDate :=
| ValidDate (ms : Z)
| InvalidDate.

(** [new Date(v)] for a value [v] that denotes the instant [ms]
    ([Some ms]) or that is missing or does not parse ([None]).  Time
    values beyond 8.64e15 ms are outside the range of [Date]. *)
Definition newDate (v : option Z) : JsDate :=
  match v with
  | Some ms => if Z.abs ms <=? 8640000000000000 then ValidDate ms else InvalidDate
  | None => InvalidDate
  end.

(** The value of a body field that is compared with [=== true]. *)
Inductive JsFlag :=
| JsTrue
| JsFalse
| JsUndefined
| JsOther (v : string).

(** [v !== true] *)
Definition notStrictlyTrue (v : JsFlag) : bool :=
  match v with
  | JsTrue => false
  | _ => true
  end.

(** Truthiness of an optional string: [undefined], [null] and the empty
    string are falsy. *)
Definition truthy (v : option string) : bool :=
  match v with
  | Some s => negb (s =? "")%string
  | None => false
  end.

Definition isSome {A : Type} (v : option A) : bool :=
  match v with
  | Some _ => true
  | None => false
  end.

(** [hay.includes(needle)] *)
Definition includes (hay needle : string) : bool :=
  isSome (index 0 needle hay).

(** Equality of two optional identifiers, as a Mongo filter
    [{ field: v }] decides it: a filter value [undefined] is sent as
    [null] and matches the documents that lack the field. *)
Definition optEqb (a b : option ObjectId) : bool :=
  match a, b with
  | Some x, Some y => (x =? y)%string
  | None, None => true
  | _, _ => false
  end.

(** [{ field: { $in: ids } }] *)
Definition inIds (v : option ObjectId) (ids : list ObjectId) : bool :=
  match v with
  | Some x => existsb (String.eqb x) ids
  | None => false
  end.

(** [status === 'present'] and its siblings, on a status that may be
    missing. *)
Definition statusIs (s : string) (v : option string) : bool :=
  match v with
  | Some x => (x =? s)%string
  | None => false
  end.

(** ** Documents *)

Record Coordinates := {
  latitude : option Q;
  longitude : option Q
}.

(** A document of the [attendances] collection. *)
Record Attendance := {
  _id : nat;
  studentId : option ObjectId;
  classId : option ObjectId;
  sessionId : option ObjectId;
  scheduleId : option ObjectId;
  status : option string;
  studentCoordinates : option Coordinates;
  livenessPassed : JsFlag;
  faceEmbedding : option (list Q);
  timestamp : JsDate;
  manualEntry : option bool;
  markedBy : option ObjectId;
  synced : option bool;
  notes : option string
}.

(** A document of the [users] collection (the fields the controller
    reads; [userModel.js]). *)
Record User := {
  u_id : ObjectId;
  fullName : string;
  enrollmentNo : option string;
  faceImageS3Key : option string
}.

(** A document of the [qrcodesessions] collection. *)
Record QRCodeSession := {
  qr_id : ObjectId;
  qr_sessionId : string;
  qr_classId : ObjectId;
  qr_scheduleId : option ObjectId;
  isActive : bool;
  sessionExpiresAt : Z
}.

(** A document of the [classenrollments] collection. *)
Record ClassEnrollment := {
  e_studentId : ObjectId;
  e_classId : ObjectId
}.

(** The collections the controller reads.  Only [attendances] is ever
    written; it is threaded through the handlers separately. *)
Record Directory := {
  users : list User;
  qrSessions : list QRCodeSession;
  enrollments : list ClassEnrollment
}.

(** ** What lies outside the controller *)

(** The Attendance schema is declared in [attendanceModel.js]; the
    controller relies on it for the fields it leaves unset. *)
Record Schema := {
  defaultStatus : option string;
  defaultManualEntry : option bool;
  defaultSynced : option bool
}.

(** Modelled from the spec: the defaults of the Attendance schema
    ([models/attendanceModel.js]); the data model gives
    [status] as defaulting to present, and [manualEntry] and [synced]
    as booleans that are true only for manual entries and for records
    created by batch reconciliation. *)
Definition specSchema : Schema := {|
  defaultStatus := Some "present";
  defaultManualEntry := Some false;
  defaultSynced := Some false
|}.

(** The result of [compareFaces]: a boolean, or a rejected promise. *)
Inductive VerifierOutcome :=
| FacesMatch
| FacesDiffer
| VerifierError (message : string).

(** The environment of one request. *)
Record Env := {
  (** the n-th evaluation of [new Date()] *)
  clock : nat -> Z;
  (** [Buffer.from(faceImage.replace(/^data:image\/\w+;base64,/, ''), 'base64')] *)
  decodeImage : string -> list Byte.byte;
  (** [compareFaces(referenceKey, buffer)], AWS Rekognition *)
  compareFaces : string -> list Byte.byte -> VerifierOutcome;
  (** whether [doc.save()] is rejected by the store (validation,
      an index, the connection), and with which message *)
  saveError : list Attendance -> Attendance -> option string
}.

(** ** Binary64 arithmetic

    JavaScript numbers and Mongo doubles are IEEE 754 binary64 values.
    A finite value is carried as the rational it denotes; an operation
    rounds the exact result to the nearest value with a 53-bit
    significand, ties to even.  The exponent range is not limited: the
    quotients and percentages of the controller lie far inside it, and
    the counts they are computed from are integers below 2^53, which
    are binary64 values themselves. *)
Module Float64.

Definition double := Q.

Definition pow2 (e : Z) : Q := (2 # 1) ^ e.

(** Rounding to the nearest integer, ties to even. *)
Definition roundHalfEven (y : Q) : Z :=
  let f := Qfloor y in
  match (y - inject_Z f ?= 1 # 2)%Q with
  | Lt => f
  | Gt => f + 1
  | Eq => if Z.even f then f else f + 1
  end.

(** The exponent [e] of the last place of [x > 0]:
    [2^52 <= x / 2^e < 2^53]. *)
Definition ulpExp (x : Q) : Z :=
  let e0 := Z.log2 (Qnum x) - Z.log2 (Zpos (Qden x)) - 52 in
  if Qle_bool (pow2 52) (x * pow2 (- e0)) then e0 else e0 - 1.

(** Rounding of an exact result to binary64. *)
Definition round64 (x : Q) : double :=
  match Qnum x with
  | Z0 => 0%Q
  | Zpos _ =>
      (inject_Z (roundHalfEven (x * pow2 (- ulpExp x))) * pow2 (ulpExp x))%Q
  | Zneg _ =>
      (- (inject_Z (roundHalfEven (- x * pow2 (- ulpExp (- x))))
          * pow2 (ulpExp (- x))))%Q
  end.

(** An integer count as a number. *)
Definition ofInt (n : Z) : double := inject_Z n.

(** [x / y], for [y] other than zero. *)
Definition fdiv (x y : double) : double := round64 (x / y).

(** [x * y] *)
Definition fmul (x y : double) : double := round64 (x * y).

(** [x.toFixed(2)], as the number of hundredths it prints: the integer
    [n] for which [n / 100 - x] is closest to zero, the larger one of
    two. *)
Definition toFixed2 (x : double) : Z :=
  if Qle_bool 0 x then Qfloor (x * 100 + (1 # 2))
  else - Qfloor (- x * 100 + (1 # 2)).

(** [parseFloat] of the decimal numeral with [n] hundredths. *)
Definition parseHundredths (n : Z) : double := round64 (inject_Z n / 100).

(** The relative error of one rounding. *)
Definition u53 : Q := pow2 (-53).

(** The same operations in the reference semantics of Corelib's
    [SpecFloat], for cross-checking. *)
Definition valueOf (f : spec_float) : option Q :=
  match f with
  | S754_zero _ => Some 0%Q
  | S754_finite s m e =>
      Some ((if s then -1 else 1) * inject_Z (Zpos m) * pow2 e)%Q
  | _ => None
  end.

Definition b64 (n : Z) : spec_float := binary_normalize 53 1024 n 0 false.

Definition agreesWithSpecFloat (a h : Z) : bool :=
  match valueOf (SFmul 53 1024 (SFdiv 53 1024 (b64 a) (b64 h)) (b64 100)) with
  | Some q => Qeq_bool q (fmul (fdiv (ofInt a) (ofInt h)) (ofInt 100))
  | None => false
  end.

End Float64.

(** ** Responses and the handler monad *)

(** [res.status(code).json({ message, ... })] *)
Record Res (A : Type) := {
  code : Z;
  message : option string;
  payload : option A
}.

Arguments code {A} _.
Arguments message {A} _.
Arguments payload {A} _.

Definition reply {A : Type} (c : Z) (msg : string) : Res A :=
  {| code := c; message := Some msg; payload := None |}.

Definition replyWith {A : Type} (c : Z) (msg : option string) (a : A) : Res A :=
  {| code := c; message := msg; payload := Some a |}.

(** The body of a [try] block: it reads and extends the attendance
    collection and either completes with a value or throws an [Error]
    with a message.  What was saved before a throw stays saved. *)
Definition Handler (A : Type) : Type :=
  list Attendance -> list Attendance * (string + A).

Definition ret {A : Type} (a : A) : Handler A :=
  fun docs => (docs, inr a).

Definition throw {A : Type} (msg : string) : Handler A :=
  fun docs => (docs, inl msg).

Definition bind {A B : Type} (m : Handler A) (k : A -> Handler B) : Handler B :=
  fun docs =>
    match m docs with
    | (docs', inr a) => k a docs'
    | (docs', inl msg) => (docs', inl msg)
    end.

Notation "x <- m ;; k" := (bind m (fun x => k))
  (at level 61, m at next level, right associativity).

(** [await Attendance.findOne({ studentId, sessionId })] *)
Definition samePair (st sid : option ObjectId) (d : Attendance) : bool :=
  optEqb (studentId d) st && optEqb (sessionId d) sid.

Definition findOne (st sid : option ObjectId) : Handler (option Attendance) :=
  fun docs => (docs, inr (find (samePair st sid) docs)).

(** The [_id] that [new Attendance(...)] gives a document: fresh, here
    the number of documents stored so far (none is ever deleted). *)
Definition freshId : Handler nat :=
  fun docs => (docs, inr (List.length docs)).

(** [await doc.save()] *)
Definition save (env : Env) (doc : Attendance) : Handler unit :=
  fun docs =>
    match saveError env docs doc with
    | Some msg => (docs, inl msg)
    | None => (docs ++ [doc], inr tt)
    end.

(** [await compareFaces(key, buffer)] *)
Definition awaitCompareFaces (env : Env) (key : string) (buffer : list Byte.byte)
  : Handler bool :=
  match compareFaces env key buffer with
  | FacesMatch => ret true
  | FacesDiffer => ret false
  | VerifierError msg => throw msg
  end.

(** ** [submitAttendance] (POST /api/student/attendance) *)

(** [req.body] *)
Record SubmitBody := {
  b_sessionId : option string;
  b_classId : option string;
  b_studentCoordinates : option Coordinates;
  b_livenessPassed : JsFlag;
  b_faceImage : option string
}.

Definition orEmpty (v : option string) : string :=
  match v with
  | Some s => s
  | None => ""
  end.

(** [await User.findById(studentId)] *)
Definition User_findById (dir : Directory) (id : ObjectId) : option User :=
  find (fun u => (u_id u =? id)%string) (users dir).

(** [await QRCodeSession.findOne({ sessionId, classId, isActive: true,
    sessionExpiresAt: { $gt: now } })] *)
Definition validSession (sid cid : string) (now : Z) (q : QRCodeSession) : bool :=
  (qr_sessionId q =? sid)%string && (qr_classId q =? cid)%string
  && isActive q && (now <? sessionExpiresAt q).

Definition QRCodeSession_findOne (dir : Directory) (sid cid : string) (now : Z)
  : option QRCodeSession :=
  find (validSession sid cid now) (qrSessions dir).

(** The 5 MB limit: [buffer.length / (1024 * 1024) > 5].  The division
    by a power of two is exact. *)
Definition tooLarge (buffer : list Byte.byte) : bool :=
  5 * (1024 * 1024) <? Z.of_nat (List.length buffer).

(** [new Attendance({ ... })], lines 85 to 99: [status] and [synced]
    are left to the schema. *)
Definition submittedRecord (env : Env) (schema : Schema) (studentId : ObjectId)
  (body : SubmitBody) (qrSession : QRCodeSession) (id : nat) : Attendance := {|
  _id := id;
  studentId := Some studentId;
  classId := b_classId body;
  sessionId := Some (qr_id qrSession);
  scheduleId := qr_scheduleId qrSession;
  status := defaultStatus schema;
  studentCoordinates :=
    match b_studentCoordinates body with
    | Some c => Some {| latitude := latitude c; longitude := longitude c |}
    | None => None
    end;
  livenessPassed := JsTrue;
  faceEmbedding := None;
  timestamp := ValidDate (clock env 1%nat);
  manualEntry := Some false;
  markedBy := None;
  synced := defaultSynced schema;
  notes := None
|}.

(** The [try] block, lines 16 to 106.  [studentId] is [req.user.id]. *)
Definition submitAttendance_try (env : Env) (schema : Schema) (dir : Directory)
  (studentId : ObjectId) (body : SubmitBody) : Handler (Res Attendance) :=
  if negb (truthy (b_sessionId body)) || negb (truthy (b_classId body))
     || negb (isSome (b_studentCoordinates body))
     || negb (truthy (b_faceImage body))
  then ret (reply 400 "Missing required attendance data.")
  else if notStrictlyTrue (b_livenessPassed body)
  then ret (reply 400 "Liveness check was not passed.")
  else
    match User_findById dir studentId with
    | None =>
        ret (reply 404 "Student profile not found or face is not registered.")
    | Some student =>
        if negb (truthy (faceImageS3Key student))
        then ret (reply 404 "Student profile not found or face is not registered.")
        else
          let targetImageBuffer := decodeImage env (orEmpty (b_faceImage body)) in
          if tooLarge targetImageBuffer
          then ret (reply 400 "Image too large. Please try again with a smaller image.")
          else
            facesDoMatch <- awaitCompareFaces env
                              (orEmpty (faceImageS3Key student)) targetImageBuffer ;;
            if negb facesDoMatch
            then ret (reply 401 "Face recognition failed. Identity could not be verified.")
            else
              match QRCodeSession_findOne dir (orEmpty (b_sessionId body))
                      (orEmpty (b_classId body)) (clock env 0%nat) with
              | None => ret (reply 400 "This QR code is invalid or has expired.")
              | Some qrSession =>
                  existingAttendance <- findOne (Some studentId) (Some (qr_id qrSession)) ;;
                  if isSome existingAttendance
                  then ret (reply 409 "You have already marked attendance for this session.")
                  else
                    id <- freshId ;;
                    let attendanceRecord :=
                      submittedRecord env schema studentId body qrSession id in
                    _ <- save env attendanceRecord ;;
                    ret (replyWith 201 (Some "Attendance marked successfully!")
                           attendanceRecord)
              end
    end.

(** The [catch] clause, lines 108 to 114. *)
Definition submitAttendance_catch {A : Type} (msg : string) : Res A :=
  if includes msg "Face could not be verified"
  then reply 401 msg
  else reply 500 (if (msg =? "")%string
                  then "An unexpected server error occurred." else msg).

Definition submitAttendance (env : Env) (schema : Schema) (dir : Directory)
  (studentId : ObjectId) (body : SubmitBody) (docs : list Attendance)
  : list Attendance * Res Attendance :=
  match submitAttendance_try env schema dir studentId body docs with
  | (docs', inr res) => (docs', res)
  | (docs', inl msg) => (docs', submitAttendance_catch msg)
  end.

(** ** [syncAttendance] (POST /api/student/attendance/sync) *)

(** One element of [req.body.attendances]. *)
Record Claim := {
  c_sessionId : option ObjectId;
  c_classId : option ObjectId;
  c_scheduleId : option ObjectId;
  c_studentCoordinates : option Coordinates;
  c_livenessPassed : JsFlag;
  c_faceEmbedding : option (list Q);
  (** the instant the [timestamp] value denotes, if it denotes one *)
  c_timestamp : option Z
}.

(** One element of [req.body.attendances], a value parsed from JSON:
    [null], which line 134 cannot destructure, or any other value, of
    which the handler sees the seven properties it reads (a number, a
    string, a boolean or an array has none of them). *)
Inductive Element :=
| JsonNull
| Fields (record : Claim).

(** [req.body.attendances] *)
Inductive AttendancesField :=
| NotAnArray
| ArrayOf (elements : list Element).

(** The message of the TypeError that line 134 throws on [null]. *)
Definition cannotDestructure : string :=
  "Cannot destructure property 'sessionId' of 'record' as it is null.".

(** An element of [syncResults]. *)
Record SyncResult := {
  r_sessionId : option ObjectId;
  r_status : string;
  r_message : option string
}.

(** [new Attendance({ ... })], lines 143 to 154. *)
Definition syncedRecord (schema : Schema) (studentId : ObjectId) (record : Claim)
  (id : nat) : Attendance := {|
  _id := id;
  studentId := Some studentId;
  classId := c_classId record;
  sessionId := c_sessionId record;
  scheduleId := c_scheduleId record;
  status := defaultStatus schema;
  studentCoordinates := c_studentCoordinates record;
  livenessPassed := c_livenessPassed record;
  faceEmbedding := c_faceEmbedding record;
  timestamp := newDate (c_timestamp record);
  manualEntry := defaultManualEntry schema;
  markedBy := None;
  synced := Some true;
  notes := Some " Synced from offline data"
|}.

(** [{ sessionId, status: 'skipped', message: 'Already exists.' }] *)
Definition skipped (record : Claim) : SyncResult := {|
  r_sessionId := c_sessionId record;
  r_status := "skipped";
  r_message := Some "Already exists."
|}.

(** [{ sessionId, status: 'success' }] *)
Definition succeeded (record : Claim) : SyncResult := {|
  r_sessionId := c_sessionId record;
  r_status := "success";
  r_message := None
|}.

(** The [for ... of] loop, lines 133 to 158, with [syncResults] as an
    accumulator. *)
Fixpoint syncLoop (env : Env) (schema : Schema) (studentId : ObjectId)
  (attendances : list Element) (syncResults : list SyncResult)
  : Handler (list SyncResult) :=
  match attendances with
  | [] => ret syncResults
  | JsonNull :: _ => throw cannotDestructure
  | Fields record :: rest =>
      existing <- findOne (Some studentId) (c_sessionId record) ;;
      if isSome existing
      then syncLoop env schema studentId rest (syncResults ++ [skipped record])
      else
        id <- freshId ;;
        _ <- save env (syncedRecord schema studentId record id) ;;
        syncLoop env schema studentId rest (syncResults ++ [succeeded record])
  end.

Definition syncAttendance (env : Env) (schema : Schema) (studentId : ObjectId)
  (attendances : AttendancesField) (docs : list Attendance)
  : list Attendance * Res (list SyncResult) :=
  match attendances with
  | NotAnArray => (docs, reply 400 "No attendance records to sync.")
  | ArrayOf [] => (docs, reply 400 "No attendance records to sync.")
  | ArrayOf records =>
      match syncLoop env schema studentId records [] docs with
      | (docs', inr syncResults) =>
          (docs', replyWith 200 (Some "Sync completed.") syncResults)
      | (docs', inl msg) => (docs', reply 500 msg)
      end
  end.

(** ** The attendance summaries (GET /api/attendance/summary[/class/:classId]) *)

Record Summary := {
  s_classId : option ObjectId;
  totalHeldSessions : Z;
  totalAttendedSessions : Z;
  totalMissedSessions : Z;
  percentage : Float64.double
}.

(** [await Attendance.distinct('sessionId', filter)]: the distinct
    values of the field among the matching documents; a document that
    lacks the field contributes none. *)
Definition distinctSessionIds (matching : Attendance -> bool)
  (docs : list Attendance) : list ObjectId :=
  nodup string_dec
    (flat_map (fun d => match sessionId d with
                        | Some s => [s]
                        | None => []
                        end)
       (filter matching docs)).

(** [await Attendance.countDocuments(filter)] *)
Definition countDocuments (matching : Attendance -> bool)
  (docs : list Attendance) : Z :=
  Z.of_nat (List.length (filter matching docs)).

(** The filters [{ studentId }] and [{ classId }]. *)
Definition ofStudent (id : ObjectId) (d : Attendance) : bool :=
  optEqb (studentId d) (Some id).

Definition ofClass (id : ObjectId) (d : Attendance) : bool :=
  optEqb (classId d) (Some id).

(** The filter [{ classId: { $in: classIds } }]. *)
Definition inClasses (classIds : list ObjectId) (d : Attendance) : bool :=
  inIds (classId d) classIds.

(** Lines 290 to 292 and 341 to 343. *)
Definition rawPercentage (totalHeldSessions totalAttendedSessions : Z)
  : Float64.double :=
  if totalHeldSessions =? 0
  then Float64.ofInt 100
  else Float64.fmul
         (Float64.fdiv (Float64.ofInt totalAttendedSessions)
            (Float64.ofInt totalHeldSessions))
         (Float64.ofInt 100).

(** [parseFloat(percentage.toFixed(2))] *)
Definition twoDecimals (x : Float64.double) : Float64.double :=
  Float64.parseHundredths (Float64.toFixed2 x).

(** The [summary] object, lines 296 to 301 and 347 to 353. *)
Definition summaryOf (cid : option ObjectId)
  (totalHeldSessions totalAttendedSessions : Z) : Summary := {|
  s_classId := cid;
  totalHeldSessions := totalHeldSessions;
  totalAttendedSessions := totalAttendedSessions;
  totalMissedSessions := totalHeldSessions - totalAttendedSessions;
  percentage := twoDecimals (rawPercentage totalHeldSessions totalAttendedSessions)
|}.

Definition getMyAttendanceSummary (dir : Directory) (studentId : ObjectId)
  (docs : list Attendance) : Res Summary :=
  let enrollments :=
    filter (fun e => (e_studentId e =? studentId)%string) (enrollments dir) in
  match enrollments with
  | [] => reply 200 "Student is not enrolled in any classes."
  | _ =>
      let classIds := map e_classId enrollments in
      let heldSessionIds :=
        distinctSessionIds (inClasses classIds) docs in
      let totalHeldSessions := Z.of_nat (List.length heldSessionIds) in
      let totalAttendedSessions :=
        countDocuments (fun d => ofStudent studentId d && inClasses classIds d)
          docs in
      replyWith 200 (Some "Overall summary fetched successfully")
        (summaryOf None totalHeldSessions totalAttendedSessions)
  end.

Definition getMyClassAttendanceSummary (studentId classId : ObjectId)
  (docs : list Attendance) : Res Summary :=
  let heldSessionIds :=
    distinctSessionIds (ofClass classId) docs in
  let totalHeldSessions := Z.of_nat (List.length heldSessionIds) in
  let totalAttendedSessions :=
    countDocuments (fun d => ofStudent studentId d && ofClass classId d) docs in
  replyWith 200 (Some "Class summary fetched successfully")
    (summaryOf (Some classId) totalHeldSessions totalAttendedSessions).

(** ** [getAttendanceByClass] (teachers and admins) *)

(** [req.query]: the date parameters, when given, as the instants they
    denote. *)
Record ClassQuery := {
  q_startDate : option Z;
  q_endDate : option Z;
  q_status : option string
}.

(** [{ timestamp: { $gte: from, $lte: to } }], either bound optional. *)
Definition inRange (from to : option Z) (d : Attendance) : bool :=
  match timestamp d with
  | ValidDate ms =>
      match from with Some lo => lo <=? ms | None => true end
      && match to with Some hi => ms <=? hi | None => true end
  | InvalidDate => negb (isSome from) && negb (isSome to)
  end.

(** The filter built in lines 434 to 443. *)
Definition classQueryFilter (cid : ObjectId) (q : ClassQuery) (d : Attendance) : bool :=
  ofClass cid d
  && inRange (q_startDate q) (q_endDate q) d
  && match q_status q with
     | Some s =>
         if negb (s =? "")%string && negb (s =? "all")%string
         then statusIs s (status d)
         else true
     | None => true
     end.

(** [.sort({ timestamp: -1 })]: newest first, by stable insertion. *)
Definition newer (a b : Attendance) : bool :=
  match timestamp a, timestamp b with
  | ValidDate x, ValidDate y => y <? x
  | ValidDate _, InvalidDate => true
  | _, _ => false
  end.

Fixpoint insertDesc (d : Attendance) (sorted : list Attendance) : list Attendance :=
  match sorted with
  | [] => [d]
  | x :: rest => if newer x d then x :: insertDesc d rest else d :: x :: rest
  end.

Definition sortByTimestampDesc (docs : list Attendance) : list Attendance :=
  fold_right insertDesc [] docs.

Record StudentInfo := {
  si_id : ObjectId;
  si_fullName : option string;
  si_enrollmentNo : option string
}.

(** An element of [transformedRecords]. *)
Record TransformedRecord := {
  t_id : nat;
  student : option StudentInfo;
  classInfo : option ObjectId;
  attendedAt : JsDate;
  t_status : option string
}.

(** Lines 463 to 473, on a record whose [studentId] has been populated
    from the users. *)
Definition transformRecord (dir : Directory) (record : Attendance)
  : TransformedRecord := {|
  t_id := _id record;
  student :=
    match studentId record with
    | Some id =>
        match User_findById dir id with
        | Some u =>
            Some {| si_id := u_id u;
                    si_fullName := if (fullName u =? "")%string then None
                                   else Some (fullName u);
                    si_enrollmentNo := enrollmentNo u |}
        | None => None
        end
    | None => None
    end;
  classInfo := classId record;
  attendedAt := timestamp record;
  t_status := status record
|}.

Record Stats := {
  totalEnrolled : Z;
  present : Z;
  absent : Z
}.

Record ClassAttendance := {
  attendance : list TransformedRecord;
  stats : Stats
}.

Definition isPresent (r : TransformedRecord) : bool :=
  statusIs "present" (t_status r).

(** Lines 475 to 479. *)
Definition statsOf (enrolledStudents : list ClassEnrollment)
  (transformedRecords : list TransformedRecord) : Stats := {|
  totalEnrolled := Z.of_nat (List.length enrolledStudents);
  present := Z.of_nat (List.length (filter isPresent transformedRecords));
  absent := Z.of_nat (List.length enrolledStudents)
            - Z.of_nat (List.length (filter isPresent transformedRecords))
|}.

Definition getAttendanceByClass (dir : Directory) (cid : ObjectId)
  (q : ClassQuery) (docs : list Attendance) : Res ClassAttendance :=
  let records := sortByTimestampDesc (filter (classQueryFilter cid q) docs) in
  let enrolledStudents :=
    filter (fun e => (e_classId e =? cid)%string) (enrollments dir) in
  let transformedRecords := map (transformRecord dir) records in
  replyWith 200 None
    {| attendance := transformedRecords;
       stats := statsOf enrolledStudents transformedRecords |}.

(** ** [updateAttendance] and [createManualAttendance] *)

Definition setStatus (s : string) (d : Attendance) : Attendance := {|
  _id := _id d;
  studentId := studentId d;
  classId := classId d;
  sessionId := sessionId d;
  scheduleId := scheduleId d;
  status := Some s;
  studentCoordinates := studentCoordinates d;
  livenessPassed := livenessPassed d;
  faceEmbedding := faceEmbedding d;
  timestamp := timestamp d;
  manualEntry := manualEntry d;
  markedBy := markedBy d;
  synced := synced d;
  notes := notes d
|}.

(** [['present', 'absent', 'late'].includes(status)] *)
Definition validStatus (v : option string) : bool :=
  statusIs "present" v || statusIs "absent" v || statusIs "late" v.

(** [await Attendance.findByIdAndUpdate(id, { status }, { new: true })] *)
Definition findByIdAndUpdate (id : nat) (s : string) (docs : list Attendance)
  : list Attendance * option Attendance :=
  (map (fun d => if Nat.eqb (_id d) id then setStatus s d else d) docs,
   option_map (setStatus s) (find (fun d => Nat.eqb (_id d) id) docs)).

Definition updateAttendance (id : nat) (newStatus : option string)
  (docs : list Attendance) : list Attendance * Res Attendance :=
  if negb (validStatus newStatus)
  then (docs, reply 400 "Invalid status.")
  else
    match findByIdAndUpdate id (orEmpty newStatus) docs with
    | (docs', Some updatedRecord) => (docs', replyWith 200 None updatedRecord)
    | (docs', None) => (docs', reply 404 "Record not found.")
    end.

(** [req.body] of [createManualAttendance]. *)
Record ManualBody := {
  m_studentId : option ObjectId;
  m_classId : option ObjectId;
  m_scheduleId : option ObjectId;
  m_status : option string;
  m_timestamp : option Z
}.

(** Lines 546 to 559; [adminId] is [req.user.id]. *)
Definition createManualAttendance_try (env : Env) (schema : Schema)
  (adminId : ObjectId) (body : ManualBody) : Handler (Res Attendance) :=
  id <- freshId ;;
  let newRecord := {|
    _id := id;
    studentId := m_studentId body;
    classId := m_classId body;
    sessionId := None;
    scheduleId := m_scheduleId body;
    status := match m_status body with
              | Some s => Some s
              | None => defaultStatus schema
              end;
    studentCoordinates := None;
    livenessPassed := JsUndefined;
    faceEmbedding := None;
    timestamp := newDate (m_timestamp body);
    manualEntry := Some true;
    markedBy := Some adminId;
    synced := defaultSynced schema;
    notes := None
  |} in
  _ <- save env newRecord ;;
  ret (replyWith 201 None newRecord).

Definition createManualAttendance (env : Env) (schema : Schema)
  (adminId : ObjectId) (body : ManualBody) (docs : list Attendance)
  : list Attendance * Res Attendance :=
  match createManualAttendance_try env schema adminId body docs with
  | (docs', inr res) => (docs', res)
  | (docs', inl msg) => (docs', reply 500 msg)
  end.

(** ** [getFullAttendanceReport] *)

(** [matchQuery], lines 590 to 599. *)
Record MatchQuery := {
  mq_classId : ObjectId;
  mq_from : option Z;
  mq_to : option Z;
  mq_studentId : option ObjectId
}.

(** [req.query] of the report: dates as the instants they denote. *)
Record ReportQuery := {
  rq_startDate : option Z;
  rq_endDate : option Z;
  rq_studentId : option string
}.

Definition buildMatchQuery (cid : ObjectId) (q : ReportQuery) : MatchQuery := {|
  mq_classId := cid;
  mq_from := rq_startDate q;
  mq_to := rq_endDate q;
  mq_studentId := if truthy (rq_studentId q) then rq_studentId q else None
|}.

(** [{ $match: matchQuery }] *)
Definition matches (mq : MatchQuery) (d : Attendance) : bool :=
  ofClass (mq_classId mq) d
  && inRange (mq_from mq) (mq_to mq) d
  && match mq_studentId mq with
     | Some s => ofStudent s d
     | None => true
     end.

(** A group of the [$group] stage. *)
Record Group := {
  g_id : option ObjectId;
  g_presentDays : Z;
  g_absentDays : Z;
  g_lateDays : Z
}.

(** [{ $sum: { $cond: [{ $eq: ['$status', s] }, 1, 0] } }] over the
    documents of the group [key]. *)
Definition sumStatus (s : string) (key : option ObjectId)
  (docs : list Attendance) : Z :=
  fold_right
    (fun d acc => (if statusIs s (status d) then 1 else 0) + acc) 0
    (filter (fun d => optEqb (studentId d) key) docs).

Definition optionIdDec (a b : option ObjectId) : {a = b} + {a <> b}.
Proof. decide equality. apply string_dec. Defined.

(** [{ $group: { _id: '$studentId', ... } }] *)
Definition groupByStudent (docs : list Attendance) : list Group :=
  map (fun key => {| g_id := key;
                     g_presentDays := sumStatus "present" key docs;
                     g_absentDays := sumStatus "absent" key docs;
                     g_lateDays := sumStatus "late" key docs |})
    (nodup optionIdDec (map studentId docs)).

(** A row of the report: the output of the second [$project]. *)
Record ReportRow := {
  rr_studentId : ObjectId;
  studentName : string;
  rr_enrollmentNo : option string;
  presentDays : Z;
  absentDays : Z;
  lateDays : Z;
  totalDays : Z;
  rr_percentage : Float64.double
}.

(** [$lookup] into [users] on [_id], then [$unwind]: one joined
    document per matching user, none for a group without one. *)
Definition lookupStudent (dir : Directory) (g : Group) : list (Group * User) :=
  match g_id g with
  | Some id => map (pair g) (filter (fun u => (u_id u =? id)%string) (users dir))
  | None => []
  end.

(** The two [$project] stages, lines 626 to 655. *)
Definition projectRow (gu : Group * User) : ReportRow :=
  let (g, studentInfo) := gu in
  let totalDays := g_presentDays g + g_absentDays g + g_lateDays g in
  {| rr_studentId := u_id studentInfo;
     studentName := fullName studentInfo;
     rr_enrollmentNo := enrollmentNo studentInfo;
     presentDays := g_presentDays g;
     absentDays := g_absentDays g;
     lateDays := g_lateDays g;
     totalDays := totalDays;
     rr_percentage :=
       if totalDays =? 0
       then Float64.ofInt 0
       else Float64.fmul
              (Float64.fdiv (Float64.ofInt (g_presentDays g))
                 (Float64.ofInt totalDays))
              (Float64.ofInt 100) |}.

(** [await Attendance.aggregate([...])], lines 601 to 656. *)
Definition aggregateReport (dir : Directory) (mq : MatchQuery)
  (docs : list Attendance) : list ReportRow :=
  map projectRow
    (flat_map (lookupStudent dir) (groupByStudent (filter (matches mq) docs))).

(** The handler.  [mongoose] is what the free identifier [mongoose] of
    line 590 resolves to in the module: the module does not import it,
    which is [None], and evaluating [mongoose.Types.ObjectId(classId)]
    then throws the ReferenceError that the [catch] clause reports. *)
Definition getFullAttendanceReport (mongoose : option unit) (dir : Directory)
  (cid : ObjectId) (q : ReportQuery) (docs : list Attendance)
  : Res (list ReportRow) :=
  match mongoose with
  | None => reply 500 "mongoose is not defined"
  | Some _ => replyWith 200 None (aggregateReport dir (buildMatchQuery cid q) docs)
  end.

(** The imports of the controller, lines 1 to 7. *)
Definition moduleScope_mongoose : option unit := None.

(** ** Requests in flight

    Each [await] on the attendance collection is a point at which other
    requests may read and write it.  [submitAttendance] reads the
    collection once (line 79) and writes it once (line 101);
    [syncAttendance] does the same for each element in turn (lines 136
    and 156).  [createManualAttendance] only writes (line 558) and
    [updateAttendance] makes one call (line 529). *)














(** ** Requests one at a time *)



(** The number of records of a student for a session. *)
Definition recordsFor (st sid : ObjectId) (docs : list Attendance) : nat :=
  List.length (filter (samePair (Some st) (Some sid)) docs).

(** At most one record per (studentId, sessionId) pair. *)
Definition atMostOnePerPair (docs : list Attendance) : Prop :=
  forall st sid : ObjectId, (recordsFor st sid docs <= 1)%nat.

(** The same with the absence of a field counted as a value: no two
    documents agree on both (optional) fields. *)
Definition atMostOnePerKey (docs : list Attendance) : Prop :=
  forall st sid : option ObjectId,
    (List.length (filter (samePair st sid) docs) <= 1)%nat.

(** The store has a unique index on (studentId, sessionId): it rejects
    the write of a document whose key it already holds. *)
Definition enforcesUniqueKeys (env : Env) : Prop :=
  forall docs d,
    find (samePair (studentId d) (sessionId d)) docs <> None ->
    saveError env docs d <> None.

(** The same for the documents that carry both fields: the store
    rejects the write of a second record for a (studentId, sessionId)
    pair. *)
Definition enforcesUniquePairs (env : Env) : Prop :=
  forall docs d st sid,
    studentId d = Some st -> sessionId d = Some sid ->
    find (samePair (Some st) (Some sid)) docs <> None ->
    saveError env docs d <> None.

(** ** Vocabulary of the statements *)

(** The loop of [syncAttendance] with the outcomes returned instead of
    pushed on an accumulator. *)
Fixpoint syncRun (env : Env) (schema : Schema) (st : ObjectId)
  (claims : list Claim) (docs : list Attendance)
  : list Attendance * (string + list SyncResult) :=
  match claims with
  | [] => (docs, inr [])
  | record :: rest =>
      match find (samePair (Some st) (c_sessionId record)) docs with
      | Some _ =>
          match syncRun env schema st rest docs with
          | (docs', inr results) => (docs', inr (skipped record :: results))
          | (docs', inl msg) => (docs', inl msg)
          end
      | None =>
          let doc := syncedRecord schema st record (List.length docs) in
          match saveError env docs doc with
          | Some msg => (docs, inl msg)
          | None =>
              match syncRun env schema st rest (docs ++ [doc]) with
              | (docs', inr results) => (docs', inr (succeeded record :: results))
              | (docs', inl msg) => (docs', inl msg)
              end
          end
      end
  end.

(** The claims of a request: the elements of the array other than
    [null]; none when the field is not an array. *)
Definition claimsOf (field : AttendancesField) : list Claim :=
  match field with
  | ArrayOf elements =>
      flat_map (fun e => match e with
                         | Fields c => [c]
                         | JsonNull => []
                         end) elements
  | NotAnArray => []
  end.

(** A claim whose (studentId, sessionId) has a record in [docs]. *)
Definition preExisting (st : ObjectId) (docs : list Attendance) (c : Claim) : bool :=
  isSome (find (samePair (Some st) (c_sessionId c)) docs).

(** The outcome of a claim by the store before the call alone. *)
Definition expectedOutcome (st : ObjectId) (docs : list Attendance) (c : Claim)
  : SyncResult :=
  if preExisting st docs c then skipped c else succeeded c.

(** The outcome of a claim by the store before the call and the
    session ids of the claims before it in the batch. *)
Fixpoint outcomesInBatch (st : ObjectId) (docs : list Attendance)
  (seen : list (option ObjectId)) (claims : list Claim) : list SyncResult :=
  match claims with
  | [] => []
  | c :: rest =>
      (if preExisting st docs c || existsb (optEqb (c_sessionId c)) seen
       then skipped c else succeeded c)
      :: outcomesInBatch st docs (c_sessionId c :: seen) rest
  end.

Definition isSkipped (r : SyncResult) : bool := (r_status r =? "skipped")%string.
Definition isSuccess (r : SyncResult) : bool := (r_status r =? "success")%string.

(** The request passes the checks that precede the identity verifier
    (steps 1 to 3 of the handler) for the student [student]. *)
Definition reachesVerifier (env : Env) (dir : Directory) (st : ObjectId)
  (body : SubmitBody) (student : User) : Prop :=
  truthy (b_sessionId body) = true
  /\ truthy (b_classId body) = true
  /\ isSome (b_studentCoordinates body) = true
  /\ truthy (b_faceImage body) = true
  /\ b_livenessPassed body = JsTrue
  /\ User_findById dir st = Some student
  /\ truthy (faceImageS3Key student) = true
  /\ tooLarge (decodeImage env (orEmpty (b_faceImage body))) = false.

(** The answer of the verifier to the request. *)
Definition verdict (env : Env) (body : SubmitBody) (student : User)
  : VerifierOutcome :=
  compareFaces env (orEmpty (faceImageS3Key student))
    (decodeImage env (orEmpty (b_faceImage body))).

(** Every way out of the handler, in the order of the source. *)
Inductive SubmitOutcome (env : Env) (schema : Schema) (dir : Directory)
  (st : ObjectId) (body : SubmitBody) (docs : list Attendance)
  : list Attendance * Res Attendance -> Prop :=
| out_missing :
    negb (truthy (b_sessionId body)) || negb (truthy (b_classId body))
    || negb (isSome (b_studentCoordinates body))
    || negb (truthy (b_faceImage body)) = true ->
    SubmitOutcome env schema dir st body docs
      (docs, reply 400 "Missing required attendance data.")
| out_liveness :
    notStrictlyTrue (b_livenessPassed body) = true ->
    SubmitOutcome env schema dir st body docs
      (docs, reply 400 "Liveness check was not passed.")
| out_no_profile :
    b_livenessPassed body = JsTrue ->
    (User_findById dir st = None
     \/ exists student,
          User_findById dir st = Some student
          /\ truthy (faceImageS3Key student) = false) ->
    SubmitOutcome env schema dir st body docs
      (docs, reply 404 "Student profile not found or face is not registered.")
| out_too_large :
    b_livenessPassed body = JsTrue ->
    tooLarge (decodeImage env (orEmpty (b_faceImage body))) = true ->
    SubmitOutcome env schema dir st body docs
      (docs, reply 400 "Image too large. Please try again with a smaller image.")
| out_verifier_error student msg :
    b_livenessPassed body = JsTrue ->
    User_findById dir st = Some student ->
    compareFaces env (orEmpty (faceImageS3Key student))
      (decodeImage env (orEmpty (b_faceImage body))) = VerifierError msg ->
    SubmitOutcome env schema dir st body docs (docs, submitAttendance_catch msg)
| out_no_match student :
    b_livenessPassed body = JsTrue ->
    User_findById dir st = Some student ->
    compareFaces env (orEmpty (faceImageS3Key student))
      (decodeImage env (orEmpty (b_faceImage body))) = FacesDiffer ->
    SubmitOutcome env schema dir st body docs
      (docs, reply 401 "Face recognition failed. Identity could not be verified.")
| out_no_session :
    b_livenessPassed body = JsTrue ->
    QRCodeSession_findOne dir (orEmpty (b_sessionId body))
      (orEmpty (b_classId body)) (clock env 0%nat) = None ->
    SubmitOutcome env schema dir st body docs
      (docs, reply 400 "This QR code is invalid or has expired.")
| out_conflict qr existing :
    b_livenessPassed body = JsTrue ->
    QRCodeSession_findOne dir (orEmpty (b_sessionId body))
      (orEmpty (b_classId body)) (clock env 0%nat) = Some qr ->
    find (samePair (Some st) (Some (qr_id qr))) docs = Some existing ->
    SubmitOutcome env schema dir st body docs
      (docs, reply 409 "You have already marked attendance for this session.")
| out_save_error qr msg :
    b_livenessPassed body = JsTrue ->
    find (samePair (Some st) (Some (qr_id qr))) docs = None ->
    saveError env docs
      (submittedRecord env schema st body qr (List.length docs)) = Some msg ->
    SubmitOutcome env schema dir st body docs (docs, submitAttendance_catch msg)
| out_created student qr :
    truthy (b_sessionId body) = true ->
    truthy (b_classId body) = true ->
    b_livenessPassed body = JsTrue ->
    User_findById dir st = Some student ->
    compareFaces env (orEmpty (faceImageS3Key student))
      (decodeImage env (orEmpty (b_faceImage body))) = FacesMatch ->
    QRCodeSession_findOne dir (orEmpty (b_sessionId body))
      (orEmpty (b_classId body)) (clock env 0%nat) = Some qr ->
    find (samePair (Some st) (Some (qr_id qr))) docs = None ->
    saveError env docs
      (submittedRecord env schema st body qr (List.length docs)) = None ->
    SubmitOutcome env schema dir st body docs
      (docs ++ [submittedRecord env schema st body qr (List.length docs)],
       replyWith 201 (Some "Attendance marked successfully!")
         (submittedRecord env schema st body qr (List.length docs))).

(** Running the monadic plumbing of a handler up to its next test. *)
Ltac handler_step :=
  cbv beta iota zeta
    delta [bind ret throw findOne freshId save negb isSome fst snd].

(** ** Sample data *)

Module Sample.

(** A store that accepts every write. *)
Definition env : Env := {|
  clock := fun n => 1700000000000 + Z.of_nat n;
  decodeImage := fun _ => [];
  compareFaces := fun _ _ => FacesMatch;
  saveError := fun _ _ => None
|}.

Definition asha : User := {|
  u_id := "u1";
  fullName := "Asha";
  enrollmentNo := Some "E001";
  faceImageS3Key := Some "faces/u1.jpg"
|}.

(** A live session whose internal id differs from its QR token. *)
Definition liveSession : QRCodeSession := {|
  qr_id := "650f00000000000000000001";
  qr_sessionId := "qr-token-1";
  qr_classId := "c1";
  qr_scheduleId := None;
  isActive := true;
  sessionExpiresAt := 1700000060000
|}.

Definition dir : Directory := {|
  users := [asha];
  qrSessions := [liveSession];
  enrollments := [{| e_studentId := "u1"; e_classId := "c1" |}]
|}.

Definition body : SubmitBody := {|
  b_sessionId := Some "qr-token-1";
  b_classId := Some "c1";
  b_studentCoordinates :=
    Some {| latitude := Some (19 # 1)%Q; longitude := Some (73 # 1)%Q |};
  b_livenessPassed := JsTrue;
  b_faceImage := Some "data:image/png;base64,AAAA"
|}.

Definition claim (sid : string) (t : Z) : Claim := {|
  c_sessionId := Some sid;
  c_classId := Some "c1";
  c_scheduleId := None;
  c_studentCoordinates := None;
  c_livenessPassed := JsTrue;
  c_faceEmbedding := None;
  c_timestamp := Some t
|}.

Definition manualBody : ManualBody := {|
  m_studentId := Some "u1";
  m_classId := Some "c1";
  m_scheduleId := None;
  m_status := Some "late";
  m_timestamp := Some 1700000000000
|}.

(** A store that rejects the record of session [s2], and only it. *)
Definition rejecting : Env := {|
  clock := clock env;
  decodeImage := decodeImage env;
  compareFaces := compareFaces env;
  saveError := fun _ d =>
    if optEqb (sessionId d) (Some "s2")
    then Some "Attendance validation failed" else None
|}.


(** A verifier that fails with the given message. *)
Definition failing (msg : string) : Env := {|
  clock := clock env;
  decodeImage := decodeImage env;
  compareFaces := fun _ _ => VerifierError msg;
  saveError := saveError env
|}.

(** A verifier that finds no match. *)
Definition differing : Env := {|
  clock := clock env;
  decodeImage := decodeImage env;
  compareFaces := fun _ _ => FacesDiffer;
  saveError := saveError env
|}.

(** Three synced records of class [c1]: two of [u1], one of [u2]. *)
Definition classStore : list Attendance :=
  [syncedRecord specSchema "u1" (claim "s1" 5) 0;
   syncedRecord specSchema "u1" (claim "s2" 6) 1;
   syncedRecord specSchema "u2" (claim "s3" 7) 2].

(** The same with a fourth record, of [u1], corrected to late. *)
Definition reportStore : list Attendance :=
  classStore ++ [setStatus "late" (syncedRecord specSchema "u1" (claim "s4" 8) 3)].

Definition wholeClass : MatchQuery := {|
  mq_classId := "c1";
  mq_from := None;
  mq_to := None;
  mq_studentId := None
|}.

(** Batches of claims. *)
Definition freshBatch : list Claim := [claim "s1" 5; claim "s2" 6; claim "s3" 7].

Definition repeatingBatch : list Claim := [claim "s2" 6; claim "s2" 7].

Definition mixedBatch : list Claim :=
  [claim "650f00000000000000000001" 5; claim "s2" 6; claim "s3" 7].

(** A request that fails the liveness check only. *)
Definition notLive : SubmitBody := {|
  b_sessionId := b_sessionId body;
  b_classId := b_classId body;
  b_studentCoordinates := b_studentCoordinates body;
  b_livenessPassed := JsFalse;
  b_faceImage := b_faceImage body
|}.

(** The store after one live submission. *)
Definition afterSubmit : list Attendance :=
  fst (submitAttendance env specSchema dir "u1" body []).




End Sample.

(** The decimal with [n] hundredths is a nearest one to [x]. *)
Definition nearestHundredths (n : Z) (x : Q) : Prop :=
  (x - (1 # 200) <= inject_Z n / 100 /\ inject_Z n / 100 <= x + (1 # 200))%Q.

(** * The rest of the controller *)

(** ** Documents the other handlers read *)

(** A document of the [classes] collection, as [populate] selects it
    ([subjectName subjectCode]). *)
Record ClassDoc := {
  cl_id : ObjectId;
  subjectName : string;
  subjectCode : string
}.

(** A document of the schedule instances (the fields the controller
    reads): one dated occurrence of a class, linked to the QR session
    that was opened for it, if one was. *)
Record ScheduleInstance := {
  sch_id : ObjectId;
  sch_classId : ObjectId;
  scheduledDate : Z;
  sch_status : option string;
  attendanceSessionId : option ObjectId
}.

(** [.populate('classId', 'subjectName subjectCode')]: the class
    document in place of the id, [null] when there is none. *)
Definition populateClass (classes : list ClassDoc) (cid : option ObjectId)
  : option ClassDoc :=
  match cid with
  | Some id => find (fun c => (cl_id c =? id)%string) classes
  | None => None
  end.

(** [.populate('studentId', 'fullName enrollmentNo')] *)
Definition populateStudent (dir : Directory) (sid : option ObjectId) : option User :=
  match sid with
  | Some id => User_findById dir id
  | None => None
  end.

(** ** [getMyAttendanceRecords] and [getMyAttendanceRecordsByClass] *)

(** [parseInt(text, 10) || dflt], on the integer [parseInt] reads from
    the parameter ([None] for NaN: a missing parameter or one that does
    not start with a number).  Zero is falsy. *)
Definition orDefault (v : option Z) (dflt : Z) : Z :=
  match v with
  | Some 0 => dflt
  | Some n => n
  | None => dflt
  end.

(** [req.query] of the paginated listings. *)
Record PageQuery := {
  pq_page : option Z;
  pq_limit : option Z
}.

(** [cursor.limit(limit).skip(skip)]: the skip applies first.  MongoDB
    rejects a negative skip; a limit of zero is no limit, and the
    driver takes a negative limit as its absolute value. *)
Definition limitSkip (limit skip : Z) (sorted : list Attendance)
  : string + list Attendance :=
  if skip <? 0 then inl "Skip value must be non-negative"
  else if limit =? 0 then inr (skipn (Z.to_nat skip) sorted)
  else inr (firstn (Z.to_nat (Z.abs limit)) (skipn (Z.to_nat skip) sorted)).

Record Pagination := {
  totalRecords : Z;
  totalPages : Z;
  currentPage : Z;
  pg_limit : Z
}.

Record RecordsPage := {
  data : list (Attendance * option ClassDoc);
  pagination : Pagination
}.

(** [Math.ceil(totalRecords / limit)], a binary64 division. *)
Definition ceilDiv (totalRecords limit : Z) : Z :=
  Qceiling (Float64.fdiv (Float64.ofInt totalRecords) (Float64.ofInt limit)).

(** Both listings, lines 178 to 250, by the filter they query with and
    the messages they answer. *)
Definition listRecords (okMessage failMessage : string)
  (matching : Attendance -> bool) (classes : list ClassDoc) (q : PageQuery)
  (docs : list Attendance) : Res RecordsPage :=
  let page := orDefault (pq_page q) 1 in
  let limit := orDefault (pq_limit q) 20 in
  let skip := (page - 1) * limit in
  match limitSkip limit skip (sortByTimestampDesc (filter matching docs)) with
  | inl _ => reply 500 failMessage
  | inr records =>
      let totalRecords := countDocuments matching docs in
      let totalPages := ceilDiv totalRecords limit in
      replyWith 200 (Some okMessage)
        {| data := map (fun d => (d, populateClass classes (classId d))) records;
           pagination := {| totalRecords := totalRecords;
                            totalPages := totalPages;
                            currentPage := page;
                            pg_limit := limit |} |}
  end.

Definition getMyAttendanceRecords (classes : list ClassDoc) (studentId : ObjectId)
  (q : PageQuery) (docs : list Attendance) : Res RecordsPage :=
  listRecords "Records fetched successfully" "Failed to fetch attendance records."
    (ofStudent studentId) classes q docs.

Definition getMyAttendanceRecordsByClass (classes : list ClassDoc)
  (studentId cid : ObjectId) (q : PageQuery) (docs : list Attendance)
  : Res RecordsPage :=
  listRecords "Class records fetched successfully"
    "Failed to fetch class attendance records."
    (fun d => ofStudent studentId d && ofClass cid d) classes q docs.

(** ** [getMyMissedClasses] *)

(** The filter on the schedule instances, lines 381 to 385. *)
Definition heldInstance (classIds : list ObjectId) (now : Z)
  (s : ScheduleInstance) : bool :=
  existsb (String.eqb (sch_classId s)) classIds
  && (scheduledDate s <=? now)
  && negb (statusIs "cancelled" (sch_status s)).

(** [attendedRecords.map(rec => rec.sessionId.toString())]: reading
    [toString] of a missing [sessionId] throws a TypeError. *)
Fixpoint sessionIdStrings (attendedRecords : list Attendance)
  : string + list string :=
  match attendedRecords with
  | [] => inr []
  | rec :: rest =>
      match sessionId rec with
      | None => inl "Cannot read properties of undefined (reading 'toString')"
      | Some id =>
          match sessionIdStrings rest with
          | inl msg => inl msg
          | inr ids => inr (id :: ids)
          end
      end
  end.

(** The callback of [heldSessions.filter], lines 402 to 413. *)
Definition isMissed (attendedSessionIds : list string) (session : ScheduleInstance)
  : bool :=
  if negb (truthy (attendanceSessionId session)) then false
  else negb (existsb (String.eqb (orEmpty (attendanceSessionId session)))
               attendedSessionIds).

Record MissedClasses := {
  mc_count : option Z;
  mc_data : list (ScheduleInstance * option ClassDoc)
}.

Definition getMyMissedClasses (env : Env) (dir : Directory)
  (classes : list ClassDoc) (schedules : list ScheduleInstance)
  (studentId : ObjectId) (docs : list Attendance) : Res MissedClasses :=
  let enrollments :=
    filter (fun e => (e_studentId e =? studentId)%string) (enrollments dir) in
  match enrollments with
  | [] =>
      replyWith 200 (Some "Student is not enrolled in any classes.")
        {| mc_count := None; mc_data := [] |}
  | _ =>
      let classIds := map e_classId enrollments in
      let heldSessions :=
        filter (heldInstance classIds (clock env 0%nat)) schedules in
      match sessionIdStrings (filter (ofStudent studentId) docs) with
      | inl _ => reply 500 "Failed to fetch missed classes."
      | inr attendedSessionIds =>
          let missedClasses := filter (isMissed attendedSessionIds) heldSessions in
          replyWith 200 (Some "Missed classes fetched successfully")
            {| mc_count := Some (Z.of_nat (List.length missedClasses));
               mc_data := map (fun s => (s, populateClass classes (Some (sch_classId s))))
                            missedClasses |}
      end
  end.

(** ** [getStudentAttendance] and [getAttendanceBySchedule] *)

(** Lines 494 to 517; [classFilter] is [req.query.classId]. *)
Definition getStudentAttendance (classes : list ClassDoc) (studentId : ObjectId)
  (classFilter : option string) (docs : list Attendance)
  : Res (list (Attendance * option ClassDoc)) :=
  let matching := fun d =>
    ofStudent studentId d
    && (if truthy classFilter then ofClass (orEmpty classFilter) d else true) in
  replyWith 200 None
    (map (fun d => (d, populateClass classes (classId d)))
       (sortByTimestampDesc (filter matching docs))).

(** An array is truthy, the empty one too. *)
Definition truthyArray {A : Type} (l : list A) : bool := true.

(** Lines 567 to 582. *)
Definition getAttendanceBySchedule (dir : Directory) (sid : string)
  (docs : list Attendance) : Res (list (Attendance * option User)) :=
  let attendanceRecords :=
    map (fun d => (d, populateStudent dir (studentId d)))
      (filter (fun d => optEqb (scheduleId d) (Some sid)) docs) in
  if negb (truthyArray attendanceRecords)
  then reply 404 "No attendance records found for this schedule."
  else replyWith 200 None attendanceRecords.

(** ** Vocabulary of the further statements *)

(** [b] is not newer than [a]: the order of a listing. *)
Definition notOlder (a b : Attendance) : Prop := newer b a = false.

(** The ids of the documents are those of their positions. *)
Definition idsInOrder (docs : list Attendance) : Prop :=
  map _id docs = seq 0 (List.length docs).

(** The document with a given id. *)
Definition findById (id : nat) (docs : list Attendance) : option Attendance :=
  find (fun d => Nat.eqb (_id d) id) docs.

(** Every record of the student carries a session id. *)
Definition allWithSession (st : ObjectId) (docs : list Attendance) : Prop :=
  forall d, In d docs -> studentId d = Some st -> sessionId d <> None.

(** More sample data. *)
Module Sample2.

Definition classes : list ClassDoc :=
  [{| cl_id := "c1"; subjectName := "Algebra"; subjectCode := "MA101" |}].

Definition schedules : list ScheduleInstance :=
  [{| sch_id := "i1"; sch_classId := "c1"; scheduledDate := 1699990000000;
      sch_status := Some "completed";
      attendanceSessionId := Some "650f00000000000000000001" |};
   {| sch_id := "i2"; sch_classId := "c1"; scheduledDate := 1699990000001;
      sch_status := Some "completed"; attendanceSessionId := Some "s9" |};
   {| sch_id := "i3"; sch_classId := "c1"; scheduledDate := 1699990000002;
      sch_status := Some "completed"; attendanceSessionId := None |};
   {| sch_id := "i4"; sch_classId := "c1"; scheduledDate := 1699990000003;
      sch_status := Some "cancelled"; attendanceSessionId := Some "s7" |};
   {| sch_id := "i5"; sch_classId := "c1"; scheduledDate := 1800000000000;
      sch_status := Some "scheduled"; attendanceSessionId := Some "s8" |}].

(** Two records a page, second page. *)
Definition secondPage : PageQuery := {| pq_page := Some 2; pq_limit := Some 2 |}.

(** A manual entry for [u1] in class [c1]. *)
Definition afterManual : list Attendance :=
  fst (createManualAttendance Sample.env specSchema "admin" Sample.manualBody
         Sample.afterSubmit).

End Sample2.

(** * Properties *)

(** ** Binary64 rounding *)

Module Float64Facts.
Import Float64.

Open Scope Q_scope.

Lemma pow2_pos e : 0 < pow2 e.
Proof. unfold pow2. apply Qpower_0_lt. reflexivity. Qed.

Lemma pow2_add a b : pow2 (a + b) == pow2 a * pow2 b.
Proof. unfold pow2. apply Qpower_plus. discriminate. Qed.

Lemma pow2_cancel e : pow2 (- e) * pow2 e == 1.
Proof.
  rewrite <- pow2_add. replace (- e + e)%Z with 0%Z by lia. reflexivity.
Qed.

Lemma pow2_inject (k : Z) : (0 <= k)%Z -> pow2 k == inject_Z (2 ^ k).
Proof.
  intros H. unfold pow2. rewrite Zpower_Qpower by assumption. reflexivity.
Qed.

(** The nearest integer is within one half. *)
Lemma roundHalfEven_err y :
  inject_Z (roundHalfEven y) - (1 # 2) <= y
  /\ y <= inject_Z (roundHalfEven y) + (1 # 2).
Proof.
  unfold roundHalfEven.
  pose proof (Qfloor_le y) as Hlo.
  pose proof (Qlt_floor y) as Hhi.
  rewrite inject_Z_plus in Hhi. change (inject_Z 1) with 1 in Hhi.
  destruct (Qcompare_spec (y - inject_Z (Qfloor y)) (1 # 2)) as [He | Hl | Hg].
  - destruct (Z.even (Qfloor y)).
    + split; lra.
    + rewrite inject_Z_plus. change (inject_Z 1) with 1. split; lra.
  - split; lra.
  - rewrite inject_Z_plus. change (inject_Z 1) with 1. split; lra.
Qed.

Lemma Qnum_pos_of_lt x : 0 < x -> exists p, Qnum x = Zpos p.
Proof.
  destruct x as [n d]. unfold Qlt. simpl. intros H.
  destruct n as [| p | p]; try lia. now exists p.
Qed.

(** The scaled significand has at least 53 bits. *)
Lemma ulpExp_lower x : 0 < x -> pow2 52 <= x * pow2 (- ulpExp x).
Proof.
  intros Hx. unfold ulpExp.
  set (ln := Z.log2 (Qnum x)). set (ld := Z.log2 (Z.pos (Qden x))).
  destruct (Qle_bool (pow2 52) (x * pow2 (- (ln - ld - 52)))) eqn:Ht.
  - now apply Qle_bool_iff.
  - destruct (Qnum_pos_of_lt x Hx) as [p Hp].
    assert (Hln : (0 <= ln)%Z) by apply Z.log2_nonneg.
    assert (Hld : (0 <= ld)%Z) by apply Z.log2_nonneg.
    assert (Hn : pow2 ln <= inject_Z (Qnum x)).
    { rewrite pow2_inject by assumption. rewrite <- Zle_Qle.
      apply Z.log2_spec. lia. }
    assert (Hd : inject_Z (Z.pos (Qden x)) <= 2 * pow2 ld).
    { rewrite pow2_inject by assumption.
      change 2 with (inject_Z 2). rewrite <- inject_Z_mult, <- Zle_Qle.
      pose proof (Z.log2_spec (Z.pos (Qden x)) ltac:(lia)) as [_ H2].
      fold ld in H2. rewrite Z.pow_succ_r in H2 by assumption. lia. }
    replace (- (ln - ld - 52 - 1))%Z with (53 + ld + - ln)%Z by lia.
    rewrite !pow2_add.
    pose proof (pow2_pos ln) as Pn. pose proof (pow2_pos ld) as Pd.
    pose proof (pow2_cancel ln) as Hc.
    pose proof (pow2_pos (- ln)) as Pm.
    assert (Hxd : x * inject_Z (Z.pos (Qden x)) == inject_Z (Qnum x)).
    { destruct x as [n d]. unfold Qeq, inject_Z, Qmult. simpl. lia. }
    change (pow2 53) with (2 * pow2 52).
    pose proof (pow2_pos 52) as P52.
    assert (H1 : inject_Z (Qnum x) <= 2 * (x * pow2 ld)).
    { rewrite <- Hxd. nra. }
    assert (H2 : 1 <= inject_Z (Qnum x) * pow2 (- ln)).
    { rewrite <- Hc. nra. }
    set (t := x * pow2 ld) in *. set (M := pow2 (- ln)) in *.
    assert (H3 : 1 <= 2 * t * M) by nra.
    setoid_replace (x * (2 * pow2 52 * pow2 ld * M)) with (pow2 52 * (2 * t * M))
      by (unfold t; ring).
    nra.
Qed.

Lemma round64_pos_eq x :
  0 < x ->
  round64 x
  = inject_Z (roundHalfEven (x * pow2 (- ulpExp x))) * pow2 (ulpExp x).
Proof.
  intros Hx. unfold round64.
  destruct (Qnum_pos_of_lt x Hx) as [p ->]. reflexivity.
Qed.

(** One rounding moves a positive number by at most the factor
    [1 ± 2^-53]. *)
Lemma round64_err x :
  0 < x -> x * (1 - u53) <= round64 x /\ round64 x <= x * (1 + u53).
Proof.
  intros Hx. rewrite (round64_pos_eq x Hx).
  pose proof (ulpExp_lower x Hx) as Hlow.
  pose proof (roundHalfEven_err (x * pow2 (- ulpExp x))) as [Hr1 Hr2].
  set (r := inject_Z (roundHalfEven (x * pow2 (- ulpExp x)))) in *.
  pose proof (pow2_pos (ulpExp x)) as PE.
  pose proof (pow2_cancel (ulpExp x)) as Hc.
  set (E := pow2 (ulpExp x)) in *. set (P := pow2 (- ulpExp x)) in *.
  assert (Hid : x * P * E == x) by (rewrite <- Qmult_assoc, Hc; ring).
  assert (HE : pow2 52 * E <= x) by nra.
  unfold u53. change (pow2 (-53)) with (1 # 9007199254740992).
  change (pow2 52) with (4503599627370496 # 1) in HE.
  assert (Hx1 : r * E - (1 # 2) * E <= x) by nra.
  assert (Hx2 : x <= r * E + (1 # 2) * E) by nra.
  split; lra.
Qed.

Lemma toFixed2_nonneg_eq p : 0 <= p -> toFixed2 p = Qfloor (p * 100 + (1 # 2)).
Proof.
  intros Hp. unfold toFixed2.
  destruct (Qle_bool 0 p) eqn:E; [reflexivity |].
  apply Qle_bool_iff in Hp. congruence.
Qed.

Lemma inject_Z_pos (a : Z) : (0 < a)%Z -> 0 < inject_Z a.
Proof. intros H. change 0 with (inject_Z 0). now rewrite <- Zlt_Qlt. Qed.

(** [a / h * 100] in binary64 against the exact quotient. *)
Lemma percent_bounds (a h : Z) :
  (0 < a)%Z -> (0 < h)%Z ->
  let x := inject_Z a / inject_Z h in
  let p := fmul (fdiv (ofInt a) (ofInt h)) (ofInt 100) in
  100 * x * ((1 - u53) * (1 - u53)) <= p
  /\ p <= 100 * x * ((1 + u53) * (1 + u53)).
Proof.
  intros Ha Hh x p. unfold ofInt in p.
  pose proof (inject_Z_pos a Ha) as Haq.
  pose proof (inject_Z_pos h Hh) as Hhq.
  assert (Hx : 0 < x).
  { unfold x. apply Qlt_shift_div_l; [assumption | lra]. }
  pose proof (round64_err x Hx) as [Hq1 Hq2].
  set (q := fdiv (inject_Z a) (inject_Z h)) in *.
  change (round64 x) with q in Hq1, Hq2.
  assert (Hu : u53 == 1 # 9007199254740992) by reflexivity.
  assert (Hq : 0 < q * inject_Z 100).
  { change (inject_Z 100) with 100. rewrite Hu in Hq1. lra. }
  pose proof (round64_err _ Hq) as [Hp1 Hp2].
  change (round64 (q * inject_Z 100)) with p in Hp1, Hp2.
  change (inject_Z 100) with 100 in Hp1, Hp2.
  rewrite Hu in *. split; nra.
Qed.

(** With at most 2^37 attended sessions the two roundings cannot carry
    the percentage across a rounding boundary of [toFixed(2)]: the
    printed hundredths are a nearest integer to [10000 * a / h]. *)
Lemma percent_nearest (a h : Z) :
  (0 <= a <= 2 ^ 37)%Z -> (0 < h)%Z ->
  let n := toFixed2 (fmul (fdiv (ofInt a) (ofInt h)) (ofInt 100)) in
  ((2 * n - 1) * h <= 20000 * a <= (2 * n + 1) * h)%Z.
Proof.
  intros [Ha0 Ha] Hh.
  destruct (Z.eq_dec a 0) as [-> | Hne].
  { cbv zeta. replace (toFixed2 _) with 0%Z; [lia |].
    unfold fdiv. reflexivity. }
  assert (Hap : (0 < a)%Z) by lia.
  pose proof (percent_bounds a h Hap Hh) as Hb. cbv zeta in Hb.
  cbv zeta. unfold ofInt in *.
  set (p := fmul (fdiv (inject_Z a) (inject_Z h)) (inject_Z 100)) in *.
  pose proof (inject_Z_pos a Hap) as Haq.
  pose proof (inject_Z_pos h Hh) as Hhq.
  assert (Haq2 : inject_Z a <= 137438953472).
  { change 137438953472 with (inject_Z (2 ^ 37)). now rewrite <- Zle_Qle. }
  set (x := inject_Z a / inject_Z h) in *.
  assert (Hxh : x * inject_Z h == inject_Z a).
  { unfold x. field. lra. }
  assert (Hx : 0 < x).
  { unfold x. apply Qlt_shift_div_l; [assumption | lra]. }
  assert (Hu : u53 == 1 # 9007199254740992) by reflexivity.
  destruct Hb as [Hb1 Hb2]. rewrite Hu in Hb1, Hb2.
  assert (Hp0 : 0 <= p) by nra.
  rewrite (toFixed2_nonneg_eq p Hp0).
  pose proof (Qfloor_le (p * 100 + (1 # 2))) as Hf1.
  pose proof (Qlt_floor (p * 100 + (1 # 2))) as Hf2.
  set (n := Qfloor (p * 100 + (1 # 2))) in *.
  rewrite inject_Z_plus in Hf2. change (inject_Z 1) with 1 in Hf2.
  assert (Hph1 : 100 * inject_Z a
                 * ((1 - (1 # 9007199254740992)) * (1 - (1 # 9007199254740992)))
                 <= p * inject_Z h).
  { rewrite <- Hxh. nra. }
  assert (Hph2 : p * inject_Z h
                 <= 100 * inject_Z a
                    * ((1 + (1 # 9007199254740992)) * (1 + (1 # 9007199254740992)))).
  { rewrite <- Hxh. nra. }
  assert (Hn1 : (inject_Z n - (1 # 2)) * inject_Z h <= 100 * (p * inject_Z h))
    by nra.
  assert (Hn2 : 100 * (p * inject_Z h) < (inject_Z n + (1 # 2)) * inject_Z h)
    by nra.
  split.
  - destruct (Z_le_gt_dec ((2 * n - 1) * h) (20000 * a)) as [Hok | Hbad];
      [assumption | exfalso].
    assert (Hz : (20000 * a + 1 + h <= 2 * n * h)%Z) by lia.
    rewrite Zle_Qle in Hz.
    rewrite !inject_Z_plus, !inject_Z_mult in Hz.
    change (inject_Z 20000) with 20000 in Hz. change (inject_Z 1) with 1 in Hz.
    change (inject_Z 2) with 2 in Hz.
    lra.
  - destruct (Z_le_gt_dec (20000 * a) ((2 * n + 1) * h)) as [Hok | Hbad];
      [assumption | exfalso].
    assert (Hz : (2 * n * h + h + 1 <= 20000 * a)%Z) by lia.
    rewrite Zle_Qle in Hz.
    rewrite !inject_Z_plus, !inject_Z_mult in Hz.
    change (inject_Z 20000) with 20000 in Hz. change (inject_Z 1) with 1 in Hz.
    change (inject_Z 2) with 2 in Hz.
    lra.
Qed.

(** The same in hundredths. *)
Lemma percent_nearestHundredths (a h : Z) :
  (0 <= a <= 2 ^ 37)%Z -> (0 < h)%Z ->
  nearestHundredths
    (toFixed2 (fmul (fdiv (ofInt a) (ofInt h)) (ofInt 100)))
    (100 * (inject_Z a / inject_Z h)).
Proof.
  intros Ha Hh. pose proof (percent_nearest a h Ha Hh) as [H1 H2].
  cbv zeta in H1, H2.
  set (n := toFixed2 _) in *.
  pose proof (inject_Z_pos h Hh) as Hhq.
  assert (E1 : (2 * n * h <= 20000 * a + h)%Z) by lia.
  assert (E2 : (20000 * a <= 2 * n * h + h)%Z) by lia.
  rewrite Zle_Qle in E1, E2.
  rewrite !inject_Z_plus, !inject_Z_mult in E1, E2.
  change (inject_Z 20000) with 20000 in *. change (inject_Z 2) with 2 in *.
  set (x := inject_Z a / inject_Z h).
  assert (Hxh : x * inject_Z h == inject_Z a) by (unfold x; field; lra).
  rewrite <- Hxh in E1, E2.
  unfold nearestHundredths.
  setoid_replace (inject_Z n / 100) with (inject_Z n * (1 # 100)) by field.
  set (nq := inject_Z n) in *. set (hq := inject_Z h) in *.
  split.
  - apply Qnot_lt_le. intros C.
    assert (C' : (nq * (1 # 100)) * hq < (100 * x - (1 # 200)) * hq)
      by (apply Qmult_lt_compat_r; assumption).
    lra.
  - apply Qnot_lt_le. intros C.
    assert (C' : (100 * x + (1 # 200)) * hq < (nq * (1 # 100)) * hq)
      by (apply Qmult_lt_compat_r; assumption).
    lra.
Qed.

(** The scaled significand has at most 53 bits. *)
Lemma ulpExp_upper x : 0 < x -> x * pow2 (- ulpExp x) < pow2 53.
Proof.
  intros Hx. unfold ulpExp.
  set (ln := Z.log2 (Qnum x)). set (ld := Z.log2 (Z.pos (Qden x))).
  pose proof (pow2_pos 52) as P52.
  destruct (Qle_bool (pow2 52) (x * pow2 (- (ln - ld - 52)))) eqn:Ht.
  - destruct (Qnum_pos_of_lt x Hx) as [p Hp].
    assert (Hln : (0 <= ln)%Z) by apply Z.log2_nonneg.
    assert (Hld : (0 <= ld)%Z) by apply Z.log2_nonneg.
    assert (Hn : inject_Z (Qnum x) < 2 * pow2 ln).
    { rewrite pow2_inject by assumption.
      change 2 with (inject_Z 2). rewrite <- inject_Z_mult, <- Zlt_Qlt.
      pose proof (Z.log2_spec (Qnum x) ltac:(lia)) as [_ H2].
      fold ln in H2. rewrite Z.pow_succ_r in H2 by assumption. lia. }
    assert (Hd : pow2 ld <= inject_Z (Z.pos (Qden x))).
    { rewrite pow2_inject by assumption. rewrite <- Zle_Qle.
      apply Z.log2_spec. lia. }
    replace (- (ln - ld - 52))%Z with (52 + ld + - ln)%Z by lia.
    rewrite !pow2_add.
    pose proof (pow2_pos ln) as Pn. pose proof (pow2_pos ld) as Pd.
    pose proof (pow2_cancel ln) as Hc.
    pose proof (pow2_pos (- ln)) as Pm.
    assert (Hxd : x * inject_Z (Z.pos (Qden x)) == inject_Z (Qnum x)).
    { destruct x as [n d]. unfold Qeq, inject_Z, Qmult. simpl. lia. }
    change (pow2 53) with (2 * pow2 52).
    assert (H1 : x * pow2 ld <= inject_Z (Qnum x)).
    { rewrite <- Hxd. nra. }
    assert (H2 : inject_Z (Qnum x) * pow2 (- ln) < 2).
    { assert (H3 : inject_Z (Qnum x) * pow2 (- ln) < 2 * pow2 ln * pow2 (- ln))
        by (apply Qmult_lt_compat_r; assumption).
      setoid_replace (2 * pow2 ln * pow2 (- ln)) with (2 * (pow2 (- ln) * pow2 ln))
        in H3 by ring.
      rewrite Hc in H3. lra. }
    set (t := x * pow2 ld) in *. set (M := pow2 (- ln)) in *.
    assert (H3 : t * M < 2) by nra.
    setoid_replace (x * (pow2 52 * pow2 ld * M)) with (pow2 52 * (t * M))
      by (unfold t; ring).
    nra.
  - assert (Hlt : x * pow2 (- (ln - ld - 52)) < pow2 52).
    { apply Qnot_le_lt. intros C. apply Qle_bool_iff in C. congruence. }
    replace (- (ln - ld - 52 - 1))%Z with (- (ln - ld - 52) + 1)%Z by lia.
    rewrite pow2_add. change (pow2 1) with 2. change (pow2 53) with (2 * pow2 52).
    lra.
Qed.

(** The result has a significand of 53 bits (2^53 standing for the
    significand 2^52 of the next binade). *)
Lemma round64_significand x :
  0 < x ->
  (2 ^ 52 <= roundHalfEven (x * pow2 (- ulpExp x)) <= 2 ^ 53)%Z.
Proof.
  intros Hx.
  pose proof (ulpExp_lower x Hx) as Hlo. pose proof (ulpExp_upper x Hx) as Hhi.
  pose proof (roundHalfEven_err (x * pow2 (- ulpExp x))) as [H1 H2].
  set (m := roundHalfEven (x * pow2 (- ulpExp x))) in *.
  change (pow2 52) with (inject_Z (2 ^ 52)) in Hlo.
  change (pow2 53) with (inject_Z (2 ^ 53)) in Hhi.
  split.
  - destruct (Z_le_gt_dec (2 ^ 52) m) as [Hok | Hbad]; [assumption | exfalso].
    assert (Hz : (m + 1 <= 2 ^ 52)%Z) by lia.
    rewrite Zle_Qle, inject_Z_plus in Hz. change (inject_Z 1) with 1 in Hz. lra.
  - destruct (Z_le_gt_dec m (2 ^ 53)) as [Hok | Hbad]; [assumption | exfalso].
    assert (Hz : (2 ^ 53 + 1 <= m)%Z) by lia.
    rewrite Zle_Qle, inject_Z_plus in Hz. change (inject_Z 1) with 1 in Hz. lra.
Qed.

#[local] Instance roundHalfEven_comp : Proper (Qeq ==> eq) roundHalfEven.
Proof.
  intros y y' E. unfold roundHalfEven.
  assert (Ef : Qfloor y = Qfloor y') by (apply Qfloor_comp; exact E).
  rewrite <- Ef.
  assert (Ec : (y - inject_Z (Qfloor y) ?= 1 # 2)
               = (y' - inject_Z (Qfloor y) ?= 1 # 2)).
  { apply Qcompare_comp; [| reflexivity]. now apply Qplus_comp. }
  now rewrite Ec.
Qed.

Lemma roundHalfEven_int (z : Z) : roundHalfEven (inject_Z z) = z.
Proof.
  unfold roundHalfEven. rewrite Qfloor_Z.
  assert (E : inject_Z z - inject_Z z == 0) by ring.
  assert (Ec : (inject_Z z - inject_Z z ?= 1 # 2) = (0 ?= 1 # 2))
    by (apply Qcompare_comp; [exact E | reflexivity]).
  rewrite Ec. reflexivity.
Qed.

(** A positive integer below 2^53 is a binary64 value: rounding leaves
    it as it is, which is why counts are taken by [ofInt]. *)
Lemma round64_int (n : Z) :
  (0 < n < 2 ^ 53)%Z -> round64 (inject_Z n) == ofInt n.
Proof.
  intros [Hpos Hlt]. unfold ofInt.
  pose proof (inject_Z_pos n Hpos) as Hx.
  rewrite (round64_pos_eq _ Hx).
  pose proof (ulpExp_lower _ Hx) as Hlo.
  set (e := ulpExp (inject_Z n)) in *.
  assert (He : (e <= 0)%Z).
  { destruct (Z_le_gt_dec e 0) as [Hok | Hbad]; [assumption | exfalso].
    assert (Hp : pow2 (- e) <= pow2 (-1)).
    { unfold pow2. apply Qpower_le_compat_l; [lia | lra]. }
    change (pow2 (-1)) with (1 # 2) in Hp.
    assert (Hn : inject_Z n < inject_Z (2 ^ 53)) by now rewrite <- Zlt_Qlt.
    change (inject_Z (2 ^ 53)) with (2 * pow2 52) in Hn.
    pose proof (pow2_pos (- e)) as Pe. pose proof (pow2_pos 52) as P52.
    nra. }
  assert (Hy : inject_Z n * pow2 (- e) == inject_Z (n * 2 ^ (- e))).
  { rewrite inject_Z_mult, pow2_inject by lia. reflexivity. }
  rewrite Hy, roundHalfEven_int, inject_Z_mult, <- pow2_inject by lia.
  rewrite <- Qmult_assoc, pow2_cancel. ring.
Qed.

(** The rounding agrees with the reference semantics of [SpecFloat] on
    every pair of counts up to 40. *)
Example round64_agrees_with_SpecFloat :
  forallb (fun h => forallb (fun a => agreesWithSpecFloat a h)
                      (map Z.of_nat (seq 0 41)))
    (map Z.of_nat (seq 1 40)) = true.
Proof. vm_compute. reflexivity. Qed.

Example round64_agrees_on_large_counts :
  agreesWithSpecFloat 123456789 987654321 = true
  /\ agreesWithSpecFloat 98765432100 7 = true
  /\ agreesWithSpecFloat 1 9007199254740991 = true.
Proof. vm_compute. repeat split. Qed.

End Float64Facts.

(** ** The store *)

Section Store.

Variable p : Attendance -> bool.

Lemma find_none_filter (docs : list Attendance) :
  find p docs = None -> filter p docs = [].
Proof.
  induction docs as [| d docs IH]; simpl; [reflexivity |].
  destruct (p d); [discriminate | assumption].
Qed.

Lemma find_some_filter (docs : list Attendance) (d : Attendance) :
  find p docs = Some d -> (1 <= List.length (filter p docs))%nat.
Proof.
  induction docs as [| x docs IH]; simpl; [discriminate |].
  destruct (p x); simpl; [lia | assumption].
Qed.

Lemma filter_length_app (docs more : list Attendance) :
  List.length (filter p (docs ++ more))
  = (List.length (filter p docs) + List.length (filter p more))%nat.
Proof. now rewrite filter_app, length_app. Qed.


End Store.

Lemma optEqb_eq (a b : option ObjectId) : optEqb a b = true <-> a = b.
Proof.
  destruct a as [x |], b as [y |]; simpl; split; intros H;
    try discriminate; try reflexivity.
  - apply String.eqb_eq in H. now subst.
  - injection H as ->. apply String.eqb_refl.
Qed.

Lemma samePair_eq (st sid : option ObjectId) (d : Attendance) :
  samePair st sid d = true <-> studentId d = st /\ sessionId d = sid.
Proof.
  unfold samePair. rewrite andb_true_iff, !optEqb_eq. reflexivity.
Qed.

(** Two filters on distinct keys never select the same document. *)
Lemma samePair_other (st sid st' sid' : option ObjectId) (d : Attendance) :
  studentId d = st -> sessionId d = sid ->
  (st', sid') <> (st, sid) -> samePair st' sid' d = false.
Proof.
  intros H1 H2 Hne. destruct (samePair st' sid' d) eqn:E; [| reflexivity].
  apply samePair_eq in E as [E1 E2]. congruence.
Qed.

(** Appending a document whose key is not in the store keeps the keys
    unique. *)
Lemma atMostOnePerKey_add (docs : list Attendance) (d : Attendance) :
  atMostOnePerKey docs ->
  find (samePair (studentId d) (sessionId d)) docs = None ->
  atMostOnePerKey (docs ++ [d]).
Proof.
  intros Inv Hnone st sid. rewrite filter_length_app. simpl.
  destruct (samePair st sid d) eqn:E; simpl.
  - apply samePair_eq in E as [<- <-].
    rewrite (find_none_filter _ _ Hnone). simpl. lia.
  - specialize (Inv st sid). lia.
Qed.



Lemma atMostOnePerKey_pairs (docs : list Attendance) :
  atMostOnePerKey docs -> atMostOnePerPair docs.
Proof. intros Inv st sid. apply Inv. Qed.

(** ** [submitAttendance] *)

Lemma notStrictlyTrue_false (v : JsFlag) : notStrictlyTrue v = false -> v = JsTrue.
Proof. destruct v; simpl; intros H; try discriminate; reflexivity. Qed.

Lemma submit_outcome env schema dir st body docs :
  SubmitOutcome env schema dir st body docs
    (submitAttendance env schema dir st body docs).
Proof.
  unfold submitAttendance, submitAttendance_try.
  destruct (negb (truthy (b_sessionId body)) || _ || _ || _) eqn:Hreq.
  { apply out_missing. exact Hreq. }
  destruct (notStrictlyTrue (b_livenessPassed body)) eqn:Hlive.
  { apply out_liveness. exact Hlive. }
  apply notStrictlyTrue_false in Hlive.
  destruct (User_findById dir st) as [student |] eqn:Hstu.
  2: { apply out_no_profile; [assumption | now left]. }
  destruct (negb (truthy (faceImageS3Key student))) eqn:Hkey.
  { apply negb_true_iff in Hkey.
    apply out_no_profile; [assumption | right; now exists student]. }
  cbv zeta.
  destruct (tooLarge _) eqn:Hbig.
  { now apply out_too_large. }
  unfold awaitCompareFaces.
  destruct (compareFaces env _ _) as [| | msg] eqn:Hcmp; handler_step.
  - destruct (QRCodeSession_findOne dir _ _ _) as [qr |] eqn:Hqr; handler_step.
    2: { now apply out_no_session. }
    destruct (find (samePair (Some st) (Some (qr_id qr))) docs)
      as [existing |] eqn:Hex; handler_step.
    { now apply out_conflict with (qr := qr) (existing := existing). }
    destruct (saveError env docs _) as [msg |] eqn:Hsave; handler_step.
    + now apply out_save_error with (qr := qr).
    + rewrite !orb_false_iff, !negb_false_iff in Hreq.
      destruct Hreq as [[[Hs Hc] _] _].
      now apply out_created with (student := student).
  - now apply out_no_match with (student := student).
  - now apply out_verifier_error with (student := student).
Qed.

Lemma catch_code {A : Type} (msg : string) :
  code (@submitAttendance_catch A msg) = 401
  \/ code (@submitAttendance_catch A msg) = 500.
Proof.
  unfold submitAttendance_catch.
  destruct (includes msg _); [left | right]; reflexivity.
Qed.

Lemma catch_payload {A : Type} (msg : string) :
  payload (@submitAttendance_catch A msg) = None.
Proof. unfold submitAttendance_catch. destruct (includes msg _); reflexivity. Qed.

(** A submission that answers 201 went through every gate and appended
    exactly the record it returns. *)
Lemma submit_created env schema dir st body docs docs' res :
  submitAttendance env schema dir st body docs = (docs', res) ->
  code res = 201 ->
  exists student qr,
    truthy (b_sessionId body) = true
    /\ b_livenessPassed body = JsTrue
    /\ User_findById dir st = Some student
    /\ compareFaces env (orEmpty (faceImageS3Key student))
         (decodeImage env (orEmpty (b_faceImage body))) = FacesMatch
    /\ QRCodeSession_findOne dir (orEmpty (b_sessionId body))
         (orEmpty (b_classId body)) (clock env 0%nat) = Some qr
    /\ find (samePair (Some st) (Some (qr_id qr))) docs = None
    /\ docs' = docs ++ [submittedRecord env schema st body qr (List.length docs)]
    /\ res = replyWith 201 (Some "Attendance marked successfully!")
               (submittedRecord env schema st body qr (List.length docs)).
Proof.
  intros Hrun Hcode.
  pose proof (submit_outcome env schema dir st body docs) as Hout.
  rewrite Hrun in Hout.
  inversion Hout; subst; try discriminate Hcode;
    try (destruct (@catch_code Attendance msg) as [Hc | Hc];
         rewrite Hc in Hcode; discriminate Hcode).
  match goal with
  | Hm : compareFaces env (orEmpty (faceImageS3Key ?s)) _ = FacesMatch,
    Hq : QRCodeSession_findOne dir _ _ _ = Some ?q |- _ =>
      exists s, q
  end.
  repeat split; assumption.
Qed.

(** Any other answer leaves the store as it was and carries no record. *)
Lemma submit_rejected env schema dir st body docs docs' res :
  submitAttendance env schema dir st body docs = (docs', res) ->
  code res <> 201 ->
  docs' = docs /\ payload res = None.
Proof.
  intros Hrun Hcode.
  pose proof (submit_outcome env schema dir st body docs) as Hout.
  rewrite Hrun in Hout.
  inversion Hout; subst; try (split; [reflexivity | reflexivity]);
    try (split; [reflexivity | apply catch_payload]).
  exfalso. apply Hcode. reflexivity.
Qed.

(** ** [syncAttendance] *)

Section Sync.

Variables (env : Env) (schema : Schema) (st : ObjectId).

(** On objects the accumulator only collects the outcomes. *)
Lemma syncLoop_syncRun (claims : list Claim) :
  forall (acc : list SyncResult) (docs : list Attendance),
    syncLoop env schema st (map Fields claims) acc docs
    = match syncRun env schema st claims docs with
      | (docs', inr results) => (docs', inr (acc ++ results))
      | (docs', inl msg) => (docs', inl msg)
      end.
Proof.
  induction claims as [| record rest IH]; intros acc docs.
  - simpl. unfold ret. now rewrite app_nil_r.
  - cbn [map syncLoop syncRun]. handler_step.
    destruct (find (samePair (Some st) (c_sessionId record)) docs) as [d |].
    + rewrite IH.
      destruct (syncRun env schema st rest docs) as [docs' [msg | results]];
        [reflexivity |].
      now rewrite <- app_assoc.
    + destruct (saveError env docs _) as [msg |]; [reflexivity |].
      rewrite IH.
      destruct (syncRun env schema st rest _) as [docs' [msg | results]];
        [reflexivity |].
      now rewrite <- app_assoc.
Qed.

(** A [null] ends the loop; the elements after it are not looked at. *)
Lemma syncLoop_null (before : list Claim) (after : list Element) :
  forall (acc : list SyncResult) (docs : list Attendance),
    syncLoop env schema st (map Fields before ++ JsonNull :: after) acc docs
    = match syncRun env schema st before docs with
      | (docs', inr _) => (docs', inl cannotDestructure)
      | (docs', inl msg) => (docs', inl msg)
      end.
Proof.
  induction before as [| record rest IH]; intros acc docs; [reflexivity |].
  cbn [map app syncLoop syncRun]. handler_step.
  destruct (find (samePair (Some st) (c_sessionId record)) docs) as [d |].
  - rewrite IH.
    destruct (syncRun env schema st rest docs) as [docs' [msg | results]];
      reflexivity.
  - destruct (saveError env docs _) as [msg |]; [reflexivity |].
    rewrite IH.
    destruct (syncRun env schema st rest _) as [docs' [msg | results]];
      reflexivity.
Qed.

(** An array holds objects only, or objects up to a first [null]. *)
Lemma elements_split (elements : list Element) :
  (exists claims, elements = map Fields claims)
  \/ (exists before after, elements = map Fields before ++ JsonNull :: after).
Proof.
  induction elements as [| e rest IH]; [left; now exists [] |].
  destruct e as [| c].
  - right. now exists [], rest.
  - destruct IH as [[claims ->] | [before [after ->]]].
    + left. now exists (c :: claims).
    + right. now exists (c :: before), after.
Qed.

Lemma claimsOf_objects (claims : list Claim) :
  claimsOf (ArrayOf (map Fields claims)) = claims.
Proof.
  induction claims as [| c rest IH]; [reflexivity |].
  cbn [claimsOf map flat_map app] in *. now rewrite IH.
Qed.

Lemma claimsOf_null (before : list Claim) (after : list Element) :
  claimsOf (ArrayOf (map Fields before ++ JsonNull :: after))
  = before ++ claimsOf (ArrayOf after).
Proof.
  induction before as [| c rest IH]; [reflexivity |].
  cbn [claimsOf map flat_map app] in *. now rewrite IH.
Qed.

Lemma syncAttendance_syncRun (claims : list Claim) (docs : list Attendance) :
  claims <> [] ->
  syncAttendance env schema st (ArrayOf (map Fields claims)) docs
  = match syncRun env schema st claims docs with
    | (docs', inr results) =>
        (docs', replyWith 200 (Some "Sync completed.") results)
    | (docs', inl msg) => (docs', reply 500 msg)
    end.
Proof.
  intros Hne. destruct claims as [| c rest]; [congruence |].
  unfold syncAttendance. cbn [map].
  change (Fields c :: map Fields rest) with (map Fields (c :: rest)).
  rewrite syncLoop_syncRun.
  destruct (syncRun env schema st (c :: rest) docs) as [docs' [msg | results]];
    reflexivity.
Qed.

(** The answer to an array with a [null]: 500, with the records of the
    claims before it, if their saves were accepted, left in the store. *)
Lemma syncAttendance_null (before : list Claim) (after : list Element)
    (docs : list Attendance) :
  syncAttendance env schema st (ArrayOf (map Fields before ++ JsonNull :: after)) docs
  = match syncRun env schema st before docs with
    | (docs', inr _) => (docs', reply 500 cannotDestructure)
    | (docs', inl msg) => (docs', reply 500 msg)
    end.
Proof.
  unfold syncAttendance.
  destruct (map Fields before ++ JsonNull :: after) as [| e rest] eqn:E.
  { destruct before; discriminate E. }
  rewrite <- E, (syncLoop_null before after [] docs).
  destruct (syncRun env schema st before docs) as [docs' [msg | results]];
    reflexivity.
Qed.

(** Running a batch is running its first part, then the rest. *)
Lemma syncRun_app (before after : list Claim) :
  forall docs,
    syncRun env schema st (before ++ after) docs
    = match syncRun env schema st before docs with
      | (docs1, inr results1) =>
          match syncRun env schema st after docs1 with
          | (docs2, inr results2) => (docs2, inr (results1 ++ results2))
          | (docs2, inl msg) => (docs2, inl msg)
          end
      | (docs1, inl msg) => (docs1, inl msg)
      end.
Proof.
  induction before as [| record rest IH]; intros docs.
  - simpl. destruct (syncRun env schema st after docs) as [d [m | r]]; reflexivity.
  - cbn [app syncRun].
    destruct (find (samePair (Some st) (c_sessionId record)) docs) as [d |].
    + rewrite IH.
      destruct (syncRun env schema st rest docs) as [docs1 [m | r1]];
        [reflexivity |].
      destruct (syncRun env schema st after docs1) as [docs2 [m | r2]];
        reflexivity.
    + cbv zeta. destruct (saveError env docs _) as [msg |]; [reflexivity |].
      rewrite IH.
      destruct (syncRun env schema st rest _) as [docs1 [m | r1]];
        [reflexivity |].
      destruct (syncRun env schema st after docs1) as [docs2 [m | r2]];
        reflexivity.
Qed.

(** Whatever happens, the store only grows, by records built from
    claims of the batch whose key was free when they were saved. *)
Lemma syncRun_extends (claims : list Claim) :
  forall docs,
    exists added,
      fst (syncRun env schema st claims docs) = docs ++ added
      /\ Forall (fun doc => exists c id,
                   In c claims /\ doc = syncedRecord schema st c id) added.
Proof.
  induction claims as [| record rest IH]; intros docs.
  - exists []. simpl. now rewrite app_nil_r.
  - cbn [syncRun].
    destruct (find (samePair (Some st) (c_sessionId record)) docs) as [d |].
    + destruct (IH docs) as [added [Heq Hall]]. exists added.
      destruct (syncRun env schema st rest docs) as [docs' [m | r]];
        simpl in *; (split; [assumption |]);
        (eapply Forall_impl; [| exact Hall]);
        intros doc [c [id [Hin Hdoc]]]; exists c, id; (split; [now right | assumption]).
    + cbv zeta. destruct (saveError env docs _) as [msg |].
      * exists []. simpl. now rewrite app_nil_r.
      * destruct (IH (docs ++ [syncedRecord schema st record (List.length docs)]))
          as [added [Heq Hall]].
        exists (syncedRecord schema st record (List.length docs) :: added).
        destruct (syncRun env schema st rest _) as [docs' [m | r]];
          simpl in *; rewrite Heq, <- app_assoc; (split; [reflexivity |]);
          (constructor;
           [ exists record, (List.length docs); split; [now left | reflexivity]
           | eapply Forall_impl; [| exact Hall];
             intros doc [c [id [Hin Hdoc]]]; exists c, id;
             (split; [now right | assumption]) ]).
Qed.

(** The loop keeps the keys of the store unique. *)
Lemma syncRun_keeps_keys (claims : list Claim) :
  forall docs,
    atMostOnePerKey docs ->
    atMostOnePerKey (fst (syncRun env schema st claims docs)).
Proof.
  induction claims as [| record rest IH]; intros docs Inv; [exact Inv |].
  cbn [syncRun].
  destruct (find (samePair (Some st) (c_sessionId record)) docs) as [d |] eqn:Hfind.
  - specialize (IH docs Inv).
    destruct (syncRun env schema st rest docs) as [docs' [m | r]]; exact IH.
  - cbv zeta. destruct (saveError env docs _) as [msg |]; [exact Inv |].
    assert (Inv' : atMostOnePerKey
                     (docs ++ [syncedRecord schema st record (List.length docs)])).
    { apply atMostOnePerKey_add; [exact Inv | exact Hfind]. }
    specialize (IH _ Inv').
    destruct (syncRun env schema st rest _) as [docs' [m | r]]; exact IH.
Qed.


(** What a call leaves in the store is what the loop leaves on the
    claims before the first [null], if there is one. *)
Lemma syncAttendance_store (field : AttendancesField) (docs : list Attendance) :
  fst (syncAttendance env schema st field docs) = docs
  \/ exists claims,
       incl claims (claimsOf field)
       /\ fst (syncAttendance env schema st field docs)
          = fst (syncRun env schema st claims docs).
Proof.
  destruct field as [| elements]; [now left |].
  destruct (elements_split elements) as [[claims ->] | [before [after ->]]].
  - destruct claims as [| c rest]; [now left |].
    right. exists (c :: rest). split.
    + rewrite claimsOf_objects. apply incl_refl.
    + rewrite syncAttendance_syncRun by discriminate.
      destruct (syncRun env schema st (c :: rest) docs) as [docs' [m | r]];
        reflexivity.
  - right. exists before. split.
    + rewrite claimsOf_null. now apply incl_appl, incl_refl.
    + rewrite syncAttendance_null.
      destruct (syncRun env schema st before docs) as [docs' [m | r]];
        reflexivity.
Qed.

End Sync.

(** ** Uniqueness of (studentId, sessionId) *)

Lemma submit_keeps_keys env schema dir st body docs :
  atMostOnePerKey docs ->
  atMostOnePerKey (fst (submitAttendance env schema dir st body docs)).
Proof.
  intros Inv.
  destruct (submitAttendance env schema dir st body docs) as [docs' res] eqn:Hrun.
  destruct (Z.eq_dec (code res) 201) as [Hc | Hc].
  - destruct (submit_created _ _ _ _ _ _ _ _ Hrun Hc)
      as [student [qr [_ [_ [_ [_ [_ [Hfree [-> _]]]]]]]]].
    simpl fst. apply atMostOnePerKey_add; assumption.
  - destruct (submit_rejected _ _ _ _ _ _ _ _ Hrun Hc) as [-> _]. exact Inv.
Qed.



Lemma sync_keeps_keys env schema st field docs :
  atMostOnePerKey docs ->
  atMostOnePerKey (fst (syncAttendance env schema st field docs)).
Proof.
  intros Inv.
  destruct (syncAttendance_store env schema st field docs)
    as [-> | [claims [_ ->]]]; [exact Inv |].
  now apply syncRun_keeps_keys.
Qed.



(** With a unique index in the store even manual creation keeps the
    keys unique: the second entry of a student without a session is
    rejected by the store, not by the handler. *)
Lemma manual_keeps_keys_indexed env schema admin body docs :
  enforcesUniqueKeys env ->
  atMostOnePerKey docs ->
  atMostOnePerKey (fst (createManualAttendance env schema admin body docs)).
Proof.
  intros Hidx Inv.
  unfold createManualAttendance, createManualAttendance_try. handler_step.
  match goal with
  | |- context [saveError env docs ?d] =>
      destruct (saveError env docs d) as [msg |] eqn:Hsave;
      [exact Inv | set (doc := d) in * ]
  end.
  apply atMostOnePerKey_add; [exact Inv |].
  destruct (find (samePair (studentId doc) (sessionId doc)) docs) eqn:Hfind;
    [| reflexivity].
  exfalso. apply (Hidx docs doc); [rewrite Hfind; discriminate | exact Hsave].
Qed.



(** ** Requests in flight and requests one at a time *)










Lemma enforcesUniqueKeys_pairs env :
  enforcesUniqueKeys env -> enforcesUniquePairs env.
Proof.
  intros Hidx docs d st sid Hst Hsid Hfind. apply Hidx. now rewrite Hst, Hsid.
Qed.










(** The stronger reading, in which two records that both lack a
    session id count as a repeated pair, is kept by submission and by
    reconciliation, whose existence checks compare the optional fields,
    but not by manual creation, which checks nothing and sets no
    session id: two manual entries for a student stand side by side. *)
Remark manual_entries_share_absent_session :
  let docs1 := fst (createManualAttendance Sample.env specSchema "admin"
                      Sample.manualBody []) in
  let docs2 := fst (createManualAttendance Sample.env specSchema "admin"
                      Sample.manualBody docs1) in
  atMostOnePerKey docs1
  /\ List.length (filter (samePair (Some "u1") None) docs2) = 2%nat
  /\ ~ atMostOnePerKey docs2.
Proof.
  cbv zeta. split; [| split].
  - intros st sid.
    match goal with
    | |- context [filter _ ?l] =>
        let l' := eval vm_compute in l in change l with l'
    end.
    cbn [filter]. destruct (samePair st sid _); simpl; lia.
  - vm_compute. reflexivity.
  - intros Inv. specialize (Inv (Some "u1") None). vm_compute in Inv. lia.
Qed.

(** ** The outcomes of a batch *)

Lemma optEqb_sym (a b : option ObjectId) : optEqb a b = optEqb b a.
Proof.
  destruct a as [x |], b as [y |]; simpl; try reflexivity. apply String.eqb_sym.
Qed.

Lemma optEqb_refl (a : option ObjectId) : optEqb a a = true.
Proof. now apply optEqb_eq. Qed.

Lemma isSome_find_snoc (p : Attendance -> bool) (docs : list Attendance) d :
  isSome (find p (docs ++ [d])) = isSome (find p docs) || p d.
Proof.
  induction docs as [| x docs IH]; simpl.
  - destruct (p d); reflexivity.
  - destruct (p x); [reflexivity | exact IH].
Qed.

Lemma isSome_find_app (p : Attendance -> bool) (docs more : list Attendance) :
  isSome (find p docs) = true -> isSome (find p (docs ++ more)) = true.
Proof.
  induction docs as [| x docs IH]; cbn [app find]; [discriminate |].
  destruct (p x); [reflexivity | exact IH].
Qed.

Section Replay.

Variables (env : Env) (schema : Schema) (st : ObjectId).

Lemma syncRun_all_skipped (claims : list Claim) (docs : list Attendance) :
  (forall c, In c claims -> preExisting st docs c = true) ->
  syncRun env schema st claims docs = (docs, inr (map skipped claims)).
Proof.
  induction claims as [| c rest IH]; intros Hall; [reflexivity |].
  cbn [syncRun map]. pose proof (Hall c (or_introl eq_refl)) as Hc.
  unfold preExisting in Hc.
  destruct (find (samePair (Some st) (c_sessionId c)) docs); [| discriminate].
  rewrite IH; [reflexivity |]. intros c' Hin. apply Hall. now right.
Qed.

Lemma syncRun_covers (claims : list Claim) :
  forall docs docs' results,
    syncRun env schema st claims docs = (docs', inr results) ->
    (forall c, In c claims -> preExisting st docs' c = true)
    /\ List.length docs' = (List.length docs + List.length (filter isSuccess results))%nat
    /\ List.length results = List.length claims.
Proof.
  induction claims as [| c rest IH]; intros docs docs' results Hrun.
  - injection Hrun as <- <-. split; [intros c [] |]. split; simpl; lia.
  - cbn [syncRun] in Hrun.
    destruct (find (samePair (Some st) (c_sessionId c)) docs) as [d |] eqn:Hfind.
    + destruct (syncRun env schema st rest docs) as [d1 [m | r1]] eqn:Hrest;
        [discriminate |].
      injection Hrun as <- <-.
      destruct (IH _ _ _ Hrest) as [Hall [Hlen Hn]].
      split; [| split].
      * intros c' [<- | Hin]; [| now apply Hall].
        destruct (syncRun_extends env schema st rest docs) as [added [Heq _]].
        rewrite Hrest in Heq. cbn [fst] in Heq. rewrite Heq.
        unfold preExisting. apply isSome_find_app. now rewrite Hfind.
      * cbn [filter]. change (isSuccess (skipped c)) with false. exact Hlen.
      * cbn [List.length]. now rewrite Hn.
    + cbv zeta in Hrun.
      destruct (saveError env docs _) as [msg |]; [discriminate |].
      set (doc := syncedRecord schema st c (List.length docs)) in *.
      destruct (syncRun env schema st rest (docs ++ [doc])) as [d1 [m | r1]] eqn:Hrest;
        [discriminate |].
      injection Hrun as <- <-.
      destruct (IH _ _ _ Hrest) as [Hall [Hlen Hn]].
      split; [| split].
      * intros c' [<- | Hin]; [| now apply Hall].
        destruct (syncRun_extends env schema st rest (docs ++ [doc]))
          as [added [Heq _]].
        rewrite Hrest in Heq. cbn [fst] in Heq. rewrite Heq.
        unfold preExisting. apply isSome_find_app.
        rewrite isSome_find_snoc. unfold samePair, doc.
        cbn [studentId sessionId syncedRecord]. rewrite !optEqb_refl.
        apply orb_true_r.
      * cbn [filter]. change (isSuccess (succeeded c)) with true.
        cbn [List.length]. rewrite Hlen, length_app. simpl. lia.
      * cbn [List.length]. now rewrite Hn.
Qed.

(** A call answered 200 was given objects only, at least one, and
    none of its saves was rejected. *)
Lemma sync_ok_inv (elements : list Element) (docs docs' : list Attendance)
    (res : Res (list SyncResult)) :
  syncAttendance env schema st (ArrayOf elements) docs = (docs', res) ->
  code res = 200 ->
  exists claims results,
    elements = map Fields claims
    /\ claims <> []
    /\ claimsOf (ArrayOf elements) = claims
    /\ syncRun env schema st claims docs = (docs', inr results)
    /\ res = replyWith 200 (Some "Sync completed.") results.
Proof.
  intros Hrun Hcode.
  destruct (elements_split elements) as [[claims ->] | [before [after ->]]].
  - destruct claims as [| c rest]; [injection Hrun as <- <-; discriminate Hcode |].
    rewrite syncAttendance_syncRun in Hrun by discriminate.
    destruct (syncRun env schema st (c :: rest) docs) as [d1 [m | r1]] eqn:Hs;
      injection Hrun as <- <-; [discriminate Hcode |].
    exists (c :: rest), r1. split; [reflexivity |]. split; [discriminate |].
    split; [apply claimsOf_objects |]. split; [exact Hs | reflexivity].
  - rewrite syncAttendance_null in Hrun.
    destruct (syncRun env schema st before docs) as [d1 [m | r1]];
      injection Hrun as <- <-; discriminate Hcode.
Qed.

(** The records a run adds carry keys that were free before it. *)
Lemma syncRun_added_free (claims : list Claim) :
  forall docs,
    exists added,
      fst (syncRun env schema st claims docs) = docs ++ added
      /\ Forall (fun doc =>
                   studentId doc = Some st
                   /\ exists c,
                        In c claims
                        /\ sessionId doc = c_sessionId c
                        /\ find (samePair (Some st) (c_sessionId c)) docs = None)
           added.
Proof.
  induction claims as [| record rest IH]; intros docs.
  - exists []. simpl. now rewrite app_nil_r.
  - cbn [syncRun].
    destruct (find (samePair (Some st) (c_sessionId record)) docs) as [d |] eqn:Hf.
    + destruct (IH docs) as [added [Heq Hall]]. exists added.
      destruct (syncRun env schema st rest docs) as [docs' [m | r]];
        simpl in *; (split; [assumption |]);
        (eapply Forall_impl; [| exact Hall]);
        intros doc [Hst [c [Hin Hc]]]; (split; [exact Hst |]);
        exists c; (split; [now right | exact Hc]).
    + cbv zeta. destruct (saveError env docs _) as [msg |].
      * exists []. simpl. now rewrite app_nil_r.
      * set (doc := syncedRecord schema st record (List.length docs)).
        destruct (IH (docs ++ [doc])) as [added [Heq Hall]].
        exists (doc :: added).
        assert (Hrest : Forall (fun doc0 =>
                   studentId doc0 = Some st
                   /\ exists c,
                        In c (record :: rest)
                        /\ sessionId doc0 = c_sessionId c
                        /\ find (samePair (Some st) (c_sessionId c)) docs = None)
                  added).
        { eapply Forall_impl; [| exact Hall].
          intros doc0 [Hst [c [Hin [Hs Hfree]]]]. split; [exact Hst |].
          exists c. split; [now right |]. split; [exact Hs |].
          destruct (find (samePair (Some st) (c_sessionId c)) docs) eqn:E;
            [| reflexivity].
          assert (Hsome : isSome (find (samePair (Some st) (c_sessionId c))
                                    (docs ++ [doc])) = true)
            by (apply isSome_find_app; now rewrite E).
          rewrite Hfree in Hsome. discriminate Hsome. }
        destruct (syncRun env schema st rest (docs ++ [doc])) as [docs' [m | r]];
          simpl in *; rewrite Heq, <- app_assoc; (split; [reflexivity |]);
          (constructor; [| exact Hrest]);
          (split; [reflexivity |]); exists record;
          (split; [now left |]); (split; [reflexivity | exact Hf]).
Qed.

(** A run either completes or stops at the first rejected save. *)
Lemma syncRun_cases (claims : list Claim) :
  forall docs,
    (exists docs' results, syncRun env schema st claims docs = (docs', inr results))
    \/ (exists before record after docs1 results1 msg,
          claims = before ++ record :: after
          /\ syncRun env schema st before docs = (docs1, inr results1)
          /\ find (samePair (Some st) (c_sessionId record)) docs1 = None
          /\ saveError env docs1
               (syncedRecord schema st record (List.length docs1)) = Some msg).
Proof.
  induction claims as [| c rest IH]; intros docs.
  - left. now exists docs, [].
  - cbn [syncRun].
    destruct (find (samePair (Some st) (c_sessionId c)) docs) as [d |] eqn:Hf.
    + destruct (IH docs)
        as [[docs' [results Hrun]]
           | [before [record [after [docs1 [results1 [msg [-> [Hb [Hfree Hsave]]]]]]]]]].
      * left. rewrite Hrun. now exists docs', (skipped c :: results).
      * right. exists (c :: before), record, after, docs1, (skipped c :: results1), msg.
        split; [reflexivity |]. split; [| split; assumption].
        cbn [syncRun]. now rewrite Hf, Hb.
    + cbv zeta.
      destruct (saveError env docs (syncedRecord schema st c (List.length docs)))
        as [msg |] eqn:Hsave0.
      * right. exists [], c, rest, docs, [], msg. repeat split; assumption.
      * destruct (IH (docs ++ [syncedRecord schema st c (List.length docs)]))
          as [[docs' [results Hrun]]
             | [before [record [after [docs1 [results1 [msg [-> [Hb [Hfree Hsave]]]]]]]]]].
        -- left. rewrite Hrun. now exists docs', (succeeded c :: results).
        -- right.
           exists (c :: before), record, after, docs1, (succeeded c :: results1), msg.
           split; [reflexivity |]. split; [| split; assumption].
           cbn [syncRun]. rewrite Hf. cbv zeta. now rewrite Hsave0, Hb.
Qed.

End Replay.

Section Outcomes.

Variables (env : Env) (schema : Schema) (st : ObjectId).

(** A claim is skipped exactly when its pair had a record before the
    call or an earlier claim of the batch carried the same session id. *)
Lemma syncRun_outcomes (claims : list Claim) :
  forall (docs0 cur : list Attendance) (seen : list (option ObjectId))
         (docs' : list Attendance) (results : list SyncResult),
    (forall sid,
        isSome (find (samePair (Some st) sid) cur)
        = isSome (find (samePair (Some st) sid) docs0)
          || existsb (optEqb sid) seen) ->
    syncRun env schema st claims cur = (docs', inr results) ->
    results = outcomesInBatch st docs0 seen claims.
Proof.
  induction claims as [| c rest IH]; intros docs0 cur seen docs' results Hseen Hrun.
  { injection Hrun as _ <-. reflexivity. }
  cbn [syncRun outcomesInBatch] in *. unfold preExisting.
  rewrite <- (Hseen (c_sessionId c)).
  destruct (find (samePair (Some st) (c_sessionId c)) cur) as [d |] eqn:Hfind.
  - assert (Hnext : forall sid,
               isSome (find (samePair (Some st) sid) cur)
               = isSome (find (samePair (Some st) sid) docs0)
                 || existsb (optEqb sid) (c_sessionId c :: seen)).
    { intros sid. cbn [existsb]. rewrite (Hseen sid).
      destruct (optEqb sid (c_sessionId c)) eqn:E.
      - apply optEqb_eq in E. subst sid.
        rewrite <- (Hseen (c_sessionId c)), Hfind. simpl.
        now rewrite orb_true_r.
      - reflexivity. }
    destruct (syncRun env schema st rest cur) as [d1 [m | r]] eqn:Hrest;
      [discriminate |].
    injection Hrun as _ <-. cbn [isSome].
    now rewrite (IH docs0 cur (c_sessionId c :: seen) d1 r Hnext Hrest).
  - cbv zeta in Hrun.
    destruct (saveError env cur _) as [msg |]; [discriminate |].
    set (doc := syncedRecord schema st c (List.length cur)) in *.
    assert (Hnext : forall sid,
               isSome (find (samePair (Some st) sid) (cur ++ [doc]))
               = isSome (find (samePair (Some st) sid) docs0)
                 || existsb (optEqb sid) (c_sessionId c :: seen)).
    { intros sid. rewrite isSome_find_snoc, (Hseen sid). cbn [existsb].
      unfold samePair, doc. cbn [studentId sessionId syncedRecord].
      rewrite optEqb_refl, (optEqb_sym (c_sessionId c) sid). simpl.
      destruct (isSome (find _ docs0)), (optEqb sid (c_sessionId c)),
        (existsb (optEqb sid) seen); reflexivity. }
    destruct (syncRun env schema st rest (cur ++ [doc])) as [d1 [m | r]] eqn:Hrest;
      [discriminate |].
    injection Hrun as _ <-. cbn [isSome].
    now rewrite (IH docs0 (cur ++ [doc]) (c_sessionId c :: seen) d1 r Hnext Hrest).
Qed.

End Outcomes.

Lemma outcomesInBatch_length st docs claims :
  forall seen, List.length (outcomesInBatch st docs seen claims) = List.length claims.
Proof.
  induction claims as [| c rest IH]; intros seen; simpl; [reflexivity |].
  now rewrite IH.
Qed.

Lemma outcomesInBatch_sessions st docs claims :
  forall seen,
    map r_sessionId (outcomesInBatch st docs seen claims) = map c_sessionId claims.
Proof.
  induction claims as [| c rest IH]; intros seen; simpl; [reflexivity |].
  rewrite IH. destruct (preExisting st docs c || _); reflexivity.
Qed.

(** Without a repeated session id only the store before the call
    matters. *)
Lemma outcomesInBatch_distinct st docs claims :
  forall seen,
    NoDup (map c_sessionId claims) ->
    (forall c, In c claims -> existsb (optEqb (c_sessionId c)) seen = false) ->
    outcomesInBatch st docs seen claims = map (expectedOutcome st docs) claims.
Proof.
  induction claims as [| c rest IH]; intros seen Hnd Hseen; [reflexivity |].
  cbn [outcomesInBatch map]. inversion Hnd as [| x l Hnotin Hnd']; subst.
  rewrite (Hseen c (or_introl eq_refl)), orb_false_r.
  unfold expectedOutcome at 1. f_equal.
  apply IH; [assumption |].
  intros c' Hin. cbn [existsb].
  rewrite (Hseen c' (or_intror Hin)), orb_false_r.
  destruct (optEqb (c_sessionId c') (c_sessionId c)) eqn:E; [| reflexivity].
  apply optEqb_eq in E. exfalso. apply Hnotin. rewrite <- E.
  now apply in_map.
Qed.

Lemma expectedOutcome_status st docs c :
  isSkipped (expectedOutcome st docs c) = preExisting st docs c
  /\ isSuccess (expectedOutcome st docs c) = negb (preExisting st docs c).
Proof. unfold expectedOutcome. destruct (preExisting st docs c); split; reflexivity. Qed.

Lemma expected_counts st docs claims :
  List.length (filter isSkipped (map (expectedOutcome st docs) claims))
  = List.length (filter (preExisting st docs) claims)
  /\ (List.length (filter isSuccess (map (expectedOutcome st docs) claims))
      + List.length (filter (preExisting st docs) claims)
      = List.length claims)%nat.
Proof.
  induction claims as [| c rest [IH1 IH2]]; [split; reflexivity |].
  cbn [map filter].
  destruct (expectedOutcome_status st docs c) as [-> ->].
  destruct (preExisting st docs c); cbn [negb List.length]; split; lia.
Qed.

(** C2 (as the code has it).  A call that is answered 200 was given a
    non-empty array of N objects, and its payload holds exactly N
    outcomes in the order of the claims; a claim is skipped when its
    pair had a record before the call or an earlier claim of the batch
    carried the same session id, and succeeds otherwise.  When the
    session ids of the batch are pairwise distinct and M claims had a
    record before the call, exactly those M are skipped and the other
    N - M succeed. *)
Theorem sync_outcomes env schema st elements docs docs' res :
  syncAttendance env schema st (ArrayOf elements) docs = (docs', res) ->
  code res = 200 ->
  let claims := claimsOf (ArrayOf elements) in
  let results := outcomesInBatch st docs [] claims in
  elements = map Fields claims
  /\ elements <> []
  /\ payload res = Some results
  /\ List.length results = List.length elements
  /\ map r_sessionId results = map c_sessionId claims
  /\ (NoDup (map c_sessionId claims) ->
      results = map (expectedOutcome st docs) claims
      /\ List.length (filter isSkipped results)
         = List.length (filter (preExisting st docs) claims)
      /\ (List.length (filter isSuccess results)
          + List.length (filter (preExisting st docs) claims)
          = List.length claims)%nat).
Proof.
  intros Hrun Hcode claims results.
  destruct (sync_ok_inv _ _ _ _ _ _ _ Hrun Hcode)
    as [cs [rs [Hel [Hne [Hcs [Hsync ->]]]]]].
  assert (Hrs : rs = results).
  { unfold results, claims. rewrite Hcs.
    apply (syncRun_outcomes env schema st cs docs docs [] docs' rs); [| exact Hsync].
    intros sid. simpl. now rewrite orb_false_r. }
  subst rs. fold claims in Hcs. rewrite <- Hcs in Hel, Hne.
  split; [exact Hel |].
  split; [rewrite Hel; destruct claims; [congruence | discriminate] |].
  split; [reflexivity |].
  split.
  { pose proof (f_equal (@List.length Element) Hel) as Hlen.
    rewrite length_map in Hlen. unfold results.
    rewrite outcomesInBatch_length. now symmetry. }
  split; [apply outcomesInBatch_sessions |].
  intros Hnd.
  assert (E : results = map (expectedOutcome st docs) claims).
  { apply outcomesInBatch_distinct; [assumption | reflexivity]. }
  rewrite E. split; [reflexivity |]. apply expected_counts.
Qed.

Lemma sync_outcomes_witness :
  option_map (map r_status)
    (payload (snd (syncAttendance Sample.env specSchema "u1"
                     (ArrayOf (map Fields Sample.mixedBatch)) Sample.afterSubmit)))
  = Some ["skipped"; "success"; "success"]
  /\ List.length (filter (preExisting "u1" Sample.afterSubmit) Sample.mixedBatch)
     = 1%nat.
Proof.
  destruct (sync_outcomes Sample.env specSchema "u1"
              (map Fields Sample.mixedBatch) Sample.afterSubmit
              (fst (syncAttendance Sample.env specSchema "u1"
                      (ArrayOf (map Fields Sample.mixedBatch)) Sample.afterSubmit))
              (snd (syncAttendance Sample.env specSchema "u1"
                      (ArrayOf (map Fields Sample.mixedBatch)) Sample.afterSubmit))
              eq_refl eq_refl)
    as [_ [_ [Hpay _]]].
  rewrite Hpay. split; reflexivity.
Defined.

(** C2 as stated fails on a batch that repeats a session id: of two
    claims for a session without a record (N = 2, M = 0) the first
    succeeds and the second is skipped. *)
Lemma sync_repeated_claim_counterexample :
  List.length (filter (preExisting "u1" []) Sample.repeatingBatch) = 0%nat
  /\ option_map (map r_status)
       (payload (snd (syncAttendance Sample.env specSchema "u1"
                        (ArrayOf (map Fields Sample.repeatingBatch)) [])))
     = Some ["success"; "skipped"]
  /\ payload (snd (syncAttendance Sample.env specSchema "u1"
                     (ArrayOf (map Fields Sample.repeatingBatch)) []))
     <> Some (map (expectedOutcome "u1" []) Sample.repeatingBatch).
Proof.
  split; [reflexivity |]. split; [reflexivity |].
  vm_compute. intros H. discriminate H.
Qed.

(** ** A failure in the middle of a batch *)

(** A rejected [save] ends the loop: the claims after it are not
    looked at. *)
Lemma syncRun_aborts env schema st before record after :
  forall docs docs1 results1 msg,
    syncRun env schema st before docs = (docs1, inr results1) ->
    find (samePair (Some st) (c_sessionId record)) docs1 = None ->
    saveError env docs1 (syncedRecord schema st record (List.length docs1))
    = Some msg ->
    syncRun env schema st (before ++ record :: after) docs = (docs1, inl msg).
Proof.
  intros docs docs1 results1 msg Hbefore Hfree Hsave.
  rewrite syncRun_app, Hbefore. cbn [syncRun]. rewrite Hfree. cbv zeta.
  rewrite Hsave. reflexivity.
Qed.

(** C3 (as the code has it).  An [attendances] value that is not an
    array, or is an empty one, is answered 400 before any claim is
    looked at.  Otherwise the elements are processed in order inside
    one [try] block: when the store rejects the record of a claim, the
    call answers 500 with the message of that error, the elements after
    it are not processed (whatever they are), no outcome is reported,
    and the records saved for the claims before it stay in the store;
    a [null] element ends the call in the same way at its turn.  A
    call on a non-empty array answers 200 with one outcome per element
    unless one of its saves is rejected or an element is [null]. *)
Theorem sync_failure_modes (env : Env) (schema : Schema) (st : ObjectId) :
  (forall docs,
      syncAttendance env schema st NotAnArray docs
      = (docs, reply 400 "No attendance records to sync."))
  /\ (forall docs,
        syncAttendance env schema st (ArrayOf []) docs
        = (docs, reply 400 "No attendance records to sync."))
  /\ (forall before record after docs docs1 results1 msg,
        syncLoop env schema st (map Fields before) [] docs = (docs1, inr results1) ->
        find (samePair (Some st) (c_sessionId record)) docs1 = None ->
        saveError env docs1 (syncedRecord schema st record (List.length docs1))
        = Some msg ->
        syncAttendance env schema st
          (ArrayOf (map Fields before ++ Fields record :: after)) docs
        = (docs1, reply 500 msg))
  /\ (forall before after docs docs1 results1,
        syncLoop env schema st (map Fields before) [] docs = (docs1, inr results1) ->
        syncAttendance env schema st
          (ArrayOf (map Fields before ++ JsonNull :: after)) docs
        = (docs1, reply 500 cannotDestructure))
  /\ (forall elements docs,
        elements <> [] ->
        (exists docs' results,
            syncAttendance env schema st (ArrayOf elements) docs
            = (docs', replyWith 200 (Some "Sync completed.") results)
            /\ List.length results = List.length elements)
        \/ (exists before record after docs1 results1 msg,
              elements = map Fields before ++ Fields record :: after
              /\ syncLoop env schema st (map Fields before) [] docs
                 = (docs1, inr results1)
              /\ find (samePair (Some st) (c_sessionId record)) docs1 = None
              /\ saveError env docs1
                   (syncedRecord schema st record (List.length docs1)) = Some msg)
        \/ (exists before after,
              elements = map Fields before ++ JsonNull :: after)).
Proof.
  split; [reflexivity |]. split; [reflexivity |]. split; [| split].
  - intros before record after docs docs1 results1 msg Hbefore Hfree Hsave.
    rewrite syncLoop_syncRun in Hbefore.
    destruct (syncRun env schema st before docs) as [d1 [m | r1]] eqn:Hrun;
      [discriminate |].
    injection Hbefore as -> _.
    destruct (elements_split after) as [[claims ->] | [mid [after' ->]]].
    + change (map Fields before ++ Fields record :: map Fields claims)
        with (map Fields before ++ map Fields (record :: claims)).
      rewrite <- map_app.
      rewrite syncAttendance_syncRun by (destruct before; discriminate).
      rewrite (syncRun_aborts _ _ _ _ _ claims _ _ _ _ Hrun Hfree Hsave).
      reflexivity.
    + change (map Fields before ++ Fields record :: map Fields mid ++ JsonNull :: after')
        with (map Fields before ++ map Fields (record :: mid) ++ JsonNull :: after').
      rewrite app_assoc, <- map_app, syncAttendance_null.
      rewrite (syncRun_aborts _ _ _ _ _ mid _ _ _ _ Hrun Hfree Hsave).
      reflexivity.
  - intros before after docs docs1 results1 Hbefore.
    rewrite syncLoop_syncRun in Hbefore.
    destruct (syncRun env schema st before docs) as [d1 [m | r1]] eqn:Hrun;
      [discriminate |].
    injection Hbefore as -> _.
    now rewrite syncAttendance_null, Hrun.
  - intros elements docs Hne.
    destruct (elements_split elements) as [[claims ->] | [before [after ->]]].
    + assert (Hc : claims <> [])
        by (destruct claims; [exfalso; now apply Hne | discriminate]).
      destruct (syncRun_cases env schema st claims docs)
        as [[docs' [results Hrun]]
           | [before [record [after [docs1 [results1 [msg [-> [Hb [Hfree Hsave]]]]]]]]]].
      * left. exists docs', results.
        rewrite syncAttendance_syncRun, Hrun by exact Hc.
        split; [reflexivity |]. rewrite length_map.
        exact (proj2 (proj2 (syncRun_covers _ _ _ _ _ _ _ Hrun))).
      * right. left.
        exists before, record, (map Fields after), docs1, results1, msg.
        split; [now rewrite map_app |].
        split; [now rewrite syncLoop_syncRun, Hb |]. split; assumption.
    + right. right. now exists before, after.
Qed.

Lemma sync_failure_modes_witness :
  syncAttendance Sample.rejecting specSchema "u1"
    (ArrayOf (map Fields Sample.freshBatch)) []
  = ([syncedRecord specSchema "u1" (Sample.claim "s1" 5) 0],
     reply 500 "Attendance validation failed").
Proof.
  exact (proj1 (proj2 (proj2 (sync_failure_modes Sample.rejecting specSchema "u1")))
           [Sample.claim "s1" 5] (Sample.claim "s2" 6) [Fields (Sample.claim "s3" 7)]
           [] [syncedRecord specSchema "u1" (Sample.claim "s1" 5) 0]
           [succeeded (Sample.claim "s1" 5)] "Attendance validation failed"
           eq_refl eq_refl eq_refl).
Defined.

(** C3 as stated fails: the store rejects the record of the second of
    three claims; the call answers 500 without any outcome, and the
    third claim, which the store would have accepted, is never
    processed, while the record of the first stays. *)
Lemma sync_save_failure_counterexample :
  code (snd (syncAttendance Sample.rejecting specSchema "u1"
               (ArrayOf (map Fields Sample.freshBatch)) [])) = 500
  /\ payload (snd (syncAttendance Sample.rejecting specSchema "u1"
                     (ArrayOf (map Fields Sample.freshBatch)) [])) = None
  /\ map sessionId (fst (syncAttendance Sample.rejecting specSchema "u1"
                           (ArrayOf (map Fields Sample.freshBatch)) [])) = [Some "s1"]
  /\ saveError Sample.rejecting
       (fst (syncAttendance Sample.rejecting specSchema "u1"
               (ArrayOf (map Fields Sample.freshBatch)) []))
       (syncedRecord specSchema "u1" (Sample.claim "s3" 7) 1) = None.
Proof. repeat split. Qed.

(** A [null] between two claims, on a store that accepts every write:
    the first claim is saved, the call answers 500 and the third claim
    is not looked at. *)
Example sync_null_element :
  syncAttendance Sample.env specSchema "u1"
    (ArrayOf [Fields (Sample.claim "s1" 5); JsonNull; Fields (Sample.claim "s3" 7)]) []
  = ([syncedRecord specSchema "u1" (Sample.claim "s1" 5) 0],
     reply 500 cannotDestructure).
Proof. reflexivity. Qed.

(** ** The summary percentage *)

Lemma filter_length_le {A : Type} (p : A -> bool) (l : list A) :
  (List.length (filter p l) <= List.length l)%nat.
Proof.
  induction l as [| x l IH]; simpl; [lia |].
  destruct (p x); simpl; lia.
Qed.

Lemma countDocuments_bounds (p : Attendance -> bool) (docs : list Attendance) :
  0 <= countDocuments p docs <= Z.of_nat (List.length docs).
Proof.
  unfold countDocuments. pose proof (filter_length_le p docs). lia.
Qed.

(** What the [summary] object holds, by the two counts. *)
Lemma summaryOf_spec (cid : option ObjectId) (held attended : Z) :
  0 <= held -> 0 <= attended <= 2 ^ 37 ->
  let s := summaryOf cid held attended in
  totalHeldSessions s = held
  /\ totalAttendedSessions s = attended
  /\ totalMissedSessions s = held - attended
  /\ (held = 0 -> (percentage s == 100)%Q)
  /\ (held <> 0 ->
      exists n,
        percentage s = Float64.parseHundredths n
        /\ nearestHundredths n (100 * (inject_Z attended / inject_Z held))%Q).
Proof.
  intros Hheld Hatt s. unfold s, summaryOf. cbn [totalHeldSessions
    totalAttendedSessions totalMissedSessions percentage].
  repeat split.
  - intros ->. vm_compute. reflexivity.
  - intros Hne. unfold twoDecimals, rawPercentage.
    destruct (held =? 0) eqn:E; [apply Z.eqb_eq in E; contradiction |].
    eexists. split; [reflexivity |].
    apply Float64Facts.percent_nearestHundredths; lia.
Qed.

(** The overall summary is [summaryOf] of two counts of the store. *)
Lemma overall_summary_counts dir st docs s :
  payload (getMyAttendanceSummary dir st docs) = Some s ->
  exists held attended,
    s = summaryOf None held attended
    /\ 0 <= held /\ 0 <= attended <= Z.of_nat (List.length docs).
Proof.
  unfold getMyAttendanceSummary.
  destruct (filter _ (enrollments dir)) as [| e es]; [discriminate |].
  cbv zeta. cbn [payload replyWith]. intros H. injection H as <-.
  eexists. eexists. split; [reflexivity |].
  split; [lia | apply countDocuments_bounds].
Qed.

Lemma class_summary_counts st cid docs s :
  payload (getMyClassAttendanceSummary st cid docs) = Some s ->
  exists held attended,
    s = summaryOf (Some cid) held attended
    /\ 0 <= held /\ 0 <= attended <= Z.of_nat (List.length docs).
Proof.
  unfold getMyClassAttendanceSummary.
  cbv zeta. cbn [payload replyWith]. intros H. injection H as <-.
  eexists. eexists. split; [reflexivity |].
  split; [lia | apply countDocuments_bounds].
Qed.

(** C4.  In every summary, overall or for one class, the missed count
    is held minus attended, the percentage is 100 when no session was
    held, and otherwise it is the number that [parseFloat] reads from a
    decimal with two places that is a nearest one to
    attended / held * 100; 10 held and 7 attended give 70 with 3
    missed.  The store holds at most 2^37 records. *)
Theorem summary_percentage dir st cid docs s :
  payload (getMyAttendanceSummary dir st docs) = Some s
  \/ payload (getMyClassAttendanceSummary st cid docs) = Some s ->
  Z.of_nat (List.length docs) <= 2 ^ 37 ->
  totalMissedSessions s = totalHeldSessions s - totalAttendedSessions s
  /\ (totalHeldSessions s = 0 -> (percentage s == 100)%Q)
  /\ (totalHeldSessions s <> 0 ->
      exists n,
        percentage s = Float64.parseHundredths n
        /\ nearestHundredths n
             (100 * (inject_Z (totalAttendedSessions s)
                     / inject_Z (totalHeldSessions s)))%Q)
  /\ (percentage (summaryOf None 10 7) == 70)%Q
  /\ totalMissedSessions (summaryOf None 10 7) = 3.
Proof.
  intros Hs Hsize.
  assert (Hshape : exists c held attended,
             s = summaryOf c held attended
             /\ 0 <= held /\ 0 <= attended <= Z.of_nat (List.length docs)).
  { destruct Hs as [Hs | Hs].
    - destruct (overall_summary_counts _ _ _ _ Hs) as [h [a H]]. now exists None, h, a.
    - destruct (class_summary_counts _ _ _ _ Hs) as [h [a H]]. now exists (Some cid), h, a. }
  destruct Hshape as [c [held [attended [-> [Hheld Hatt]]]]].
  destruct (summaryOf_spec c held attended Hheld ltac:(lia))
    as [Eh [Ea [Hmiss [Hzero Hpos]]]].
  rewrite Eh, Ea.
  split; [exact Hmiss |]. split; [exact Hzero |]. split; [exact Hpos |].
  split; [vm_compute; reflexivity | reflexivity].
Qed.

(** Two sample percentages: a third of the sessions, and a tie of
    [toFixed(2)], which goes up. *)
Example summary_percentage_samples :
  Float64.toFixed2 (rawPercentage 3 1) = 3333
  /\ (rawPercentage 160 1 == 5 # 8)%Q
  /\ Float64.toFixed2 (rawPercentage 160 1) = 63.
Proof. vm_compute. repeat split. Qed.

Lemma summary_percentage_witness :
  payload (getMyClassAttendanceSummary "u1" "c1" Sample.classStore)
  = Some (summaryOf (Some "c1") 3 2)
  /\ totalMissedSessions (summaryOf (Some "c1") 3 2) = 1
  /\ exists n,
       percentage (summaryOf (Some "c1") 3 2) = Float64.parseHundredths n
       /\ nearestHundredths n (100 * (2 / 3))%Q.
Proof.
  assert (Hs : payload (getMyClassAttendanceSummary "u1" "c1" Sample.classStore)
               = Some (summaryOf (Some "c1") 3 2)) by reflexivity.
  assert (Hsize : Z.of_nat (List.length Sample.classStore) <= 2 ^ 37)
    by (vm_compute; discriminate).
  destruct (summary_percentage Sample.dir "u1" "c1" Sample.classStore
              (summaryOf (Some "c1") 3 2) (or_intror Hs) Hsize)
    as [Hmiss [_ [Hpct _]]].
  split; [exact Hs |]. split; [exact Hmiss |].
  apply Hpct. discriminate.
Defined.

(** ** The full report *)

Lemma sumStatus_count (s : string) (key : option ObjectId) (docs : list Attendance) :
  sumStatus s key docs
  = Z.of_nat (List.length
                (filter (fun d => optEqb (studentId d) key && statusIs s (status d))
                   docs)).
Proof.
  unfold sumStatus. induction docs as [| d docs IH]; [reflexivity |].
  cbn [filter]. destruct (optEqb (studentId d) key); cbn [andb].
  - cbn [fold_right]. rewrite IH.
    destruct (statusIs s (status d)); cbn [List.length]; lia.
  - exact IH.
Qed.

(** Every row comes from one group and one user with the id of the
    group. *)
Lemma report_row_origin dir mq docs row :
  In row (aggregateReport dir mq docs) ->
  exists u,
    In u (users dir)
    /\ row = projectRow
               ({| g_id := Some (u_id u);
                   g_presentDays :=
                     sumStatus "present" (Some (u_id u)) (filter (matches mq) docs);
                   g_absentDays :=
                     sumStatus "absent" (Some (u_id u)) (filter (matches mq) docs);
                   g_lateDays :=
                     sumStatus "late" (Some (u_id u)) (filter (matches mq) docs) |},
                u).
Proof.
  unfold aggregateReport. intros Hin.
  apply in_map_iff in Hin as [[g u] [<- Hin]].
  apply in_flat_map in Hin as [g' [Hg Hin]].
  unfold groupByStudent in Hg. apply in_map_iff in Hg as [key [<- _]].
  unfold lookupStudent in Hin. cbn [g_id] in Hin.
  destruct key as [id |]; [| contradiction].
  apply in_map_iff in Hin as [u' [Heq Hin]].
  injection Heq as <- ->.
  apply filter_In in Hin as [Hin Hid]. apply String.eqb_eq in Hid.
  exists u. split; [assumption |]. rewrite Hid. reflexivity.
Qed.

(** C5.  In every row of the full report the three counts are the
    numbers of matching records of the student with status present,
    absent and late, [totalDays] is their sum, and [percentage] is 0
    when [totalDays] is 0 and otherwise [presentDays / totalDays * 100]
    in binary64, which is within two roundings of the exact value;
    the summary gives 100 on zero held sessions. *)
Theorem report_row_percentage dir mq docs row :
  In row (aggregateReport dir mq docs) ->
  let count := fun s =>
    Z.of_nat (List.length
                (filter (fun d => ofStudent (rr_studentId row) d
                                  && statusIs s (status d))
                   (filter (matches mq) docs))) in
  presentDays row = count "present"
  /\ absentDays row = count "absent"
  /\ lateDays row = count "late"
  /\ totalDays row = presentDays row + absentDays row + lateDays row
  /\ (totalDays row = 0 -> rr_percentage row = 0%Q)
  /\ (totalDays row <> 0 ->
      rr_percentage row
      = Float64.fmul
          (Float64.fdiv (Float64.ofInt (presentDays row))
             (Float64.ofInt (totalDays row)))
          (Float64.ofInt 100)
      /\ let exact := (100 * (inject_Z (presentDays row)
                              / inject_Z (totalDays row)))%Q in
         (exact * ((1 - Float64.u53) * (1 - Float64.u53)) <= rr_percentage row
          /\ rr_percentage row
             <= exact * ((1 + Float64.u53) * (1 + Float64.u53)))%Q)
  /\ (percentage (summaryOf None 0 0) == 100)%Q.
Proof.
  intros Hin count.
  destruct (report_row_origin dir mq docs row Hin) as [u [Hu ->]].
  unfold projectRow. cbn [presentDays absentDays lateDays totalDays
    rr_percentage rr_studentId g_presentDays g_absentDays g_lateDays].
  unfold count. cbn [rr_studentId]. unfold ofStudent.
  rewrite !sumStatus_count.
  set (matching := filter (matches mq) docs).
  set (p := Z.of_nat (List.length (filter (fun d => _ && statusIs "present" _) matching))).
  set (a := Z.of_nat (List.length (filter (fun d => _ && statusIs "absent" _) matching))).
  set (l := Z.of_nat (List.length (filter (fun d => _ && statusIs "late" _) matching))).
  assert (Hp : 0 <= p) by (unfold p; lia).
  assert (Ha : 0 <= a) by (unfold a; lia).
  assert (Hl : 0 <= l) by (unfold l; lia).
  assert (Hzero : forall t, Float64.fmul (Float64.fdiv (Float64.ofInt 0)
                                           (Float64.ofInt t)) (Float64.ofInt 100)
                            = 0%Q) by reflexivity.
  split; [reflexivity |]. split; [reflexivity |]. split; [reflexivity |].
  split; [reflexivity |]. split; [| split].
  - intros H0. rewrite H0. reflexivity.
  - intros Hne.
    destruct (p + a + l =? 0) eqn:E; [apply Z.eqb_eq in E; contradiction |].
    split; [reflexivity |].
    destruct (Z.eq_dec p 0) as [E0 | Hp0].
    + rewrite E0, Hzero. cbv zeta.
      setoid_replace (100 * (inject_Z 0 / inject_Z (0 + a + l)))%Q with 0%Q
        by (unfold Qdiv; change (inject_Z 0) with 0%Q; ring).
      rewrite !Qmult_0_l. split; apply Qle_refl.
    + apply (Float64Facts.percent_bounds p (p + a + l)); lia.
  - vm_compute. reflexivity.
Qed.

Lemma report_row_witness :
  exists row,
    In row (aggregateReport Sample.dir Sample.wholeClass Sample.reportStore)
    /\ presentDays row = 2 /\ absentDays row = 0 /\ lateDays row = 1
    /\ totalDays row = presentDays row + absentDays row + lateDays row
    /\ rr_percentage row
       = Float64.fmul (Float64.fdiv (Float64.ofInt 2) (Float64.ofInt 3))
           (Float64.ofInt 100).
Proof.
  assert (Hin : In (projectRow ({| g_id := Some "u1"; g_presentDays := 2;
                                   g_absentDays := 0; g_lateDays := 1 |},
                                Sample.asha))
                  (aggregateReport Sample.dir Sample.wholeClass Sample.reportStore))
    by (left; reflexivity).
  eexists. split; [exact Hin |].
  destruct (report_row_percentage _ _ _ _ Hin) as [_ [_ [_ [Htot [_ [Hpct _]]]]]].
  split; [reflexivity |]. split; [reflexivity |]. split; [reflexivity |].
  split; [exact Htot |].
  apply Hpct. discriminate.
Defined.

(** The zero branch is live: a student whose matching records carry
    none of the three statuses gets a row with no days and 0 percent. *)
Example report_zero_days :
  map (fun row => (totalDays row, rr_percentage row))
    (aggregateReport Sample.dir Sample.wholeClass
       [setStatus "excused" (syncedRecord specSchema "u1" (Sample.claim "s1" 5) 0)])
  = [(0, 0%Q)].
Proof. reflexivity. Qed.

(** ** The fields of a created record *)

Lemma newDate_valid (t : Z) :
  Z.abs t <= 8640000000000000 -> newDate (Some t) = ValidDate t.
Proof.
  intros H. unfold newDate. destruct (Z.abs t <=? 8640000000000000) eqn:E;
    [reflexivity | apply Z.leb_gt in E; lia].
Qed.

Lemma sync_added env schema st field docs :
  exists added,
    fst (syncAttendance env schema st field docs) = docs ++ added
    /\ Forall (fun doc => exists c id,
                 In c (claimsOf field) /\ doc = syncedRecord schema st c id) added.
Proof.
  destruct (syncAttendance_store env schema st field docs)
    as [E | [claims [Hincl E]]].
  - exists []. rewrite E, app_nil_r. split; [reflexivity | constructor].
  - rewrite E.
    destruct (syncRun_extends env schema st claims docs) as [added [Heq Hall]].
    exists added. split; [exact Heq |].
    eapply Forall_impl; [| exact Hall].
    intros doc [c [id [Hin Hdoc]]]. exists c, id.
    split; [now apply Hincl | exact Hdoc].
Qed.

(** C6.  With the schema defaults of the data model (status present,
    synced false), a submission that answers 201 has appended exactly
    one record, which it returns, with status present, manualEntry
    false, synced false and the time of the clock at creation as
    timestamp, whatever the request carries; every record that batch
    reconciliation adds has synced true and, as timestamp, the Date of
    the timestamp of the claim it was built from, which is that instant
    whenever the claim carries one in the range of Date. *)
Theorem created_record_fields (schema : Schema) :
  defaultStatus schema = Some "present" ->
  defaultSynced schema = Some false ->
  (forall env dir st body docs docs' res,
      submitAttendance env schema dir st body docs = (docs', res) ->
      code res = 201 ->
      exists doc,
        docs' = docs ++ [doc]
        /\ payload res = Some doc
        /\ status doc = Some "present"
        /\ manualEntry doc = Some false
        /\ synced doc = Some false
        /\ timestamp doc = ValidDate (clock env 1%nat))
  /\ (forall env st attendances docs,
        exists added,
          fst (syncAttendance env schema st attendances docs) = docs ++ added
          /\ Forall (fun doc =>
                       synced doc = Some true
                       /\ exists c,
                            In c (claimsOf attendances)
                            /\ sessionId doc = c_sessionId c
                            /\ timestamp doc = newDate (c_timestamp c)
                            /\ (forall t, c_timestamp c = Some t ->
                                          Z.abs t <= 8640000000000000 ->
                                          timestamp doc = ValidDate t))
               added).
Proof.
  intros Hstatus Hsynced. split.
  - intros env dir st body docs docs' res Hrun Hcode.
    destruct (submit_created _ _ _ _ _ _ _ _ Hrun Hcode)
      as [student [qr [_ [_ [_ [_ [_ [_ [-> ->]]]]]]]]].
    eexists. split; [reflexivity |]. split; [reflexivity |].
    cbn [status manualEntry synced timestamp submittedRecord].
    repeat split; assumption.
  - intros env st attendances docs.
    destruct (sync_added env schema st attendances docs) as [added [Heq Hall]].
    exists added. split; [exact Heq |].
    eapply Forall_impl; [| exact Hall].
    intros doc [c [id [Hin ->]]]. split; [reflexivity |].
    exists c. split; [exact Hin |]. split; [reflexivity |]. split; [reflexivity |].
    intros t Ht Hrange. cbn [timestamp syncedRecord]. rewrite Ht.
    now apply newDate_valid.
Qed.

Lemma created_record_fields_witness :
  exists doc,
    Sample.afterSubmit = [doc]
    /\ status doc = Some "present"
    /\ manualEntry doc = Some false
    /\ synced doc = Some false
    /\ timestamp doc = ValidDate 1700000000001.
Proof.
  destruct (proj1 (created_record_fields specSchema eq_refl eq_refl)
              Sample.env Sample.dir "u1" Sample.body []
              (fst (submitAttendance Sample.env specSchema Sample.dir "u1"
                      Sample.body []))
              (snd (submitAttendance Sample.env specSchema Sample.dir "u1"
                      Sample.body []))
              eq_refl eq_refl)
    as [doc [Hdocs [_ [Hst [Hman [Hsyn Hts]]]]]].
  exists doc. repeat split; assumption.
Defined.

(** ** The liveness gate *)

(** C7.  A submission whose [livenessPassed] is anything but [true]
    (false, missing, or any other value) is answered 400, whatever the
    other fields, the directory, the verifier and the store are, and
    the store is left as it was. *)
Theorem liveness_required env schema dir st body docs :
  b_livenessPassed body <> JsTrue ->
  fst (submitAttendance env schema dir st body docs) = docs
  /\ code (snd (submitAttendance env schema dir st body docs)) = 400
  /\ payload (snd (submitAttendance env schema dir st body docs)) = None.
Proof.
  intros Hlive.
  pose proof (submit_outcome env schema dir st body docs) as Hout.
  inversion Hout; try contradiction; repeat split.
Qed.

Lemma liveness_required_witness :
  fst (submitAttendance Sample.env specSchema Sample.dir "u1" Sample.notLive []) = []
  /\ code (snd (submitAttendance Sample.env specSchema Sample.dir "u1"
                  Sample.notLive [])) = 400
  /\ payload (snd (submitAttendance Sample.env specSchema Sample.dir "u1"
                     Sample.notLive [])) = None.
Proof.
  apply liveness_required. simpl. discriminate.
Defined.

(** ** The identity verifier *)

Lemma submit_at_verifier env schema dir st body student docs :
  reachesVerifier env dir st body student ->
  submitAttendance env schema dir st body docs
  = match verdict env body student with
    | FacesMatch => submitAttendance env schema dir st body docs
    | FacesDiffer =>
        (docs, reply 401 "Face recognition failed. Identity could not be verified.")
    | VerifierError msg => (docs, submitAttendance_catch msg)
    end.
Proof.
  intros [H1 [H2 [H3 [H4 [H5 [H6 [H7 H8]]]]]]].
  destruct (verdict env body student) as [| | msg] eqn:Hv; [reflexivity | |];
    unfold verdict in Hv;
    unfold submitAttendance, submitAttendance_try;
    rewrite H1, H2, H3, H4, H5, H6, H7; cbn [negb orb notStrictlyTrue];
    cbv zeta; rewrite H8; unfold awaitCompareFaces; rewrite Hv; reflexivity.
Qed.

(** C8 (as the code has it).  For a request that reaches the identity
    verifier: a non-match is answered 401; an error thrown by the
    verifier is answered 500 with the message of the error (a fixed
    text when it is empty) when the message does not contain
    "Face could not be verified", and 401 with that message when it
    does.  None of the three creates a record or reports success. *)
Theorem verifier_failures env schema dir st body student docs :
  reachesVerifier env dir st body student ->
  (verdict env body student = FacesDiffer ->
   submitAttendance env schema dir st body docs
   = (docs, reply 401 "Face recognition failed. Identity could not be verified."))
  /\ (forall msg,
        verdict env body student = VerifierError msg ->
        includes msg "Face could not be verified" = false ->
        submitAttendance env schema dir st body docs
        = (docs, reply 500 (if (msg =? "")%string
                            then "An unexpected server error occurred."
                            else msg)))
  /\ (forall msg,
        verdict env body student = VerifierError msg ->
        includes msg "Face could not be verified" = true ->
        submitAttendance env schema dir st body docs = (docs, reply 401 msg)).
Proof.
  intros Hreach.
  pose proof (submit_at_verifier env schema dir st body student docs Hreach) as Hrun.
  split; [| split].
  - intros Hv. rewrite Hv in Hrun. exact Hrun.
  - intros msg Hv Hinc. rewrite Hv in Hrun. rewrite Hrun.
    unfold submitAttendance_catch. rewrite Hinc. reflexivity.
  - intros msg Hv Hinc. rewrite Hv in Hrun. rewrite Hrun.
    unfold submitAttendance_catch. rewrite Hinc. reflexivity.
Qed.

Lemma sample_reaches_verifier (env : Env) :
  decodeImage env = decodeImage Sample.env ->
  reachesVerifier env Sample.dir "u1" Sample.body Sample.asha.
Proof.
  intros Hdec. unfold reachesVerifier. rewrite Hdec. repeat split.
Defined.

Lemma verifier_failures_witness :
  submitAttendance (Sample.failing "ThrottlingException: Rate exceeded")
    specSchema Sample.dir "u1" Sample.body []
  = ([], reply 500 "ThrottlingException: Rate exceeded").
Proof.
  exact (proj1 (proj2 (verifier_failures
                         (Sample.failing "ThrottlingException: Rate exceeded")
                         specSchema Sample.dir "u1" Sample.body Sample.asha []
                         (sample_reaches_verifier _ eq_refl)))
           "ThrottlingException: Rate exceeded" eq_refl eq_refl).
Defined.

(** C8 as stated fails: a verifier error whose message contains the
    phrase the [catch] clause looks for is answered with the status of
    a non-match. *)
Lemma verifier_error_as_unauthorized_counterexample :
  verdict (Sample.failing "Face could not be verified: service timeout")
    Sample.body Sample.asha
  = VerifierError "Face could not be verified: service timeout"
  /\ code (snd (submitAttendance
                  (Sample.failing "Face could not be verified: service timeout")
                  specSchema Sample.dir "u1" Sample.body []))
     = 401
  /\ code (snd (submitAttendance Sample.differing specSchema Sample.dir "u1"
                  Sample.body []))
     = 401.
Proof. repeat split. Qed.

(** ** Which session identifier is stored *)

Lemma QRCodeSession_findOne_valid dir sid cid now qr :
  QRCodeSession_findOne dir sid cid now = Some qr ->
  In qr (qrSessions dir)
  /\ qr_sessionId qr = sid /\ qr_classId qr = cid
  /\ isActive qr = true /\ now < sessionExpiresAt qr.
Proof.
  unfold QRCodeSession_findOne. intros H. apply find_some in H as [Hin Hv].
  unfold validSession in Hv. rewrite !andb_true_iff in Hv.
  destruct Hv as [[[Hs Hc] Ha] Ht].
  apply String.eqb_eq in Hs, Hc. apply Z.ltb_lt in Ht. repeat split; assumption.
Qed.

Lemma find_app_none (p : Attendance -> bool) (docs more : list Attendance) :
  find p docs = None -> find p (docs ++ more) = find p more.
Proof.
  induction docs as [| x docs IH]; cbn [app find]; [reflexivity |].
  destruct (p x); [discriminate | exact IH].
Qed.

(** What a call of [syncAttendance] adds to the store. *)
Lemma sync_added_free env schema st field docs :
  exists added,
    fst (syncAttendance env schema st field docs) = docs ++ added
    /\ Forall (fun doc =>
                 studentId doc = Some st
                 /\ exists c,
                      In c (claimsOf field)
                      /\ sessionId doc = c_sessionId c
                      /\ find (samePair (Some st) (c_sessionId c)) docs = None)
         added.
Proof.
  destruct (syncAttendance_store env schema st field docs)
    as [E | [claims [Hincl E]]].
  - exists []. rewrite E, app_nil_r. split; [reflexivity | constructor].
  - rewrite E.
    destruct (syncRun_added_free env schema st claims docs) as [added [Heq Hall]].
    exists added. split; [exact Heq |].
    eapply Forall_impl; [| exact Hall].
    intros doc [Hst [c [Hin Hc]]]. split; [exact Hst |].
    exists c. split; [now apply Hincl | exact Hc].
Qed.

(** C9.  A submission that answers 201 matched a live session token
    whose [sessionId] is the string the client sent; the duplicate
    check was made on the pair of the student and the [_id] of that
    token, and the record it appended carries that [_id] as its
    [sessionId].  A call of [syncAttendance] only appends records;
    each carries the [sessionId] value of a claim of the batch, as the
    claim has it, for which the store held no record of the student
    before the call; no record is appended for a claim whose value had
    one; and when the call answers 200, every claim whose value had
    none has a record with that value among those appended. *)
Theorem stored_session_identifier (env : Env) (schema : Schema) (st : ObjectId) :
  (forall dir body docs docs' res,
      submitAttendance env schema dir st body docs = (docs', res) ->
      code res = 201 ->
      exists qr doc,
        In qr (qrSessions dir)
        /\ b_sessionId body = Some (qr_sessionId qr)
        /\ find (samePair (Some st) (Some (qr_id qr))) docs = None
        /\ docs' = docs ++ [doc]
        /\ sessionId doc = Some (qr_id qr))
  /\ (forall attendances docs docs' res,
        syncAttendance env schema st attendances docs = (docs', res) ->
        exists added,
          docs' = docs ++ added
          /\ Forall (fun doc =>
                       studentId doc = Some st
                       /\ exists c,
                            In c (claimsOf attendances)
                            /\ sessionId doc = c_sessionId c
                            /\ find (samePair (Some st) (c_sessionId c)) docs = None)
               added
          /\ (forall c,
                In c (claimsOf attendances) ->
                preExisting st docs c = true ->
                Forall (fun doc => sessionId doc <> c_sessionId c) added)
          /\ (code res = 200 ->
              forall c,
                In c (claimsOf attendances) ->
                preExisting st docs c = false ->
                exists doc,
                  In doc added
                  /\ studentId doc = Some st
                  /\ sessionId doc = c_sessionId c)).
Proof.
  split.
  - intros dir body docs docs' res Hrun Hcode.
    destruct (submit_created _ _ _ _ _ _ _ _ Hrun Hcode)
      as [student [qr [Htruthy [_ [_ [_ [Hqr [Hfree [-> ->]]]]]]]]].
    destruct (QRCodeSession_findOne_valid _ _ _ _ _ Hqr) as [Hin [Hsid _]].
    exists qr. eexists. split; [exact Hin |]. split.
    + destruct (b_sessionId body) as [s |]; [| discriminate Htruthy].
      simpl in Hsid. now rewrite Hsid.
    + split; [exact Hfree |]. split; reflexivity.
  - intros attendances docs docs' res Hrun.
    destruct (sync_added_free env schema st attendances docs) as [added [Heq Hall]].
    rewrite Hrun in Heq. cbn [fst] in Heq.
    exists added. split; [exact Heq |]. split; [exact Hall |]. split.
    + intros c Hin Hpre. eapply Forall_impl; [| exact Hall].
      intros doc [_ [c' [_ [Hs Hfree]]]] Heqs.
      unfold preExisting in Hpre. rewrite <- Heqs, Hs, Hfree in Hpre.
      discriminate Hpre.
    + intros Hcode c Hin Hpre.
      destruct attendances as [| elements];
        [injection Hrun as <- <-; discriminate Hcode |].
      destruct (sync_ok_inv _ _ _ _ _ _ _ Hrun Hcode)
        as [cs [rs [_ [_ [Hcs [Hsync _]]]]]].
      rewrite Hcs in Hin.
      pose proof (proj1 (syncRun_covers _ _ _ _ _ _ _ Hsync) c Hin) as Hcov.
      unfold preExisting in Hpre, Hcov.
      destruct (find (samePair (Some st) (c_sessionId c)) docs) eqn:Hf;
        [discriminate Hpre |].
      rewrite Heq, (find_app_none _ _ _ Hf) in Hcov.
      destruct (find (samePair (Some st) (c_sessionId c)) added) as [doc |] eqn:Hfa;
        [| discriminate Hcov].
      apply find_some in Hfa as [Hdoc Hsame].
      apply samePair_eq in Hsame as [H1 H2].
      exists doc. repeat split; assumption.
Qed.

Lemma stored_session_identifier_witness :
  (exists qr doc,
      In qr (qrSessions Sample.dir)
      /\ b_sessionId Sample.body = Some (qr_sessionId qr)
      /\ find (samePair (Some "u1") (Some (qr_id qr))) [] = None
      /\ Sample.afterSubmit = [] ++ [doc]
      /\ sessionId doc = Some (qr_id qr))
  /\ (exists added doc,
        fst (syncAttendance Sample.env specSchema "u1"
               (ArrayOf [Fields (Sample.claim "qr-token-1" 5)]) Sample.afterSubmit)
        = Sample.afterSubmit ++ added
        /\ In doc added
        /\ sessionId doc = Some "qr-token-1").
Proof.
  split.
  - exact (proj1 (stored_session_identifier Sample.env specSchema "u1")
             Sample.dir Sample.body []
             (fst (submitAttendance Sample.env specSchema Sample.dir "u1"
                     Sample.body []))
             (snd (submitAttendance Sample.env specSchema Sample.dir "u1"
                     Sample.body []))
             eq_refl eq_refl).
  - destruct (proj2 (stored_session_identifier Sample.env specSchema "u1")
                (ArrayOf [Fields (Sample.claim "qr-token-1" 5)]) Sample.afterSubmit
                (fst (syncAttendance Sample.env specSchema "u1"
                        (ArrayOf [Fields (Sample.claim "qr-token-1" 5)])
                        Sample.afterSubmit))
                (snd (syncAttendance Sample.env specSchema "u1"
                        (ArrayOf [Fields (Sample.claim "qr-token-1" 5)])
                        Sample.afterSubmit))
                eq_refl)
      as [added [Heq [_ [_ Hnew]]]].
    destruct (Hnew eq_refl (Sample.claim "qr-token-1" 5) (or_introl eq_refl) eq_refl)
      as [doc [Hin [_ Hs]]].
    exists added, doc. split; [exact Heq |]. split; [exact Hin | exact Hs].
Defined.

(** The two identifiers differ in general: the record of the live
    submission holds the [_id] of the token, not the scanned string,
    and a claim synced afterwards with the scanned string is not
    recognised as a repetition. *)
Example token_and_identifier_differ :
  map sessionId Sample.afterSubmit = [Some "650f00000000000000000001"]
  /\ b_sessionId Sample.body = Some "qr-token-1"
  /\ map sessionId
       (fst (syncAttendance Sample.env specSchema "u1"
               (ArrayOf [Fields (Sample.claim "qr-token-1" 5)]) Sample.afterSubmit))
     = [Some "650f00000000000000000001"; Some "qr-token-1"].
Proof. repeat split. Qed.

(** ** The statistics of the class query *)

Lemma class_query_payload dir cid q docs r :
  payload (getAttendanceByClass dir cid q docs) = Some r ->
  r = {| attendance :=
           map (transformRecord dir)
             (sortByTimestampDesc (filter (classQueryFilter cid q) docs));
         stats :=
           statsOf (filter (fun e => (e_classId e =? cid)%string) (enrollments dir))
             (map (transformRecord dir)
                (sortByTimestampDesc (filter (classQueryFilter cid q) docs))) |}.
Proof.
  unfold getAttendanceByClass. cbn [payload replyWith]. intros H.
  now injection H as <-.
Qed.

(** C10.  In every response of the class attendance query,
    [totalEnrolled] is the number of enrollments of the class,
    [present] the number of returned records whose status is
    'present', and [absent] is [totalEnrolled - present], so that
    [present + absent = totalEnrolled]; a returned record with any
    other status changes neither figure; and [absent] is negative as
    soon as more present records are returned than students are
    enrolled. *)
Theorem class_stats dir cid q docs r :
  payload (getAttendanceByClass dir cid q docs) = Some r ->
  totalEnrolled (stats r)
  = Z.of_nat (List.length
                (filter (fun e => (e_classId e =? cid)%string) (enrollments dir)))
  /\ present (stats r) = Z.of_nat (List.length (filter isPresent (attendance r)))
  /\ absent (stats r) = totalEnrolled (stats r) - present (stats r)
  /\ present (stats r) + absent (stats r) = totalEnrolled (stats r)
  /\ (forall enrolled records other,
         isPresent other = false ->
         statsOf enrolled (other :: records) = statsOf enrolled records)
  /\ (totalEnrolled (stats r) < present (stats r) -> absent (stats r) < 0)
  /\ (exists r',
         payload (getAttendanceByClass Sample.dir "c1"
                    {| q_startDate := None; q_endDate := None; q_status := None |}
                    Sample.classStore) = Some r'
         /\ totalEnrolled (stats r') = 1
         /\ present (stats r') = 3
         /\ absent (stats r') = -2).
Proof.
  intros Hr. apply class_query_payload in Hr. subst r.
  cbn [stats attendance statsOf totalEnrolled present absent].
  split; [reflexivity |]. split; [reflexivity |]. split; [reflexivity |].
  split; [lia |]. split.
  - intros enrolled records other Hother. unfold statsOf. cbn [filter].
    rewrite Hother. reflexivity.
  - split; [lia |].
    eexists. split; [reflexivity |]. repeat split.
Qed.

Lemma class_stats_witness :
  exists r,
    payload (getAttendanceByClass Sample.dir "c1"
               {| q_startDate := Some 6; q_endDate := None; q_status := Some "all" |}
               Sample.reportStore) = Some r
    /\ map t_status (attendance r) = [Some "late"; Some "present"; Some "present"]
    /\ totalEnrolled (stats r) = 1
    /\ present (stats r) = 2
    /\ absent (stats r) = totalEnrolled (stats r) - present (stats r)
    /\ present (stats r) + absent (stats r) = totalEnrolled (stats r).
Proof.
  eexists. split; [reflexivity |].
  destruct (class_stats Sample.dir "c1"
              {| q_startDate := Some 6; q_endDate := None; q_status := Some "all" |}
              Sample.reportStore _ eq_refl)
    as [_ [_ [Habs [Hsum _]]]].
  split; [reflexivity |]. split; [reflexivity |]. split; [reflexivity |].
  split; [exact Habs | exact Hsum].
Defined.

(** ** The handler of the full report as the module has it *)

(** With the imports the module declares, every request for the full
    report is answered 500: the [$match] filter is never built. *)
Remark full_report_unbound_identifier dir cid q docs :
  getFullAttendanceReport moduleScope_mongoose dir cid q docs
  = reply 500 "mongoose is not defined".
Proof. reflexivity. Qed.

(** With [mongoose] in scope the rows are those of the pipeline. *)
Remark full_report_rows dir cid q docs :
  payload (getFullAttendanceReport (Some tt) dir cid q docs)
  = Some (aggregateReport dir (buildMatchQuery cid q) docs).
Proof. reflexivity. Qed.

(** * Further properties of the controller *)

(** ** Listings are sorted permutations *)

Lemma insertDesc_perm (d : Attendance) (l : list Attendance) :
  Permutation (insertDesc d l) (d :: l).
Proof.
  induction l as [| x l IH]; simpl; [apply Permutation_refl |].
  destruct (newer x d).
  - rewrite IH. apply perm_swap.
  - apply Permutation_refl.
Qed.

Lemma sortByTimestampDesc_perm (l : list Attendance) :
  Permutation (sortByTimestampDesc l) l.
Proof.
  unfold sortByTimestampDesc. induction l as [| d l IH]; simpl; [constructor |].
  rewrite insertDesc_perm. now constructor.
Qed.

Lemma newer_asym (a b : Attendance) : newer a b = true -> newer b a = false.
Proof.
  unfold newer. destruct (timestamp a), (timestamp b); try discriminate;
    try reflexivity.
  intros H. apply Z.ltb_lt in H. apply Z.ltb_ge. lia.
Qed.

Lemma notOlder_trans (a b c : Attendance) :
  notOlder a b -> notOlder b c -> notOlder a c.
Proof.
  unfold notOlder, newer.
  destruct (timestamp a), (timestamp b), (timestamp c);
    try discriminate; try reflexivity.
  intros H1 H2. apply Z.ltb_ge in H1, H2. apply Z.ltb_ge. lia.
Qed.

Lemma insertDesc_sorted (d : Attendance) (l : list Attendance) :
  StronglySorted notOlder l -> StronglySorted notOlder (insertDesc d l).
Proof.
  induction 1 as [| x l Hs IH Hx]; simpl.
  - repeat constructor.
  - destruct (newer x d) eqn:E.
    + constructor; [exact IH |].
      apply (Permutation_Forall (Permutation_sym (insertDesc_perm d l))).
      constructor; [| exact Hx]. now apply newer_asym.
    + constructor; [now constructor |].
      constructor; [exact E |].
      eapply Forall_impl; [| exact Hx].
      intros y Hy. exact (notOlder_trans d x y E Hy).
Qed.

Lemma sortByTimestampDesc_sorted (l : list Attendance) :
  StronglySorted notOlder (sortByTimestampDesc l).
Proof.
  unfold sortByTimestampDesc. induction l as [| d l IH]; simpl; [constructor |].
  now apply insertDesc_sorted.
Qed.

Lemma sortByTimestampDesc_In (l : list Attendance) (d : Attendance) :
  In d (sortByTimestampDesc l) <-> In d l.
Proof.
  split; apply Permutation_in;
    [apply sortByTimestampDesc_perm | symmetry; apply sortByTimestampDesc_perm].
Qed.

Lemma sortByTimestampDesc_length (l : list Attendance) :
  List.length (sortByTimestampDesc l) = List.length l.
Proof. apply Permutation_length, sortByTimestampDesc_perm. Qed.

(** What a status filter leaves of the records. *)
Lemma filtered_status cid q d s :
  classQueryFilter cid q d = true ->
  q_status q = Some s -> s <> "" -> s <> "all" ->
  status d = Some s.
Proof.
  intros Hf Hq Hne Hall.
  unfold classQueryFilter in Hf. rewrite !andb_true_iff in Hf.
  destruct Hf as [_ Hs]. rewrite Hq in Hs.
  assert (E1 : (s =? "")%string = false) by now apply String.eqb_neq.
  assert (E2 : (s =? "all")%string = false) by now apply String.eqb_neq.
  rewrite E1, E2 in Hs. simpl in Hs. unfold statusIs in Hs.
  destruct (status d) as [x |]; [| discriminate].
  apply String.eqb_eq in Hs. now subst.
Qed.

(** X1.  The class attendance query returns, newest first, exactly the
    records of the class that pass the date and status filters, each
    once; a status parameter that is missing, empty or 'all' filters
    nothing. *)
Theorem class_query_records dir cid q docs r :
  payload (getAttendanceByClass dir cid q docs) = Some r ->
  exists records,
    attendance r = map (transformRecord dir) records
    /\ Permutation records (filter (classQueryFilter cid q) docs)
    /\ StronglySorted notOlder records
    /\ (forall d, In d records ->
          classId d = Some cid
          /\ inRange (q_startDate q) (q_endDate q) d = true
          /\ (forall s, q_status q = Some s -> s <> "" -> s <> "all" ->
                        status d = Some s))
    /\ ((q_status q = None \/ q_status q = Some "" \/ q_status q = Some "all") ->
        forall d, In d docs -> classId d = Some cid ->
                  inRange (q_startDate q) (q_endDate q) d = true ->
                  In d records).
Proof.
  intros Hr. apply class_query_payload in Hr. subst r. cbn [attendance].
  exists (sortByTimestampDesc (filter (classQueryFilter cid q) docs)).
  split; [reflexivity |]. split; [apply sortByTimestampDesc_perm |].
  split; [apply sortByTimestampDesc_sorted |]. split.
  - intros d Hin. apply sortByTimestampDesc_In, filter_In in Hin as [_ Hf].
    unfold classQueryFilter in Hf. rewrite !andb_true_iff in Hf.
    destruct Hf as [[Hc Hr] Hs]. apply optEqb_eq in Hc.
    split; [exact Hc |]. split; [exact Hr |].
    intros s Hq Hne Hall. rewrite Hq in Hs.
    assert (E1 : (s =? "")%string = false) by now apply String.eqb_neq.
    assert (E2 : (s =? "all")%string = false) by now apply String.eqb_neq.
    rewrite E1, E2 in Hs. simpl in Hs. unfold statusIs in Hs.
    destruct (status d) as [x |]; [| discriminate].
    apply String.eqb_eq in Hs. now subst.
  - intros Hq d Hin Hc Hr. apply sortByTimestampDesc_In, filter_In.
    split; [exact Hin |]. unfold classQueryFilter, ofClass.
    rewrite Hc, optEqb_refl, Hr. simpl.
    destruct Hq as [-> | [-> | ->]]; reflexivity.
Qed.

Lemma class_query_records_witness :
  exists records,
    map t_status (map (transformRecord Sample.dir) records)
    = [Some "late"; Some "present"; Some "present"]
    /\ Permutation records
         (filter (classQueryFilter "c1"
                    {| q_startDate := Some 6; q_endDate := None;
                       q_status := Some "all" |})
            Sample.reportStore)
    /\ StronglySorted notOlder records.
Proof.
  destruct (class_query_records Sample.dir "c1"
              {| q_startDate := Some 6; q_endDate := None; q_status := Some "all" |}
              Sample.reportStore _ eq_refl)
    as [records [Hatt [Hperm [Hsorted _]]]].
  exists records. split; [| split; assumption].
  rewrite <- Hatt. reflexivity.
Defined.

(** X2.  Under a status filter other than 'present' the statistics of
    the class query ignore the store: [present] is 0 and [absent] is
    the number of enrolled students. *)
Theorem class_stats_under_status_filter dir cid q docs r s :
  payload (getAttendanceByClass dir cid q docs) = Some r ->
  q_status q = Some s -> s <> "" -> s <> "all" -> s <> "present" ->
  present (stats r) = 0
  /\ absent (stats r) = totalEnrolled (stats r).
Proof.
  intros Hr Hq Hne Hall Hpres.
  apply class_query_payload in Hr.
  assert (Hin : forall d,
             In d (sortByTimestampDesc (filter (classQueryFilter cid q) docs)) ->
             status d = Some s).
  { intros d Hd. apply sortByTimestampDesc_In, filter_In in Hd as [_ Hf].
    exact (filtered_status cid q d s Hf Hq Hne Hall). }
  assert (Hnone : filter isPresent (attendance r) = []).
  { subst r. cbn [attendance].
    induction (sortByTimestampDesc (filter (classQueryFilter cid q) docs))
      as [| d records IH]; [reflexivity |].
    cbn [map filter].
    assert (Hd : status d = Some s) by (apply Hin; now left).
    unfold isPresent at 1. cbn [transformRecord t_status]. rewrite Hd.
    unfold statusIs. assert (E : (s =? "present")%string = false)
      by now apply String.eqb_neq.
    rewrite E. apply IH. intros d' Hd'. apply Hin. now right. }
  subst r. cbn [stats attendance statsOf present absent totalEnrolled] in *.
  rewrite Hnone. simpl. split; lia.
Qed.

Lemma class_stats_under_status_filter_witness :
  exists r,
    payload (getAttendanceByClass Sample.dir "c1"
               {| q_startDate := None; q_endDate := None;
                  q_status := Some "late" |}
               Sample.reportStore) = Some r
    /\ List.length (attendance r) = 1%nat
    /\ present (stats r) = 0
    /\ absent (stats r) = totalEnrolled (stats r).
Proof.
  eexists. split; [reflexivity |]. split; [reflexivity |].
  apply (class_stats_under_status_filter Sample.dir "c1"
           {| q_startDate := None; q_endDate := None; q_status := Some "late" |}
           Sample.reportStore _ "late" eq_refl eq_refl);
    discriminate.
Defined.

(** ** [Math.ceil] of a binary64 quotient *)

Module CeilFacts.
Import Float64 Float64Facts.

Open Scope Q_scope.

(** The exponent of the last place is determined by the value. *)
Lemma ulp_exponent_unique (x : Q) (e e' : Z) :
  0 < x ->
  pow2 52 <= x * pow2 (- e) -> x * pow2 (- e) < pow2 53 ->
  pow2 52 <= x * pow2 (- e') -> x * pow2 (- e') < pow2 53 ->
  (e <= e')%Z.
Proof.
  intros Hx Hlo Hhi Hlo' Hhi'.
  destruct (Z_le_gt_dec e e') as [Hok | Hbad]; [assumption | exfalso].
  assert (Hp : pow2 (1 + - e) <= pow2 (- e')).
  { unfold pow2. apply Qpower_le_compat_l; [lia | lra]. }
  rewrite pow2_add in Hp. change (pow2 1) with 2 in Hp.
  change (pow2 53) with (2 * pow2 52) in *.
  pose proof (pow2_pos (- e)) as P1. pose proof (pow2_pos (- e')) as P2.
  assert (H : x * (2 * pow2 (- e)) <= x * pow2 (- e')) by nra.
  lra.
Qed.

Lemma ulpExp_comp (x x' : Q) : 0 < x -> x == x' -> ulpExp x = ulpExp x'.
Proof.
  intros Hx E. assert (Hx' : 0 < x') by now rewrite <- E.
  pose proof (ulpExp_lower x Hx) as L. pose proof (ulpExp_upper x Hx) as U.
  assert (L' : pow2 52 <= x * pow2 (- ulpExp x'))
    by (rewrite E; now apply ulpExp_lower).
  assert (U' : x * pow2 (- ulpExp x') < pow2 53)
    by (rewrite E; now apply ulpExp_upper).
  apply Z.le_antisymm; apply (ulp_exponent_unique x); assumption.
Qed.

(** Rounding depends on the value only, not on the fraction that
    denotes it. *)
Lemma round64_pos_comp (x x' : Q) : 0 < x -> x == x' -> round64 x = round64 x'.
Proof.
  intros Hx E. assert (Hx' : 0 < x') by now rewrite <- E.
  rewrite (round64_pos_eq x Hx), (round64_pos_eq x' Hx').
  rewrite <- (ulpExp_comp x x' Hx E).
  assert (Em : roundHalfEven (x * pow2 (- ulpExp x))
               = roundHalfEven (x' * pow2 (- ulpExp x))).
  { apply roundHalfEven_comp. apply Qmult_comp; [exact E | reflexivity]. }
  now rewrite Em.
Qed.

Lemma Qceiling_between (q : Q) (k : Z) :
  inject_Z k < q -> q <= inject_Z (k + 1) -> Qceiling q = (k + 1)%Z.
Proof.
  intros Hlo Hhi.
  pose proof (Qle_ceiling q) as H1. pose proof (Qceiling_lt q) as H2.
  assert (Ha : (k < Qceiling q)%Z).
  { rewrite Zlt_Qlt. lra. }
  assert (Hb : (Qceiling q - 1 < k + 1)%Z).
  { rewrite Zlt_Qlt. lra. }
  lia.
Qed.

(** [Math.ceil(t / l)] is the integer ceiling of the quotient: the
    rounding of the division never reaches the next integer, nor falls
    back on the one below. *)
Lemma ceil_of_quotient (t l : Z) :
  (0 <= t)%Z -> (1 <= l)%Z -> (t + l <= 2 ^ 52)%Z ->
  Qceiling (fdiv (ofInt t) (ofInt l)) = ((t + l - 1) / l)%Z.
Proof.
  intros Ht Hl Hsum.
  destruct (Z.eq_dec t 0) as [-> | Hne].
  { replace (Qceiling _) with 0%Z by reflexivity.
    symmetry. apply Z.div_small. lia. }
  assert (Htp : (0 < t)%Z) by lia.
  pose proof (inject_Z_pos t Htp) as Htq.
  pose proof (inject_Z_pos l ltac:(lia)) as Hlq.
  unfold fdiv, ofInt.
  set (x := inject_Z t / inject_Z l).
  assert (Hxl : x * inject_Z l == inject_Z t) by (unfold x; field; lra).
  assert (Hx : 0 < x) by (unfold x; apply Qlt_shift_div_l; [assumption | lra]).
  pose proof (Z.div_mod t l ltac:(lia)) as Hdm.
  pose proof (Z.mod_pos_bound t l ltac:(lia)) as Hmod.
  set (k := (t / l)%Z) in *. set (r := (t mod l)%Z) in *.
  assert (Hk : (0 <= k)%Z) by (apply Z.div_pos; lia).
  destruct (Z.eq_dec r 0) as [Hr0 | Hr].
  - (* exact quotient *)
    assert (Hkp : (0 < k)%Z) by nia.
    assert (Ek : x == inject_Z k).
    { unfold x. rewrite Hdm, Hr0, Z.add_0_r, inject_Z_mult. field. lra. }
    rewrite (round64_pos_comp x (inject_Z k) Hx Ek).
    assert (Eq : Qceiling (round64 (inject_Z k)) = Qceiling (inject_Z k)).
    { apply Qceiling_comp. apply round64_int. split; [assumption |].
      assert (k <= t)%Z by nia. lia. }
    rewrite Eq, Qceiling_Z.
    apply Z.div_unique with (r := (l - 1)%Z); [lia | lia].
  - (* a remainder: the quotient lies strictly between k and k + 1 *)
    pose proof (round64_err x Hx) as [Hq1 Hq2].
    assert (Hu : u53 == 1 # 9007199254740992) by reflexivity.
    rewrite Hu in Hq1, Hq2.
    assert (Hkl : (k * l + 1 <= t)%Z) by lia.
    assert (Hkl' : (t + 1 <= (k + 1) * l)%Z) by lia.
    assert (Hb : ((k + 1) * l <= 2 ^ 52)%Z) by lia.
    rewrite Zle_Qle in Hkl, Hkl', Hb.
    rewrite !inject_Z_plus, !inject_Z_mult in Hkl, Hkl'.
    rewrite inject_Z_mult, inject_Z_plus in Hb.
    rewrite inject_Z_plus in Hkl'.
    change (inject_Z 1) with 1 in *.
    change (inject_Z (2 ^ 52)) with 4503599627370496 in Hb.
    assert (Hkq : 0 <= inject_Z k)
      by (change 0 with (inject_Z 0); now rewrite <- Zle_Qle).
    set (kq := inject_Z k) in *. set (lq := inject_Z l) in *.
    set (q := round64 x) in *.
    assert (Hql1 : x * lq * (1 - (1 # 9007199254740992)) <= q * lq) by nra.
    assert (Hql2 : q * lq <= x * lq * (1 + (1 # 9007199254740992))) by nra.
    rewrite Hxl in Hql1, Hql2.
    assert (Hl1 : 1 <= lq).
    { unfold lq. change 1 with (inject_Z 1). now rewrite <- Zle_Qle. }
    assert (Hlo : kq < q).
    { apply Qnot_le_lt. intros C.
      assert (q * lq <= kq * lq) by nra. nra. }
    assert (Hhi : q <= inject_Z (k + 1)).
    { rewrite inject_Z_plus. change (inject_Z 1) with 1. fold kq.
      apply Qnot_lt_le. intros C.
      assert ((kq + 1) * lq < q * lq) by nra. nra. }
    rewrite (Qceiling_between q k Hlo Hhi).
    apply Z.div_unique with (r := (r - 1)%Z); [lia | lia].
Qed.

End CeilFacts.

(** ** Pagination *)

Section Paging.

Context {A : Type}.

Lemma firstn_add (a b : nat) (l : list A) :
  firstn (a + b) l = firstn a l ++ firstn b (skipn a l).
Proof.
  revert l. induction a as [| a IH]; intros l; [reflexivity |].
  destruct l as [| x l]; simpl.
  - now rewrite firstn_nil.
  - now rewrite IH.
Qed.

(** The first [k] pages of [n] items, one after the other, are the
    first [k * n] items. *)
Lemma pages_concat (n k : nat) (l : list A) :
  List.concat (map (fun i => firstn n (skipn (i * n) l)) (seq 0 k))
  = firstn (k * n) l.
Proof.
  induction k as [| k IH]; [reflexivity |].
  rewrite seq_S, map_app, concat_app, IH. simpl.
  rewrite app_nil_r, Nat.add_comm. symmetry. apply firstn_add.
Qed.

Lemma In_page (n s : nat) (l : list A) (x : A) :
  In x (firstn n (skipn s l)) -> In x l.
Proof.
  intros H.
  rewrite <- (firstn_skipn s l). apply in_or_app. right.
  rewrite <- (firstn_skipn n (skipn s l)). apply in_or_app. now left.
Qed.

Lemma page_length (n s : nat) (l : list A) :
  List.length (firstn n (skipn s l)) = Nat.min n (List.length l - s).
Proof. now rewrite length_firstn, length_skipn. Qed.

End Paging.

Section Listing.

Variables (okMessage failMessage : string) (matching : Attendance -> bool).
Variables (classes : list ClassDoc) (docs : list Attendance).

Let everything := sortByTimestampDesc (filter matching docs).

Lemma listing_total :
  countDocuments matching docs = Z.of_nat (List.length everything).
Proof.
  unfold countDocuments, everything. now rewrite sortByTimestampDesc_length.
Qed.

Lemma listRecords_page (q : PageQuery) :
  1 <= orDefault (pq_page q) 1 ->
  1 <= orDefault (pq_limit q) 20 ->
  listRecords okMessage failMessage matching classes q docs
  = replyWith 200 (Some okMessage)
      {| data :=
           map (fun d => (d, populateClass classes (classId d)))
             (firstn (Z.to_nat (orDefault (pq_limit q) 20))
                (skipn (Z.to_nat ((orDefault (pq_page q) 1 - 1)
                                  * orDefault (pq_limit q) 20))
                   everything));
         pagination :=
           {| totalRecords := countDocuments matching docs;
              totalPages := ceilDiv (countDocuments matching docs)
                              (orDefault (pq_limit q) 20);
              currentPage := orDefault (pq_page q) 1;
              pg_limit := orDefault (pq_limit q) 20 |} |}.
Proof.
  intros Hp Hl. unfold listRecords, limitSkip. cbv zeta.
  set (page := orDefault (pq_page q) 1) in *.
  set (limit := orDefault (pq_limit q) 20) in *.
  assert (E1 : ((page - 1) * limit <? 0) = false) by (apply Z.ltb_ge; nia).
  assert (E2 : (limit =? 0) = false) by (apply Z.eqb_neq; lia).
  rewrite E1, E2, Z.abs_eq by lia. reflexivity.
Qed.

End Listing.

(** X3.  A paginated listing ([getMyAttendanceRecords],
    [getMyAttendanceRecordsByClass]) with page >= 1 and limit >= 1
    answers 200 with the records number (page-1)*limit+1 to page*limit
    of the student's matching records, newest first: that is
    min(limit, max(0, total - (page-1)*limit)) records; it reports the
    total, the page and the limit it used. *)
Theorem paged_listing okMessage failMessage matching classes q docs :
  1 <= orDefault (pq_page q) 1 ->
  1 <= orDefault (pq_limit q) 20 ->
  exists pg,
    listRecords okMessage failMessage matching classes q docs
    = replyWith 200 (Some okMessage) pg
    /\ map fst (data pg)
       = firstn (Z.to_nat (orDefault (pq_limit q) 20))
           (skipn (Z.to_nat ((orDefault (pq_page q) 1 - 1)
                             * orDefault (pq_limit q) 20))
              (sortByTimestampDesc (filter matching docs)))
    /\ Z.of_nat (List.length (data pg))
       = Z.min (orDefault (pq_limit q) 20)
           (Z.max 0 (totalRecords (pagination pg)
                     - (orDefault (pq_page q) 1 - 1) * orDefault (pq_limit q) 20))
    /\ totalRecords (pagination pg)
       = Z.of_nat (List.length (filter matching docs))
    /\ currentPage (pagination pg) = orDefault (pq_page q) 1
    /\ pg_limit (pagination pg) = orDefault (pq_limit q) 20
    /\ Forall (fun row => matching (fst row) = true
                          /\ snd row = populateClass classes (classId (fst row)))
         (data pg).
Proof.
  intros Hp Hl. eexists. split; [now apply listRecords_page |].
  cbn [data pagination totalRecords currentPage pg_limit].
  set (page := orDefault (pq_page q) 1) in *.
  set (limit := orDefault (pq_limit q) 20) in *.
  split; [| split; [| split; [reflexivity | split; [reflexivity |
    split; [reflexivity |]]]]].
  - rewrite map_map. cbn [fst]. apply map_id.
  - rewrite length_map, page_length, sortByTimestampDesc_length.
    unfold countDocuments. nia.
  - apply Forall_forall. intros row Hin.
    apply in_map_iff in Hin as [d [<- Hin]]. cbn [fst snd].
    split; [| reflexivity].
    apply In_page, sortByTimestampDesc_In, filter_In in Hin. apply Hin.
Qed.

Lemma paged_listing_witness :
  exists pg,
    getMyAttendanceRecords Sample2.classes "u1" Sample2.secondPage Sample.reportStore
    = replyWith 200 (Some "Records fetched successfully") pg
    /\ map (fun row => sessionId (fst row)) (data pg) = [Some "s1"]
    /\ totalRecords (pagination pg) = 3
    /\ currentPage (pagination pg) = 2.
Proof.
  destruct (paged_listing "Records fetched successfully"
              "Failed to fetch attendance records." (ofStudent "u1")
              Sample2.classes Sample2.secondPage Sample.reportStore
              ltac:(vm_compute; discriminate) ltac:(vm_compute; discriminate))
    as [pg [Hres [Hdata [_ [Htot [Hpage _]]]]]].
  exists pg. split; [exact Hres |]. split; [| split].
  - rewrite <- (map_map fst sessionId), Hdata. reflexivity.
  - rewrite Htot. reflexivity.
  - rewrite Hpage. reflexivity.
Defined.

Lemma orDefault_nonzero (n dflt : Z) : n <> 0 -> orDefault (Some n) dflt = n.
Proof. intros H. destruct n; [contradiction | reflexivity | reflexivity]. Qed.

(** X4.  With a limit >= 1 and fewer than 2^52 records, [totalPages]
    is the integer ceiling of total / limit although it is computed by
    a floating-point division; the pages 1 to [totalPages], one after
    the other, are all the matching records, newest first, each record
    on exactly one page; and every page after the last is empty. *)
Theorem pages_cover_listing okMessage failMessage matching classes q docs pg :
  1 <= orDefault (pq_page q) 1 ->
  1 <= orDefault (pq_limit q) 20 ->
  Z.of_nat (List.length docs) + orDefault (pq_limit q) 20 <= 2 ^ 52 ->
  payload (listRecords okMessage failMessage matching classes q docs) = Some pg ->
  let limit := orDefault (pq_limit q) 20 in
  let rowsOfPage := fun p =>
    match payload (listRecords okMessage failMessage matching classes
                     {| pq_page := Some p; pq_limit := pq_limit q |} docs) with
    | Some pg' => map fst (data pg')
    | None => []
    end in
  totalPages (pagination pg) = (totalRecords (pagination pg) + limit - 1) / limit
  /\ List.concat (map (fun i => rowsOfPage (Z.of_nat i + 1))
                    (seq 0 (Z.to_nat (totalPages (pagination pg)))))
     = sortByTimestampDesc (filter matching docs)
  /\ (totalPages (pagination pg) < orDefault (pq_page q) 1 -> data pg = []).
Proof.
  intros Hp Hl Hsize Hpg limit rowsOfPage.
  rewrite (listRecords_page _ _ _ _ _ q Hp Hl) in Hpg.
  cbn [payload replyWith] in Hpg. injection Hpg as <-.
  cbn [pagination data totalPages totalRecords].
  fold limit in Hl, Hsize |- *.
  set (everything := sortByTimestampDesc (filter matching docs)).
  set (total := countDocuments matching docs).
  assert (Htot : total = Z.of_nat (List.length everything))
    by apply listing_total.
  assert (Hle : 0 <= total <= Z.of_nat (List.length docs))
    by apply countDocuments_bounds.
  assert (Hceil : ceilDiv total limit = (total + limit - 1) / limit).
  { unfold ceilDiv. apply CeilFacts.ceil_of_quotient; lia. }
  rewrite Hceil.
  set (pages := (total + limit - 1) / limit).
  assert (Hpages : total <= pages * limit /\ 0 <= pages).
  { unfold pages.
    pose proof (Z.div_mod (total + limit - 1) limit ltac:(lia)) as Hdm.
    pose proof (Z.mod_pos_bound (total + limit - 1) limit ltac:(lia)) as Hmod.
    split; [nia | apply Z.div_pos; lia]. }
  split; [reflexivity |]. split.
  - assert (Hrows : forall i,
               rowsOfPage (Z.of_nat i + 1)
               = firstn (Z.to_nat limit) (skipn (i * Z.to_nat limit) everything)).
    { intros i. unfold rowsOfPage.
      set (qi := {| pq_page := Some (Z.of_nat i + 1); pq_limit := pq_limit q |}).
      assert (Ei : orDefault (pq_page qi) 1 = Z.of_nat i + 1)
        by (apply orDefault_nonzero; lia).
      assert (Hp' : 1 <= orDefault (pq_page qi) 1) by lia.
      assert (Hl' : 1 <= orDefault (pq_limit qi) 20) by exact Hl.
      rewrite (listRecords_page _ _ _ _ _ qi Hp' Hl').
      cbn [payload replyWith data]. rewrite map_map. cbn [fst]. rewrite map_id.
      rewrite Ei. change (orDefault (pq_limit qi) 20) with limit.
      fold everything. f_equal. f_equal. nia. }
    rewrite (map_ext _ _ Hrows), pages_concat.
    apply firstn_all2. fold everything in Htot. nia.
  - intros Hlate. fold limit.
    set (page := orDefault (pq_page q) 1) in *.
    assert (E : skipn (Z.to_nat ((page - 1) * limit)) everything = []).
    { apply skipn_all2. nia. }
    fold everything. rewrite E, firstn_nil. reflexivity.
Qed.

Lemma pages_cover_listing_witness :
  exists pg,
    payload (getMyAttendanceRecords Sample2.classes "u1" Sample2.secondPage
               Sample.reportStore) = Some pg
    /\ totalPages (pagination pg) = 2.
Proof.
  eexists. split; [reflexivity |].
  destruct (pages_cover_listing "Records fetched successfully"
              "Failed to fetch attendance records." (ofStudent "u1")
              Sample2.classes Sample2.secondPage Sample.reportStore _
              ltac:(vm_compute; discriminate) ltac:(vm_compute; discriminate)
              ltac:(vm_compute; discriminate) eq_refl)
    as [Hpages _].
  rewrite Hpages. reflexivity.
Defined.

(** X5.  A page or limit parameter that is missing, not a number or
    zero is replaced by 1 and 20; once the defaults are in, a negative
    product (page - 1) * limit (a negative page, or a negative limit
    from page 2 on) makes the listing fail with status 500. *)
Theorem page_parameter_edges okMessage failMessage matching classes q docs :
  ((pq_page q = None \/ pq_page q = Some 0) ->
   listRecords okMessage failMessage matching classes q docs
   = listRecords okMessage failMessage matching classes
       {| pq_page := Some 1; pq_limit := pq_limit q |} docs)
  /\ ((pq_limit q = None \/ pq_limit q = Some 0) ->
      listRecords okMessage failMessage matching classes q docs
      = listRecords okMessage failMessage matching classes
          {| pq_page := pq_page q; pq_limit := Some 20 |} docs)
  /\ ((orDefault (pq_page q) 1 - 1) * orDefault (pq_limit q) 20 < 0 ->
      listRecords okMessage failMessage matching classes q docs
      = reply 500 failMessage).
Proof.
  split; [| split].
  - intros [E | E]; unfold listRecords; cbn [pq_page pq_limit]; rewrite E;
      reflexivity.
  - intros [E | E]; unfold listRecords; cbn [pq_page pq_limit]; rewrite E;
      reflexivity.
  - intros Hneg. unfold listRecords, limitSkip. cbv zeta.
    apply Z.ltb_lt in Hneg. now rewrite Hneg.
Qed.

Lemma page_parameter_edges_witness :
  getMyAttendanceRecords Sample2.classes "u1"
    {| pq_page := Some (-1); pq_limit := None |} Sample.reportStore
  = reply 500 "Failed to fetch attendance records.".
Proof.
  apply (proj2 (proj2 (page_parameter_edges "Records fetched successfully"
                         "Failed to fetch attendance records." (ofStudent "u1")
                         Sample2.classes
                         {| pq_page := Some (-1); pq_limit := None |}
                         Sample.reportStore))).
  vm_compute. reflexivity.
Defined.

(** ** The unpaginated listings *)

(** X6.  [getStudentAttendance] always answers 200 with exactly the
    records of the student, restricted to the class when a class id is
    given, each once and newest first, each with the class document of
    its [classId] when there is one. *)
Theorem student_attendance_listing classes st classFilter docs :
  exists rows,
    getStudentAttendance classes st classFilter docs = replyWith 200 None rows
    /\ Permutation (map fst rows)
         (filter (fun d => ofStudent st d
                           && (if truthy classFilter
                               then ofClass (orEmpty classFilter) d else true))
            docs)
    /\ StronglySorted notOlder (map fst rows)
    /\ Forall (fun row =>
                 studentId (fst row) = Some st
                 /\ (truthy classFilter = true -> classId (fst row) = classFilter)
                 /\ snd row = populateClass classes (classId (fst row)))
         rows.
Proof.
  unfold getStudentAttendance. cbv zeta. eexists. split; [reflexivity |].
  rewrite map_map. cbn [fst]. rewrite map_id.
  split; [apply sortByTimestampDesc_perm |].
  split; [apply sortByTimestampDesc_sorted |].
  apply Forall_forall. intros row Hin.
  apply in_map_iff in Hin as [d [<- Hin]]. cbn [fst snd].
  apply sortByTimestampDesc_In, filter_In in Hin as [_ Hf].
  apply andb_true_iff in Hf as [Hs Hc]. apply optEqb_eq in Hs.
  split; [exact Hs |]. split; [| reflexivity].
  intros Ht. rewrite Ht in Hc. apply optEqb_eq in Hc. rewrite Hc.
  destruct classFilter; [reflexivity | discriminate].
Qed.

(** X7.  [getAttendanceBySchedule] never answers 404: the result of
    [find] is an array, which is truthy even when empty, so the call
    answers 200 with the records of the schedule in store order, and
    with the empty list for a schedule that has none. *)
Theorem schedule_listing_never_404 dir sid docs :
  exists rows,
    getAttendanceBySchedule dir sid docs = replyWith 200 None rows
    /\ map fst rows = filter (fun d => optEqb (scheduleId d) (Some sid)) docs
    /\ Forall (fun row => scheduleId (fst row) = Some sid
                          /\ snd row = populateStudent dir (studentId (fst row)))
         rows
    /\ ((forall d, In d docs -> scheduleId d <> Some sid) -> rows = []).
Proof.
  unfold getAttendanceBySchedule. cbv zeta. eexists. split; [reflexivity |].
  rewrite map_map. cbn [fst]. rewrite map_id. split; [reflexivity |]. split.
  - apply Forall_forall. intros row Hin.
    apply in_map_iff in Hin as [d [<- Hin]]. cbn [fst snd].
    apply filter_In in Hin as [_ Hf]. apply optEqb_eq in Hf. now split.
  - intros Hnone.
    assert (E : filter (fun d => optEqb (scheduleId d) (Some sid)) docs = []).
    { induction docs as [| d l IH]; [reflexivity |]. cbn [filter].
      destruct (optEqb (scheduleId d) (Some sid)) eqn:Ed.
      - apply optEqb_eq in Ed. exfalso. exact (Hnone d (or_introl eq_refl) Ed).
      - apply IH. intros d' Hd'. apply Hnone. now right. }
    rewrite E. reflexivity.
Qed.

(** ** Missed classes *)

Lemma sessionIdStrings_ok (l : list Attendance) :
  (forall d, In d l -> sessionId d <> None) ->
  exists ids,
    sessionIdStrings l = inr ids
    /\ forall id, In id ids <-> exists d, In d l /\ sessionId d = Some id.
Proof.
  induction l as [| d l IH]; intros Hall.
  - exists []. split; [reflexivity |]. intros id. split; [intros [] |].
    intros [d [[] _]].
  - destruct IH as [ids [Hids Hin]]; [intros d' Hd'; apply Hall; now right |].
    cbn [sessionIdStrings].
    destruct (sessionId d) as [s |] eqn:Hs;
      [| exfalso; exact (Hall d (or_introl eq_refl) Hs)].
    rewrite Hids. exists (s :: ids). split; [reflexivity |].
    intros id. split.
    + intros [<- | Hid]; [exists d; split; [now left | assumption] |].
      apply Hin in Hid as [d' [Hd' Hs']]. exists d'. split; [now right | assumption].
    + intros [d' [[<- | Hd'] Hs']].
      * left. congruence.
      * right. apply Hin. now exists d'.
Qed.

Lemma sessionIdStrings_throws (l : list Attendance) :
  (exists d, In d l /\ sessionId d = None) ->
  exists msg, sessionIdStrings l = inl msg.
Proof.
  induction l as [| d l IH]; intros [d' [Hin Hnone]]; [destruct Hin |].
  cbn [sessionIdStrings]. destruct (sessionId d) as [s |] eqn:Hs;
    [| eexists; reflexivity].
  destruct Hin as [<- | Hin]; [congruence |].
  destruct IH as [msg ->]; [now exists d' |]. now exists msg.
Qed.

Lemma existsb_eqb_In (x : string) (l : list string) :
  existsb (String.eqb x) l = true <-> In x l.
Proof.
  rewrite existsb_exists. split.
  - intros [y [Hin E]]. apply String.eqb_eq in E. now subst.
  - intros Hin. exists x. split; [assumption | apply String.eqb_refl].
Qed.

(** The answer for an enrolled student whose records all carry a
    session id: the held occurrences whose session is not among the
    student's session ids. *)
Lemma missed_classes_answer env dir classes schedules st docs :
  filter (fun e => (e_studentId e =? st)%string) (enrollments dir) <> [] ->
  allWithSession st docs ->
  exists ids,
    (forall x, In x ids <->
               exists d, In d (filter (ofStudent st) docs) /\ sessionId d = Some x)
    /\ getMyMissedClasses env dir classes schedules st docs
       = replyWith 200 (Some "Missed classes fetched successfully")
           {| mc_count :=
                Some (Z.of_nat (List.length
                  (filter (isMissed ids)
                     (filter (heldInstance
                                (map e_classId
                                   (filter (fun e => (e_studentId e =? st)%string)
                                      (enrollments dir)))
                                (clock env 0%nat)) schedules))));
              mc_data :=
                map (fun s => (s, populateClass classes (Some (sch_classId s))))
                  (filter (isMissed ids)
                     (filter (heldInstance
                                (map e_classId
                                   (filter (fun e => (e_studentId e =? st)%string)
                                      (enrollments dir)))
                                (clock env 0%nat)) schedules)) |}.
Proof.
  intros Henr Hall. unfold getMyMissedClasses. cbv zeta.
  set (mine := filter (fun e => (e_studentId e =? st)%string) (enrollments dir)) in *.
  destruct mine as [| e0 es] eqn:Hmine; [congruence |]. rewrite <- Hmine.
  destruct (sessionIdStrings_ok (filter (ofStudent st) docs)) as [ids [Hids Hin]].
  { intros d Hd. apply filter_In in Hd as [Hd Hs]. apply optEqb_eq in Hs.
    now apply Hall. }
  rewrite Hids. exists ids. split; [exact Hin | reflexivity].
Qed.

(** X8.  For an enrolled student all of whose records carry a session
    id, the missed classes are, in the order of the schedule, exactly
    the occurrences of the student's classes that are dated up to now,
    are not cancelled, have a session linked to them, and for whose
    session the student has no record; [count] is their number.
    Occurrences without a linked session are never reported. *)
Theorem missed_classes_listing env dir classes schedules st docs :
  filter (fun e => (e_studentId e =? st)%string) (enrollments dir) <> [] ->
  allWithSession st docs ->
  exists missed,
    getMyMissedClasses env dir classes schedules st docs
    = replyWith 200 (Some "Missed classes fetched successfully")
        {| mc_count := Some (Z.of_nat (List.length missed));
           mc_data := map (fun s => (s, populateClass classes (Some (sch_classId s))))
                        missed |}
    /\ (exists keep, missed = filter keep schedules)
    /\ forall s,
         In s missed <->
         In s schedules
         /\ (exists e, In e (enrollments dir)
                       /\ e_studentId e = st /\ e_classId e = sch_classId s)
         /\ scheduledDate s <= clock env 0%nat
         /\ sch_status s <> Some "cancelled"
         /\ exists sid,
              attendanceSessionId s = Some sid /\ sid <> ""
              /\ forall d, In d docs -> studentId d = Some st ->
                           sessionId d <> Some sid.
Proof.
  intros Henr Hall.
  destruct (missed_classes_answer env dir classes schedules st docs Henr Hall)
    as [ids [Hin Hres]].
  set (mine := filter (fun e => (e_studentId e =? st)%string) (enrollments dir)) in *.
  set (held := heldInstance (map e_classId mine) (clock env 0%nat)) in *.
  exists (filter (isMissed ids) (filter held schedules)).
  split; [exact Hres |]. split.
  - exists (fun s => held s && isMissed ids s).
    clear. induction schedules as [| s l IH]; [reflexivity |].
    cbn [filter]. destruct (held s); cbn [andb filter]; [| exact IH].
    destruct (isMissed ids s); now rewrite IH.
  - intros s. rewrite !filter_In. unfold held, heldInstance, isMissed.
    rewrite !andb_true_iff, existsb_eqb_In, Z.leb_le, negb_true_iff.
    split.
    + intros [[Hs [[Hc Hd] Hst]] Hm].
      split; [exact Hs |]. split.
      { apply in_map_iff in Hc as [e [He Hine]]. unfold mine in Hine.
        apply filter_In in Hine as [Hine Hest]. apply String.eqb_eq in Hest.
        exists e. repeat split; assumption. }
      split; [exact Hd |]. split.
      { intros C. rewrite C in Hst. discriminate. }
      destruct (attendanceSessionId s) as [sid |] eqn:Ha; [| discriminate].
      cbn [truthy] in Hm. destruct (sid =? "")%string eqn:Ee; [discriminate |].
      cbn [negb orEmpty] in Hm. apply negb_true_iff in Hm.
      exists sid. split; [reflexivity |].
      split; [now apply String.eqb_neq |].
      intros d Hd' Hst' Hsid.
      assert (Hex : existsb (String.eqb sid) ids = true).
      { apply existsb_eqb_In, Hin. exists d. split; [| exact Hsid].
        apply filter_In. split; [exact Hd' |]. now apply optEqb_eq. }
      congruence.
    + intros [Hs [[e [He [Hest Hec]]] [Hd [Hst [sid [Ha [Hne Hno]]]]]]].
      split; [split; [exact Hs |] |].
      * split; [split; [| exact Hd] |].
        -- apply in_map_iff. exists e. split; [exact Hec |].
           unfold mine. apply filter_In. split; [exact He |].
           now apply String.eqb_eq.
        -- unfold statusIs. destruct (sch_status s) as [x |]; [| reflexivity].
           apply String.eqb_neq. intros C. apply Hst. now subst.
      * rewrite Ha. cbn [truthy orEmpty].
        apply String.eqb_neq in Hne. rewrite Hne. cbn [negb].
        apply negb_true_iff.
        destruct (existsb (String.eqb sid) ids) eqn:Hex; [| reflexivity].
        apply existsb_eqb_In, Hin in Hex as [d [Hd' Hsid]].
        apply filter_In in Hd' as [Hd' Hst']. apply optEqb_eq in Hst'.
        exfalso. exact (Hno d Hd' Hst' Hsid).
Qed.

Lemma sample_all_with_session : allWithSession "u1" Sample.afterSubmit.
Proof.
  intros d [<- | []] _. discriminate.
Defined.

Lemma missed_classes_listing_witness :
  exists missed,
    getMyMissedClasses Sample.env Sample.dir Sample2.classes Sample2.schedules
      "u1" Sample.afterSubmit
    = replyWith 200 (Some "Missed classes fetched successfully")
        {| mc_count := Some (Z.of_nat (List.length missed));
           mc_data := map (fun s => (s, populateClass Sample2.classes
                                          (Some (sch_classId s)))) missed |}
    /\ exists keep, missed = filter keep Sample2.schedules.
Proof.
  destruct (missed_classes_listing Sample.env Sample.dir Sample2.classes
              Sample2.schedules "u1" Sample.afterSubmit
              ltac:(vm_compute; discriminate) sample_all_with_session)
    as [missed [Hres [Hkeep _]]].
  exists missed. split; assumption.
Defined.

(** Of the five sample occurrences only the second is missed: the first
    was attended, the third has no session, the fourth was cancelled
    and the fifth lies ahead. *)
Example missed_classes_sample :
  option_map (fun mc => (mc_count mc, map (fun row => sch_id (fst row)) (mc_data mc)))
    (payload (getMyMissedClasses Sample.env Sample.dir Sample2.classes
                Sample2.schedules "u1" Sample.afterSubmit))
  = Some (Some 1, ["i2"]).
Proof. reflexivity. Qed.

(** What an accepted manual entry is. *)
Lemma manual_accepted env schema admin body docs docs' res :
  createManualAttendance env schema admin body docs = (docs', res) ->
  code res = 201 ->
  exists doc,
    docs' = docs ++ [doc]
    /\ res = replyWith 201 None doc
    /\ _id doc = List.length docs
    /\ studentId doc = m_studentId body
    /\ classId doc = m_classId body
    /\ scheduleId doc = m_scheduleId body
    /\ sessionId doc = None
    /\ status doc = match m_status body with
                    | Some s => Some s
                    | None => defaultStatus schema
                    end
    /\ timestamp doc = newDate (m_timestamp body)
    /\ manualEntry doc = Some true
    /\ markedBy doc = Some admin.
Proof.
  unfold createManualAttendance, createManualAttendance_try. handler_step.
  destruct (saveError env docs _) as [msg |]; intros H Hcode;
    injection H as <- <-; [discriminate Hcode |].
  eexists. split; [reflexivity |]. repeat split.
Qed.

(** X9.  The missed-classes query of an enrolled student fails with
    status 500 as soon as one record of the student lacks a session id;
    in particular it fails after every manual entry made for that
    student, since manual entries carry none.  A student without
    enrollment is answered 200 with an empty list, whatever the store
    holds. *)
Theorem missed_classes_failure env dir classes schedules st :
  (forall docs,
      filter (fun e => (e_studentId e =? st)%string) (enrollments dir) <> [] ->
      (exists d, In d docs /\ studentId d = Some st /\ sessionId d = None) ->
      getMyMissedClasses env dir classes schedules st docs
      = reply 500 "Failed to fetch missed classes.")
  /\ (forall env' schema admin body docs docs' res,
        filter (fun e => (e_studentId e =? st)%string) (enrollments dir) <> [] ->
        m_studentId body = Some st ->
        createManualAttendance env' schema admin body docs = (docs', res) ->
        code res = 201 ->
        getMyMissedClasses env dir classes schedules st docs'
        = reply 500 "Failed to fetch missed classes.")
  /\ (forall docs,
        filter (fun e => (e_studentId e =? st)%string) (enrollments dir) = [] ->
        getMyMissedClasses env dir classes schedules st docs
        = replyWith 200 (Some "Student is not enrolled in any classes.")
            {| mc_count := None; mc_data := [] |}).
Proof.
  assert (Hfail : forall docs,
             filter (fun e => (e_studentId e =? st)%string) (enrollments dir) <> [] ->
             (exists d, In d docs /\ studentId d = Some st /\ sessionId d = None) ->
             getMyMissedClasses env dir classes schedules st docs
             = reply 500 "Failed to fetch missed classes.").
  { intros docs Henr [d [Hin [Hst Hnone]]]. unfold getMyMissedClasses. cbv zeta.
    destruct (filter _ (enrollments dir)) as [| e0 es]; [congruence |].
    destruct (sessionIdStrings_throws (filter (ofStudent st) docs)) as [msg ->];
      [| reflexivity].
    exists d. split; [| exact Hnone]. apply filter_In. split; [exact Hin |].
    now apply optEqb_eq. }
  split; [exact Hfail |]. split.
  - intros env' schema admin body docs docs' res Henr Hst Hrun Hcode.
    destruct (manual_accepted _ _ _ _ _ _ _ Hrun Hcode)
      as [doc [-> [_ [_ [Hs [_ [_ [Hnone _]]]]]]]].
    apply Hfail; [exact Henr |]. exists doc. split; [| split].
    + apply in_or_app. right. now left.
    + now rewrite Hs.
    + exact Hnone.
  - intros docs Henr. unfold getMyMissedClasses. cbv zeta. now rewrite Henr.
Qed.

Lemma missed_classes_failure_witness :
  getMyMissedClasses Sample.env Sample.dir Sample2.classes Sample2.schedules
    "u1" Sample2.afterManual
  = reply 500 "Failed to fetch missed classes.".
Proof.
  exact (proj1 (proj2 (missed_classes_failure Sample.env Sample.dir Sample2.classes
                         Sample2.schedules "u1"))
           Sample.env specSchema "admin" Sample.manualBody Sample.afterSubmit
           Sample2.afterManual
           (snd (createManualAttendance Sample.env specSchema "admin"
                   Sample.manualBody Sample.afterSubmit))
           ltac:(vm_compute; discriminate) eq_refl eq_refl eq_refl).
Defined.

(** X10.  Once a submission has been answered 201, no occurrence linked
    to the session it matched is reported as missed for that student
    (all the student's earlier records carrying a session id). *)
Theorem attended_session_not_missed env schema dir classes schedules st body
    docs docs' res :
  submitAttendance env schema dir st body docs = (docs', res) ->
  code res = 201 ->
  allWithSession st docs ->
  exists doc sid mc,
    payload res = Some doc
    /\ sessionId doc = Some sid
    /\ payload (getMyMissedClasses env dir classes schedules st docs') = Some mc
    /\ Forall (fun row => attendanceSessionId (fst row) <> Some sid) (mc_data mc).
Proof.
  intros Hrun Hcode Hall.
  destruct (submit_created _ _ _ _ _ _ _ _ Hrun Hcode)
    as [student [qr [_ [_ [_ [_ [_ [_ [-> ->]]]]]]]]].
  set (doc := submittedRecord env schema st body qr (List.length docs)).
  exists doc, (qr_id qr).
  assert (Hall' : allWithSession st (docs ++ [doc])).
  { intros d Hin Hst. apply in_app_or in Hin as [Hin | [<- | []]].
    - now apply Hall.
    - discriminate. }
  destruct (filter (fun e => (e_studentId e =? st)%string) (enrollments dir))
    as [| e0 es] eqn:Henr.
  - eexists. split; [reflexivity |]. split; [reflexivity |].
    unfold getMyMissedClasses. cbv zeta. rewrite Henr.
    split; [reflexivity | constructor].
  - destruct (missed_classes_answer env dir classes schedules st (docs ++ [doc]))
      as [ids [Hids Hres]]; [rewrite Henr; discriminate | exact Hall' |].
    eexists. split; [reflexivity |]. split; [reflexivity |].
    rewrite Hres. split; [reflexivity |]. cbn [mc_data].
    apply Forall_forall. intros row Hin.
    apply in_map_iff in Hin as [s [<- Hs]]. cbn [fst].
    apply filter_In in Hs as [_ Hm]. unfold isMissed in Hm.
    intros C. rewrite C in Hm. cbn [orEmpty] in Hm.
    destruct (negb (truthy (Some (qr_id qr)))); [discriminate |].
    apply negb_true_iff in Hm.
    assert (Hex : existsb (String.eqb (qr_id qr)) ids = true).
    { apply existsb_eqb_In, Hids. exists doc. split; [| reflexivity].
      apply filter_In. split; [apply in_or_app; right; now left |].
      unfold ofStudent, doc. cbn [submittedRecord studentId].
      apply optEqb_refl. }
    congruence.
Qed.

Lemma attended_session_not_missed_witness :
  exists doc sid mc,
    payload (snd (submitAttendance Sample.env specSchema Sample.dir "u1"
                    Sample.body [])) = Some doc
    /\ sessionId doc = Some sid
    /\ payload (getMyMissedClasses Sample.env Sample.dir Sample2.classes
                  Sample2.schedules "u1" Sample.afterSubmit) = Some mc
    /\ Forall (fun row => attendanceSessionId (fst row) <> Some sid) (mc_data mc).
Proof.
  apply (attended_session_not_missed Sample.env specSchema Sample.dir
           Sample2.classes Sample2.schedules "u1" Sample.body []
           Sample.afterSubmit
           (snd (submitAttendance Sample.env specSchema Sample.dir "u1"
                   Sample.body []))
           eq_refl eq_refl).
  intros d [].
Defined.

(** ** Manual entries and the summary *)

Lemma distinctSessionIds_sessionless (matching : Attendance -> bool) docs doc :
  sessionId doc = None ->
  distinctSessionIds matching (docs ++ [doc]) = distinctSessionIds matching docs.
Proof.
  intros Hnone. unfold distinctSessionIds.
  rewrite filter_app, flat_map_app. cbn [filter].
  destruct (matching doc); cbn [flat_map]; rewrite ?Hnone; now rewrite !app_nil_r.
Qed.

(** X11.  A manual entry accepted for a student in a class adds one
    attended session to the student's class summary and no held
    session: [totalMissedSessions] drops by one (below zero when the
    student had missed nothing), since manual entries carry no session
    id and held sessions are counted by distinct session ids. *)
Theorem manual_entry_inflates_summary env schema admin body st cid docs docs' res s s' :
  createManualAttendance env schema admin body docs = (docs', res) ->
  code res = 201 ->
  m_studentId body = Some st ->
  m_classId body = Some cid ->
  payload (getMyClassAttendanceSummary st cid docs) = Some s ->
  payload (getMyClassAttendanceSummary st cid docs') = Some s' ->
  totalHeldSessions s' = totalHeldSessions s
  /\ totalAttendedSessions s' = totalAttendedSessions s + 1
  /\ totalMissedSessions s' = totalMissedSessions s - 1.
Proof.
  intros Hrun Hcode Hst Hcid Hs Hs'.
  destruct (manual_accepted _ _ _ _ _ _ _ Hrun Hcode)
    as [doc [-> [_ [_ [Hds [Hdc [_ [Hnone _]]]]]]]].
  unfold getMyClassAttendanceSummary in Hs, Hs'. cbv zeta in Hs, Hs'.
  cbn [payload replyWith] in Hs, Hs'. injection Hs as <-. injection Hs' as <-.
  cbn [summaryOf totalHeldSessions totalAttendedSessions totalMissedSessions].
  rewrite (distinctSessionIds_sessionless _ _ _ Hnone).
  assert (Ec : countDocuments (fun d => ofStudent st d && ofClass cid d) (docs ++ [doc])
               = countDocuments (fun d => ofStudent st d && ofClass cid d) docs + 1).
  { unfold countDocuments. rewrite filter_length_app. cbn [filter].
    unfold ofStudent, ofClass. rewrite Hds, Hdc, Hst, Hcid, !optEqb_refl.
    cbn. lia. }
  rewrite Ec. repeat split; lia.
Qed.

Lemma manual_entry_inflates_summary_witness :
  totalHeldSessions (summaryOf (Some "c1") 1 2) = totalHeldSessions (summaryOf (Some "c1") 1 1)
  /\ totalAttendedSessions (summaryOf (Some "c1") 1 2)
     = totalAttendedSessions (summaryOf (Some "c1") 1 1) + 1
  /\ totalMissedSessions (summaryOf (Some "c1") 1 2)
     = totalMissedSessions (summaryOf (Some "c1") 1 1) - 1.
Proof.
  exact (manual_entry_inflates_summary Sample.env specSchema "admin"
           Sample.manualBody "u1" "c1" Sample.afterSubmit Sample2.afterManual
           (snd (createManualAttendance Sample.env specSchema "admin"
                   Sample.manualBody Sample.afterSubmit))
           (summaryOf (Some "c1") 1 1) (summaryOf (Some "c1") 1 2)
           eq_refl eq_refl eq_refl eq_refl eq_refl eq_refl).
Defined.

(** ** Status updates *)

Lemma validStatus_some (v : option string) :
  validStatus v = true ->
  exists s, v = Some s /\ (s = "present" \/ s = "absent" \/ s = "late").
Proof.
  unfold validStatus, statusIs. destruct v as [s |]; [| discriminate].
  rewrite !orb_true_iff, !String.eqb_eq. intros H. exists s. split; [reflexivity |].
  tauto.
Qed.

Lemma findById_updated id s docs :
  findById id (map (fun d => if Nat.eqb (_id d) id then setStatus s d else d) docs)
  = option_map (setStatus s) (findById id docs).
Proof.
  unfold findById. induction docs as [| d docs IH]; [reflexivity |].
  cbn [map find]. destruct (Nat.eqb (_id d) id) eqn:E.
  - cbn [_id setStatus]. rewrite E. reflexivity.
  - rewrite E. exact IH.
Qed.

Lemma findById_others id id' s docs :
  id' <> id ->
  findById id' (map (fun d => if Nat.eqb (_id d) id then setStatus s d else d) docs)
  = findById id' docs.
Proof.
  intros Hne. unfold findById. induction docs as [| d docs IH]; [reflexivity |].
  cbn [map find]. destruct (Nat.eqb (_id d) id) eqn:E.
  - cbn [_id setStatus]. apply Nat.eqb_eq in E.
    assert (E' : Nat.eqb (_id d) id' = false) by (apply Nat.eqb_neq; lia).
    rewrite E'. exact IH.
  - destruct (Nat.eqb (_id d) id'); [reflexivity | exact IH].
Qed.

(** X12.  [updateAttendance] answers 400 for a status other than
    present, absent or late (a missing one too) and 404 for an id that
    no record has, and leaves the store as it was in both cases. *)
Theorem update_rejections id newStatus docs :
  (validStatus newStatus = false ->
   updateAttendance id newStatus docs = (docs, reply 400 "Invalid status."))
  /\ (validStatus newStatus = true ->
      findById id docs = None ->
      updateAttendance id newStatus docs = (docs, reply 404 "Record not found.")).
Proof.
  split.
  - intros Hv. unfold updateAttendance. now rewrite Hv.
  - intros Hv Hnone. unfold updateAttendance, findByIdAndUpdate. rewrite Hv.
    cbn [negb]. unfold findById in Hnone. rewrite Hnone. cbn [option_map].
    f_equal. induction docs as [| d l IH]; [reflexivity |].
    cbn [find] in Hnone. cbn [map].
    destruct (Nat.eqb (_id d) id); [discriminate |]. now rewrite IH.
Qed.

Lemma update_rejections_witness :
  updateAttendance 7 (Some "late") Sample.classStore
  = (Sample.classStore, reply 404 "Record not found.").
Proof.
  exact (proj2 (update_rejections 7 (Some "late") Sample.classStore)
           eq_refl eq_refl).
Defined.

(** X13.  A status update of an existing record answers 200 with the
    record as it is stored afterwards: looking the id up again gives
    the returned record, whose status is the new one and whose other
    fields are untouched; every other record, the number of records
    and all ids, students, sessions and timestamps stay as they were;
    and repeating the update changes nothing more. *)
Theorem update_effect id s d docs :
  validStatus (Some s) = true ->
  findById id docs = Some d ->
  exists docs',
    updateAttendance id (Some s) docs = (docs', replyWith 200 None (setStatus s d))
    /\ findById id docs' = Some (setStatus s d)
    /\ status (setStatus s d) = Some s
    /\ (forall id', id' <> id -> findById id' docs' = findById id' docs)
    /\ List.length docs' = List.length docs
    /\ map _id docs' = map _id docs
    /\ map studentId docs' = map studentId docs
    /\ map sessionId docs' = map sessionId docs
    /\ map classId docs' = map classId docs
    /\ map timestamp docs' = map timestamp docs
    /\ updateAttendance id (Some s) docs'
       = (docs', replyWith 200 None (setStatus s d)).
Proof.
  intros Hv Hd.
  set (f := fun x => if Nat.eqb (_id x) id then setStatus s x else x).
  assert (Hrun : forall l x, findById id l = Some x ->
                   updateAttendance id (Some s) l
                   = (map f l, replyWith 200 None (setStatus s x))).
  { intros l x Hx. unfold updateAttendance, findByIdAndUpdate. rewrite Hv.
    cbn [negb orEmpty]. unfold findById in Hx. rewrite Hx. reflexivity. }
  assert (Hfields : forall (B : Type) (g : Attendance -> B),
             (forall x, g (setStatus s x) = g x) -> map g (map f docs) = map g docs).
  { intros B g Hg. rewrite map_map. apply map_ext. intros x. unfold f.
    destruct (Nat.eqb (_id x) id); [apply Hg | reflexivity]. }
  exists (map f docs).
  split; [now apply Hrun |].
  split; [unfold f; rewrite findById_updated, Hd; reflexivity |].
  split; [reflexivity |].
  split; [intros id' Hne; now apply findById_others |].
  split; [apply length_map |].
  split; [now apply Hfields |]. split; [now apply Hfields |].
  split; [now apply Hfields |]. split; [now apply Hfields |].
  split; [now apply Hfields |].
  assert (Hagain : findById id (map f docs) = Some (setStatus s d)).
  { unfold f. rewrite findById_updated, Hd. reflexivity. }
  rewrite (Hrun _ _ Hagain). f_equal.
  rewrite map_map. apply map_ext. intros x. unfold f.
  destruct (Nat.eqb (_id x) id) eqn:E.
  - cbn [_id setStatus]. rewrite E. reflexivity.
  - rewrite E. reflexivity.
Qed.

Lemma update_effect_witness :
  exists docs',
    updateAttendance 1 (Some "late") Sample.classStore
    = (docs', replyWith 200 None
                (setStatus "late" (syncedRecord specSchema "u1" (Sample.claim "s2" 6) 1)))
    /\ map status docs' = [Some "present"; Some "late"; Some "present"].
Proof.
  destruct (update_effect 1 "late"
              (syncedRecord specSchema "u1" (Sample.claim "s2" 6) 1)
              Sample.classStore eq_refl eq_refl)
    as [docs' [Hrun _]].
  exists docs'. split; [exact Hrun |].
  assert (E : fst (updateAttendance 1 (Some "late") Sample.classStore) = docs')
    by now rewrite Hrun.
  rewrite <- E. reflexivity.
Defined.

(** ** More on [submitAttendance] *)

(** X14.  [submitAttendance] answers with one of the statuses 201, 400,
    401, 404, 409 and 500, and writes to the store exactly when it
    answers 201, appending the one record it returns; with any other
    status the store is as it was and no record is returned. *)
Theorem submit_answers env schema dir st body docs :
  let out := submitAttendance env schema dir st body docs in
  (code (snd out) = 201
   /\ exists doc, fst out = docs ++ [doc] /\ payload (snd out) = Some doc
                  /\ studentId doc = Some st)
  \/ ((code (snd out) = 400 \/ code (snd out) = 401 \/ code (snd out) = 404
       \/ code (snd out) = 409 \/ code (snd out) = 500)
      /\ fst out = docs /\ payload (snd out) = None).
Proof.
  cbv zeta.
  pose proof (submit_outcome env schema dir st body docs) as Hout.
  inversion Hout as [ | | | | student msg | | | | qr msg | ]; cbn [fst snd];
    try (right; split; [cbn; tauto | split; reflexivity]).
  - right. split; [| split; [reflexivity | apply catch_payload]].
    destruct (@catch_code Attendance msg) as [-> | ->]; tauto.
  - right. split; [| split; [reflexivity | apply catch_payload]].
    destruct (@catch_code Attendance msg) as [-> | ->]; tauto.
  - left. split; [reflexivity |]. eexists. repeat split.
Qed.

(** X15.  A record is only ever created for a session token that, at
    the time of the check, is active, unexpired and belongs to the
    submitted class: when every token of the directory with the
    submitted session id and class id is inactive or expired, the
    request is not answered 201 and the store is left as it was; and
    a request that reaches the session check is then answered 400. *)
Theorem expired_session_rejected env schema dir st body docs :
  (forall qr, In qr (qrSessions dir) ->
              qr_sessionId qr = orEmpty (b_sessionId body) ->
              qr_classId qr = orEmpty (b_classId body) ->
              isActive qr = false \/ sessionExpiresAt qr <= clock env 0%nat) ->
  code (snd (submitAttendance env schema dir st body docs)) <> 201
  /\ fst (submitAttendance env schema dir st body docs) = docs
  /\ (forall student,
        reachesVerifier env dir st body student ->
        verdict env body student = FacesMatch ->
        submitAttendance env schema dir st body docs
        = (docs, reply 400 "This QR code is invalid or has expired.")).
Proof.
  intros Hdead.
  assert (Hnone : QRCodeSession_findOne dir (orEmpty (b_sessionId body))
                    (orEmpty (b_classId body)) (clock env 0%nat) = None).
  { destruct (QRCodeSession_findOne dir _ _ _) as [qr |] eqn:Hqr; [| reflexivity].
    destruct (QRCodeSession_findOne_valid _ _ _ _ _ Hqr)
      as [Hin [Hs [Hc [Ha Ht]]]].
    destruct (Hdead qr Hin Hs Hc) as [Hi | He]; [congruence | lia]. }
  assert (Hcode : code (snd (submitAttendance env schema dir st body docs)) <> 201).
  { intros Hc.
    destruct (submitAttendance env schema dir st body docs) as [docs' res] eqn:Hrun.
    destruct (submit_created _ _ _ _ _ _ _ _ Hrun Hc)
      as [student [qr [_ [_ [_ [_ [Hqr _]]]]]]].
    congruence. }
  split; [exact Hcode |]. split.
  - destruct (submitAttendance env schema dir st body docs) as [docs' res] eqn:Hrun.
    destruct (submit_rejected _ _ _ _ _ _ _ _ Hrun Hcode) as [-> _]. reflexivity.
  - intros student Hreach Hv.
    destruct Hreach as [H1 [H2 [H3 [H4 [H5 [H6 [H7 H8]]]]]]].
    unfold verdict in Hv.
    unfold submitAttendance, submitAttendance_try.
    rewrite H1, H2, H3, H4, H5, H6, H7. cbn [negb orb notStrictlyTrue].
    cbv zeta. rewrite H8. unfold awaitCompareFaces. rewrite Hv. handler_step.
    rewrite Hnone. reflexivity.
Qed.

Lemma expired_session_rejected_witness :
  submitAttendance
    {| clock := fun _ => 1700000060000;
       decodeImage := decodeImage Sample.env;
       compareFaces := compareFaces Sample.env;
       saveError := saveError Sample.env |}
    specSchema Sample.dir "u1" Sample.body []
  = ([], reply 400 "This QR code is invalid or has expired.").
Proof.
  apply (proj2 (proj2 (expired_session_rejected
                         {| clock := fun _ => 1700000060000;
                            decodeImage := decodeImage Sample.env;
                            compareFaces := compareFaces Sample.env;
                            saveError := saveError Sample.env |}
                         specSchema Sample.dir "u1" Sample.body []
                         ltac:(intros qr [<- | []] _ _; right; vm_compute;
                               discriminate)))
           Sample.asha).
  - unfold reachesVerifier. repeat split.
  - reflexivity.
Defined.

Lemma find_snoc_new (p : Attendance -> bool) (docs : list Attendance) d :
  find p docs = None -> p d = true -> find p (docs ++ [d]) = Some d.
Proof.
  intros Hnone Hd. induction docs as [| x docs IH]; cbn [app find].
  - now rewrite Hd.
  - cbn [find] in Hnone. destruct (p x); [discriminate | now apply IH].
Qed.

(** X16.  After a submission was answered 201, sending the same body
    again for the same student creates nothing, whatever the clock,
    the verifier and the store then do, as long as the session lookup
    of the second request matches no other token than the first one
    did.  When the second request decodes the image to the same bytes,
    gets the same answers from the verifier and matches the same token
    (the token has not expired in between), it is answered 409: the
    first record is found by the existence check.  The earlier checks
    answer first otherwise. *)
Theorem resubmission_conflicts env env' schema schema' dir st body docs docs' res :
  submitAttendance env schema dir st body docs = (docs', res) ->
  code res = 201 ->
  ((forall qr',
       QRCodeSession_findOne dir (orEmpty (b_sessionId body))
         (orEmpty (b_classId body)) (clock env' 0%nat) = Some qr' ->
       QRCodeSession_findOne dir (orEmpty (b_sessionId body))
         (orEmpty (b_classId body)) (clock env 0%nat) = Some qr') ->
   code (snd (submitAttendance env' schema' dir st body docs')) <> 201
   /\ fst (submitAttendance env' schema' dir st body docs') = docs')
  /\ (decodeImage env' (orEmpty (b_faceImage body))
      = decodeImage env (orEmpty (b_faceImage body)) ->
      (forall key,
          compareFaces env' key (decodeImage env (orEmpty (b_faceImage body)))
          = compareFaces env key (decodeImage env (orEmpty (b_faceImage body)))) ->
      QRCodeSession_findOne dir (orEmpty (b_sessionId body))
        (orEmpty (b_classId body)) (clock env' 0%nat)
      = QRCodeSession_findOne dir (orEmpty (b_sessionId body))
          (orEmpty (b_classId body)) (clock env 0%nat) ->
      submitAttendance env' schema' dir st body docs'
      = (docs', reply 409 "You have already marked attendance for this session.")).
Proof.
  intros Hrun Hcode. split.
  - intros Hsame.
    destruct (submit_created _ _ _ _ _ _ _ _ Hrun Hcode)
      as [student [qr [_ [_ [_ [_ [Hqr [Hfree [-> _]]]]]]]]].
    set (doc := submittedRecord env schema st body qr (List.length docs)) in *.
    destruct (submitAttendance env' schema' dir st body (docs ++ [doc]))
      as [docs2 res2] eqn:Hrun2.
    cbn [fst snd].
    destruct (Z.eq_dec (code res2) 201) as [Hc | Hc].
    + exfalso.
      destruct (submit_created _ _ _ _ _ _ _ _ Hrun2 Hc)
        as [student2 [qr2 [_ [_ [_ [_ [Hqr2 [Hfree2 _]]]]]]]].
      apply Hsame in Hqr2. rewrite Hqr in Hqr2. injection Hqr2 as <-.
      rewrite (find_snoc_new _ _ doc Hfree) in Hfree2; [discriminate |].
      unfold samePair, doc. cbn [studentId sessionId submittedRecord].
      now rewrite !optEqb_refl.
    + split; [exact Hc |].
      exact (proj1 (submit_rejected _ _ _ _ _ _ _ _ Hrun2 Hc)).
  - intros Hbuf Hface Hqr.
    unfold submitAttendance, submitAttendance_try in Hrun |- *.
    destruct (negb (truthy (b_sessionId body)) || _ || _ || _);
      [injection Hrun as <- <-; discriminate Hcode |].
    destruct (notStrictlyTrue (b_livenessPassed body));
      [injection Hrun as <- <-; discriminate Hcode |].
    destruct (User_findById dir st) as [student |];
      [| injection Hrun as <- <-; discriminate Hcode].
    destruct (negb (truthy (faceImageS3Key student)));
      [injection Hrun as <- <-; discriminate Hcode |].
    cbv zeta in Hrun |- *. rewrite Hbuf.
    destruct (tooLarge _); [injection Hrun as <- <-; discriminate Hcode |].
    unfold awaitCompareFaces in Hrun |- *. rewrite Hface.
    destruct (compareFaces env _ _) as [| | msg];
      cbv beta iota zeta delta [bind ret throw findOne freshId save negb isSome]
        in Hrun |- *.
    + rewrite Hqr.
      destruct (QRCodeSession_findOne dir _ _ (clock env 0%nat)) as [qr |];
        [| injection Hrun as <- <-; discriminate Hcode].
      destruct (find (samePair (Some st) (Some (qr_id qr))) docs) as [ex |] eqn:Hfree;
        [injection Hrun as <- <-; discriminate Hcode |].
      destruct (saveError env docs _) as [msg |].
      * injection Hrun as <- <-.
        destruct (@catch_code Attendance msg) as [Hc | Hc]; rewrite Hc in Hcode;
          discriminate Hcode.
      * injection Hrun as <- <-.
        rewrite (find_snoc_new _ _ _ Hfree); [reflexivity |].
        unfold samePair. cbn [studentId sessionId submittedRecord].
        now rewrite !optEqb_refl.
    + injection Hrun as <- <-. discriminate Hcode.
    + injection Hrun as <- <-.
      destruct (@catch_code Attendance msg) as [Hc | Hc]; rewrite Hc in Hcode;
        discriminate Hcode.
Qed.

Lemma resubmission_conflicts_witness :
  submitAttendance Sample.rejecting specSchema Sample.dir "u1" Sample.body
    Sample.afterSubmit
  = (Sample.afterSubmit,
     reply 409 "You have already marked attendance for this session.").
Proof.
  exact (proj2 (resubmission_conflicts Sample.env Sample.rejecting
                  specSchema specSchema Sample.dir "u1" Sample.body []
                  Sample.afterSubmit
                  (snd (submitAttendance Sample.env specSchema Sample.dir "u1"
                          Sample.body []))
                  eq_refl eq_refl)
           eq_refl (fun _ => eq_refl) eq_refl).
Defined.

(** The same body a minute later, when the token has expired, and with
    a verifier that finds no match: the session check and the verifier
    answer before the existence check is reached. *)
Example resubmission_after_expiry :
  let later := {| clock := fun n => 1700000060000 + Z.of_nat n;
                  decodeImage := decodeImage Sample.env;
                  compareFaces := compareFaces Sample.env;
                  saveError := saveError Sample.env |} in
  submitAttendance later specSchema Sample.dir "u1" Sample.body Sample.afterSubmit
  = (Sample.afterSubmit, reply 400 "This QR code is invalid or has expired.")
  /\ submitAttendance Sample.differing specSchema Sample.dir "u1" Sample.body
       Sample.afterSubmit
     = (Sample.afterSubmit,
        reply 401 "Face recognition failed. Identity could not be verified.").
Proof. split; reflexivity. Qed.

(** ** More on [syncAttendance] *)

(** X17.  A batch that was answered 200 can be sent again: the second
    call, whatever the state of the store's write path, answers 200
    with every claim skipped and leaves the store exactly as the first
    call left it. *)
Theorem sync_replay env env' schema schema' st elements docs docs' res :
  syncAttendance env schema st (ArrayOf elements) docs = (docs', res) ->
  code res = 200 ->
  syncAttendance env' schema' st (ArrayOf elements) docs'
  = (docs', replyWith 200 (Some "Sync completed.")
              (map skipped (claimsOf (ArrayOf elements)))).
Proof.
  intros Hrun Hcode.
  destruct (sync_ok_inv _ _ _ _ _ _ _ Hrun Hcode)
    as [claims [results [Hel [Hne [Hcs [Hsync _]]]]]].
  destruct (syncRun_covers _ _ _ _ _ _ _ Hsync) as [Hall _].
  rewrite Hcs, Hel. rewrite syncAttendance_syncRun by assumption.
  now rewrite syncRun_all_skipped.
Qed.

Lemma sync_replay_witness :
  syncAttendance Sample.rejecting specSchema "u1"
    (ArrayOf (map Fields Sample.freshBatch))
    (fst (syncAttendance Sample.env specSchema "u1"
            (ArrayOf (map Fields Sample.freshBatch)) []))
  = (fst (syncAttendance Sample.env specSchema "u1"
            (ArrayOf (map Fields Sample.freshBatch)) []),
     replyWith 200 (Some "Sync completed.") (map skipped Sample.freshBatch)).
Proof.
  exact (sync_replay Sample.env Sample.rejecting specSchema specSchema "u1"
           (map Fields Sample.freshBatch) []
           (fst (syncAttendance Sample.env specSchema "u1"
                   (ArrayOf (map Fields Sample.freshBatch)) []))
           (snd (syncAttendance Sample.env specSchema "u1"
                   (ArrayOf (map Fields Sample.freshBatch)) []))
           eq_refl eq_refl).
Defined.

(** X18.  When a batch is answered 200 the store has grown by exactly
    one record per claim marked success and by none per claim marked
    skipped, and afterwards every claim of the batch has a record for
    its (studentId, sessionId): exactly one, if the keys of the store
    were unique before. *)
Theorem sync_accounting env schema st elements docs docs' res :
  syncAttendance env schema st (ArrayOf elements) docs = (docs', res) ->
  code res = 200 ->
  exists results,
    payload res = Some results
    /\ List.length results = List.length (claimsOf (ArrayOf elements))
    /\ List.length docs'
       = (List.length docs + List.length (filter isSuccess results))%nat
    /\ (forall c, In c (claimsOf (ArrayOf elements)) -> preExisting st docs' c = true)
    /\ (atMostOnePerKey docs ->
        forall c, In c (claimsOf (ArrayOf elements)) ->
          List.length (filter (samePair (Some st) (c_sessionId c)) docs') = 1%nat).
Proof.
  intros Hrun Hcode.
  destruct (sync_ok_inv _ _ _ _ _ _ _ Hrun Hcode)
    as [claims [results [_ [Hne [Hcs [Hsync ->]]]]]].
  rewrite Hcs.
  destruct (syncRun_covers _ _ _ _ _ _ _ Hsync) as [Hall [Hlen Hn]].
  exists results. split; [reflexivity |]. split; [exact Hn |].
  split; [exact Hlen |]. split; [exact Hall |].
  intros Inv c Hin.
  pose proof (syncRun_keeps_keys env schema st claims docs Inv) as Inv'.
  rewrite Hsync in Inv'. cbn [fst] in Inv'.
  specialize (Inv' (Some st) (c_sessionId c)).
  specialize (Hall c Hin). unfold preExisting in Hall.
  destruct (find (samePair (Some st) (c_sessionId c)) docs') as [d |] eqn:Hf;
    [| discriminate].
  pose proof (find_some_filter _ _ _ Hf). lia.
Qed.

Lemma sync_accounting_witness :
  exists results,
    payload (snd (syncAttendance Sample.env specSchema "u1"
                    (ArrayOf (map Fields Sample.mixedBatch)) Sample.afterSubmit))
    = Some results
    /\ List.length results = 3%nat
    /\ List.length (fst (syncAttendance Sample.env specSchema "u1"
                           (ArrayOf (map Fields Sample.mixedBatch))
                           Sample.afterSubmit))
       = (1 + List.length (filter isSuccess results))%nat.
Proof.
  destruct (sync_accounting Sample.env specSchema "u1"
              (map Fields Sample.mixedBatch) Sample.afterSubmit
              (fst (syncAttendance Sample.env specSchema "u1"
                      (ArrayOf (map Fields Sample.mixedBatch)) Sample.afterSubmit))
              (snd (syncAttendance Sample.env specSchema "u1"
                      (ArrayOf (map Fields Sample.mixedBatch)) Sample.afterSubmit))
              eq_refl eq_refl)
    as [results [Hp [Hn [Hlen _]]]].
  exists results. split; [exact Hp |]. split; [exact Hn | exact Hlen].
Defined.

(** ** Attended and held sessions *)

Section AttendedHeld.

Variables (st : ObjectId) (inScope : Attendance -> bool).

Let mine := fun d => ofStudent st d && inScope d.

Let sessionsOf := fun d : Attendance =>
  match sessionId d with
  | Some s => [s]
  | None => []
  end.

Lemma own_sessions_counted (docs : list Attendance) (s : string) :
  (count_occ string_dec (flat_map sessionsOf (filter mine docs)) s
   <= recordsFor st s docs)%nat.
Proof.
  unfold recordsFor. induction docs as [| d docs IH]; [simpl; lia |].
  cbn [filter]. destruct (mine d) eqn:Hm.
  - cbn [flat_map]. rewrite count_occ_app.
    unfold mine in Hm. apply andb_true_iff in Hm as [Hs _].
    unfold ofStudent in Hs. unfold samePair at 1. rewrite Hs. cbn [andb].
    unfold sessionsOf at 1. destruct (sessionId d) as [s' |]; cbn [optEqb].
    + cbn [count_occ]. destruct (string_dec s' s) as [-> | Hne].
      * rewrite String.eqb_refl. cbn [List.length]. apply le_n_S, IH.
      * destruct (s' =? s)%string; cbn [List.length Nat.add];
          [apply le_S, IH | exact IH].
    + cbn [count_occ Nat.add]. exact IH.
  - destruct (samePair _ _ d); cbn [List.length];
      [apply le_S, IH | exact IH].
Qed.

Lemma own_sessions_length (docs : list Attendance) :
  allWithSession st docs ->
  List.length (flat_map sessionsOf (filter mine docs))
  = List.length (filter mine docs).
Proof.
  intros Hall. induction docs as [| d docs IH]; [reflexivity |].
  assert (Hall' : allWithSession st docs)
    by (intros x Hx; apply Hall; now right).
  cbn [filter]. destruct (mine d) eqn:Hm; [| now apply IH].
  cbn [flat_map]. rewrite length_app, IH by assumption.
  unfold mine in Hm. apply andb_true_iff in Hm as [Hs _].
  apply optEqb_eq in Hs. unfold sessionsOf.
  destruct (sessionId d) eqn:E; [reflexivity |].
  exfalso. exact (Hall d (or_introl eq_refl) Hs E).
Qed.

(** With unique pairs and a session id on each of the student's
    records, the student attended no more sessions than were held. *)
Lemma attended_le_held (docs : list Attendance) :
  atMostOnePerPair docs ->
  allWithSession st docs ->
  countDocuments mine docs
  <= Z.of_nat (List.length (distinctSessionIds inScope docs)).
Proof.
  intros Inv Hall. unfold countDocuments.
  rewrite <- (own_sessions_length docs Hall).
  apply inj_le. apply NoDup_incl_length.
  - apply (NoDup_count_occ string_dec). intros s.
    pose proof (own_sessions_counted docs s). specialize (Inv st s). lia.
  - intros s Hin. unfold distinctSessionIds. apply nodup_In.
    apply in_flat_map in Hin as [d [Hd Hs]]. apply in_flat_map.
    exists d. split; [| exact Hs].
    apply filter_In in Hd as [Hd Hm]. apply filter_In. split; [exact Hd |].
    unfold mine in Hm. now apply andb_true_iff in Hm.
Qed.

End AttendedHeld.

(** X19.  In a store with at most one record per (studentId,
    sessionId) pair in which every record of the student carries a
    session id, both summaries report no more attended than held
    sessions, so [totalMissedSessions] is not negative. *)
Theorem summary_attended_bounded dir st cid docs s :
  atMostOnePerPair docs ->
  allWithSession st docs ->
  payload (getMyAttendanceSummary dir st docs) = Some s
  \/ payload (getMyClassAttendanceSummary st cid docs) = Some s ->
  totalAttendedSessions s <= totalHeldSessions s
  /\ 0 <= totalMissedSessions s.
Proof.
  intros Inv Hall [Hs | Hs].
  - unfold getMyAttendanceSummary in Hs.
    destruct (filter _ (enrollments dir)) as [| e es]; [discriminate |].
    cbv zeta in Hs. cbn [payload replyWith] in Hs. injection Hs as <-.
    cbn [summaryOf totalHeldSessions totalAttendedSessions totalMissedSessions].
    pose proof (attended_le_held st (inClasses (map e_classId (e :: es))) docs
                  Inv Hall) as Hle.
    cbv beta zeta in Hle. split; [exact Hle | apply Z.le_0_sub; exact Hle].
  - unfold getMyClassAttendanceSummary in Hs.
    cbv zeta in Hs. cbn [payload replyWith] in Hs. injection Hs as <-.
    cbn [summaryOf totalHeldSessions totalAttendedSessions totalMissedSessions].
    pose proof (attended_le_held st (ofClass cid) docs Inv Hall) as Hle.
    cbv beta zeta in Hle. split; [exact Hle | apply Z.le_0_sub; exact Hle].
Qed.

Lemma sample_unique_pairs : atMostOnePerPair Sample.afterSubmit.
Proof.
  intros st sid. unfold recordsFor. change Sample.afterSubmit with
    [submittedRecord Sample.env specSchema "u1" Sample.body Sample.liveSession 0].
  cbn [filter]. destruct (samePair _ _ _); simpl; lia.
Defined.

Lemma summary_attended_bounded_witness :
  totalAttendedSessions (summaryOf (Some "c1") 1 1)
  <= totalHeldSessions (summaryOf (Some "c1") 1 1)
  /\ 0 <= totalMissedSessions (summaryOf (Some "c1") 1 1).
Proof.
  exact (summary_attended_bounded Sample.dir "u1" "c1" Sample.afterSubmit
           (summaryOf (Some "c1") 1 1) sample_unique_pairs
           sample_all_with_session (or_intror eq_refl)).
Defined.

(** ** The rows of the full report *)

Lemma one_user_per_id (us : list User) (id : ObjectId) :
  NoDup (map u_id us) ->
  (List.length (filter (fun u => (u_id u =? id)%string) us) <= 1)%nat.
Proof.
  induction us as [| u us IH]; intros Hnd; [simpl; lia |].
  inversion Hnd as [| x l Hnotin Hnd']; subst. cbn [filter].
  destruct (u_id u =? id)%string eqn:E; [| now apply IH].
  apply String.eqb_eq in E. cbn [List.length].
  assert (Hnone : filter (fun u0 => (u_id u0 =? id)%string) us = []).
  { destruct (filter (fun u0 => (u_id u0 =? id)%string) us) as [| v vs] eqn:Ef;
      [reflexivity |].
    assert (Hv : In v (filter (fun u0 => (u_id u0 =? id)%string) us))
      by (rewrite Ef; now left).
    apply filter_In in Hv as [Hv Hid]. apply String.eqb_eq in Hid.
    exfalso. apply Hnotin. rewrite E, <- Hid. now apply in_map. }
  rewrite Hnone. simpl. lia.
Qed.

Lemma report_student_ids dir (groups : list Group) :
  map rr_studentId (map projectRow (flat_map (lookupStudent dir) groups))
  = flat_map (fun g => match g_id g with
                       | Some id =>
                           map u_id (filter (fun u => (u_id u =? id)%string)
                                       (users dir))
                       | None => []
                       end) groups.
Proof.
  induction groups as [| g gs IH]; [reflexivity |].
  cbn [flat_map]. rewrite !map_app, IH. f_equal.
  unfold lookupStudent. destruct (g_id g) as [id |]; [| reflexivity].
  rewrite !map_map. reflexivity.
Qed.

Lemma report_ids_of_keys dir (keys : list (option ObjectId)) (f : option ObjectId -> Group) :
  (forall k, g_id (f k) = k) ->
  NoDup (map u_id (users dir)) ->
  NoDup keys ->
  NoDup (flat_map (fun g => match g_id g with
                            | Some id =>
                                map u_id (filter (fun u => (u_id u =? id)%string)
                                            (users dir))
                            | None => []
                            end) (map f keys))
  /\ forall x, In x (flat_map (fun g => match g_id g with
                            | Some id =>
                                map u_id (filter (fun u => (u_id u =? id)%string)
                                            (users dir))
                            | None => []
                            end) (map f keys)) -> In (Some x) keys.
Proof.
  intros Hf Hus. induction keys as [| k ks IH]; intros Hnd.
  - split; [constructor | intros x []].
  - inversion Hnd as [| y l Hnotin Hnd']; subst.
    destruct (IH Hnd') as [IHnd IHin]. cbn [map flat_map]. rewrite Hf.
    assert (Hsub : forall x, In x (match k with
                     | Some id => map u_id (filter (fun u => (u_id u =? id)%string)
                                              (users dir))
                     | None => []
                     end) -> k = Some x).
    { intros x Hx. destruct k as [id |]; [| destruct Hx].
      apply in_map_iff in Hx as [u [<- Hu]]. apply filter_In in Hu as [_ E].
      apply String.eqb_eq in E. now rewrite E. }
    split.
    + apply NoDup_app; [| exact IHnd |].
      * destruct k as [id |]; [| constructor].
        pose proof (one_user_per_id (users dir) id Hus) as Hone.
        destruct (filter _ (users dir)) as [| u [| u' us']]; cbn [map];
          [constructor | repeat constructor; intros [] | simpl in Hone; lia].
      * intros x Hx Hx'. apply Hsub in Hx. apply IHin in Hx'. congruence.
    + intros x Hx. apply in_app_or in Hx as [Hx | Hx].
      * left. now apply Hsub.
      * right. now apply IHin.
Qed.

(** X20.  When user ids are distinct, the full-report pipeline yields
    at most one row per student; every row belongs to a user and to a
    student with at least one matching record, and carries that user's
    name and enrollment number; and every user with a matching record
    has a row.  Students without matching records get no row. *)
Theorem report_rows_by_student dir mq docs :
  NoDup (map u_id (users dir)) ->
  NoDup (map rr_studentId (aggregateReport dir mq docs))
  /\ (forall row, In row (aggregateReport dir mq docs) ->
        (exists u, In u (users dir) /\ u_id u = rr_studentId row
                   /\ studentName row = fullName u
                   /\ rr_enrollmentNo row = enrollmentNo u)
        /\ exists d, In d docs /\ matches mq d = true
                     /\ studentId d = Some (rr_studentId row))
  /\ (forall u d, In u (users dir) -> In d docs -> matches mq d = true ->
                  studentId d = Some (u_id u) ->
                  exists row, In row (aggregateReport dir mq docs)
                              /\ rr_studentId row = u_id u).
Proof.
  intros Hus. split; [| split].
  - unfold aggregateReport, groupByStudent. rewrite report_student_ids.
    apply (report_ids_of_keys dir _
             (fun key => {| g_id := key;
                            g_presentDays := sumStatus "present" key _;
                            g_absentDays := sumStatus "absent" key _;
                            g_lateDays := sumStatus "late" key _ |}));
      [reflexivity | exact Hus | apply NoDup_nodup].
  - intros row Hin. split.
    + destruct (report_row_origin dir mq docs row Hin) as [u [Hu ->]].
      exists u. repeat split. exact Hu.
    + unfold aggregateReport in Hin.
      apply in_map_iff in Hin as [[g u'] [<- Hg]].
      cbn [projectRow rr_studentId].
      apply in_flat_map in Hg as [g' [Hg' Hl]].
      unfold groupByStudent in Hg'. apply in_map_iff in Hg' as [key [<- Hkey]].
      apply nodup_In, in_map_iff in Hkey as [d [Hd Hdin]].
      apply filter_In in Hdin as [Hdin Hm].
      unfold lookupStudent in Hl. cbn [g_id] in Hl.
      destruct key as [id |]; [| destruct Hl].
      apply in_map_iff in Hl as [u'' [Hpair Hu'']].
      apply filter_In in Hu'' as [_ E]. apply String.eqb_eq in E.
      assert (Eu : u'' = u') by congruence. subst u''.
      exists d. split; [exact Hdin |]. split; [exact Hm |].
      rewrite Hd, E. reflexivity.
  - intros u d Hu Hd Hm Hs.
    set (G := {| g_id := Some (u_id u);
                 g_presentDays := sumStatus "present" (Some (u_id u))
                                    (filter (matches mq) docs);
                 g_absentDays := sumStatus "absent" (Some (u_id u))
                                   (filter (matches mq) docs);
                 g_lateDays := sumStatus "late" (Some (u_id u))
                                 (filter (matches mq) docs) |}).
    exists (projectRow (G, u)). split; [| reflexivity].
    unfold aggregateReport. apply in_map. apply in_flat_map.
    exists G. split.
    + unfold groupByStudent, G.
      apply (in_map (fun key => {| g_id := key;
                                   g_presentDays := sumStatus "present" key _;
                                   g_absentDays := sumStatus "absent" key _;
                                   g_lateDays := sumStatus "late" key _ |})).
      apply nodup_In. rewrite <- Hs. apply in_map. apply filter_In. now split.
    + unfold lookupStudent, G. cbn [g_id]. apply in_map. apply filter_In.
      split; [exact Hu | apply String.eqb_refl].
Qed.

Lemma report_rows_by_student_witness :
  NoDup (map rr_studentId
           (aggregateReport Sample.dir Sample.wholeClass Sample.reportStore))
  /\ map rr_studentId
       (aggregateReport Sample.dir Sample.wholeClass Sample.reportStore) = ["u1"].
Proof.
  split; [| reflexivity].
  apply (report_rows_by_student Sample.dir Sample.wholeClass Sample.reportStore).
  repeat constructor. intros [].
Defined.
